(** * ArtPriv: the donor and bank lifecycle engine

    A shallow embedding of the Python sources that drive the two onboarding
    state machines of ArtPriv:

    - [models/models.py]: the enumerations and the persisted rows;
    - [utils/state_machine.py]: the transition tables and the two
      [transition_*_state] functions;
    - [utils/dependencies.py]: the request dependencies that resolve the caller;
    - [api/routes/auth.py], [api/routes/donor.py], [api/routes/bank.py]: the
      request handlers of the main API;
    - [adminside/backend/routes.py]: the two admin handlers that write a bank's
      state ([verify_bank], [update_bank_subscription]);
    - [api/routes/public.py]: the public view of a bank;
    - [adminside/backend/routes.py], further: the admin guards, [create_admin]
      and the activity log;
    - [services/business_logic.py]: the service classes.

    Handlers run in a SQLAlchemy session.  The session is modelled by three
    copies of the database (committed rows, rows flushed to the open
    transaction, and the live Python objects) and by a small state-and-exception
    monad.  The module [database.py], which builds the session factory, is not
    part of the sources at hand; the one setting of it that the handlers are
    sensitive to, [autoflush], is a parameter of every request. *)

From stdpp Require Import gmap strings list fin_maps sorting.

Local Open Scope string_scope.

(** ** Enumerations ([models/models.py]) *)

Module DonorState.

Inductive t : Set :=
| VISITOR
| BANK_SELECTED
| LEAD_CREATED
| ACCOUNT_CREATED
| COUNSELING_REQUESTED
| CONSENT_PENDING
| CONSENT_VERIFIED
| TESTS_PENDING
| ELIGIBILITY_DECISION
| DONOR_ONBOARDED.

#[global] Instance eq_dec : EqDecision t.
Proof. solve_decision. Defined.

Definition value (s : t) : string :=
  match s with
  | VISITOR => "visitor"
  | BANK_SELECTED => "bank_selected"
  | LEAD_CREATED => "lead_created"
  | ACCOUNT_CREATED => "account_created"
  | COUNSELING_REQUESTED => "counseling_requested"
  | CONSENT_PENDING => "consent_pending"
  | CONSENT_VERIFIED => "consent_verified"
  | TESTS_PENDING => "tests_pending"
  | ELIGIBILITY_DECISION => "eligibility_decision"
  | DONOR_ONBOARDED => "donor_onboarded"
  end.

(** Position of a state in the declaration order of the enumeration. *)
Definition rank (s : t) : nat :=
  match s with
  | VISITOR => 0
  | BANK_SELECTED => 1
  | LEAD_CREATED => 2
  | ACCOUNT_CREATED => 3
  | COUNSELING_REQUESTED => 4
  | CONSENT_PENDING => 5
  | CONSENT_VERIFIED => 6
  | TESTS_PENDING => 7
  | ELIGIBILITY_DECISION => 8
  | DONOR_ONBOARDED => 9
  end.

End DonorState.

Module BankState.

Inductive t : Set :=
| UNREGISTERED
| ACCOUNT_CREATED
| VERIFICATION_PENDING
| VERIFIED
| SUBSCRIPTION_PENDING
| SUBSCRIBED_ONBOARDED
| OPERATIONAL.

#[global] Instance eq_dec : EqDecision t.
Proof. solve_decision. Defined.

Definition value (s : t) : string :=
  match s with
  | UNREGISTERED => "unregistered"
  | ACCOUNT_CREATED => "account_created"
  | VERIFICATION_PENDING => "verification_pending"
  | VERIFIED => "verified"
  | SUBSCRIPTION_PENDING => "subscription_pending"
  | SUBSCRIBED_ONBOARDED => "subscribed_onboarded"
  | OPERATIONAL => "operational"
  end.

(** The admin portal declares the same column as a plain string and assigns
    string literals to it; [of_value] reads such a literal back. *)
Definition of_value (v : string) : option t :=
  if decide (v = "unregistered") then Some UNREGISTERED
  else if decide (v = "account_created") then Some ACCOUNT_CREATED
  else if decide (v = "verification_pending") then Some VERIFICATION_PENDING
  else if decide (v = "verified") then Some VERIFIED
  else if decide (v = "subscription_pending") then Some SUBSCRIPTION_PENDING
  else if decide (v = "subscribed_onboarded") then Some SUBSCRIBED_ONBOARDED
  else if decide (v = "operational") then Some OPERATIONAL
  else None.

Definition rank (s : t) : nat :=
  match s with
  | UNREGISTERED => 0
  | ACCOUNT_CREATED => 1
  | VERIFICATION_PENDING => 2
  | VERIFIED => 3
  | SUBSCRIPTION_PENDING => 4
  | SUBSCRIBED_ONBOARDED => 5
  | OPERATIONAL => 6
  end.

End BankState.

Module ConsentStatus.

Inductive t : Set := PENDING | SIGNED | VERIFIED | REJECTED.

#[global] Instance eq_dec : EqDecision t.
Proof. solve_decision. Defined.

End ConsentStatus.

Module CounselingMethod.

Inductive t : Set := CALL | VIDEO | IN_PERSON | EMAIL.

#[global] Instance eq_dec : EqDecision t.
Proof. solve_decision. Defined.

End CounselingMethod.

Module CounselingStatus.

Inductive t : Set := REQUESTED | SCHEDULED | COMPLETED | CANCELLED.

#[global] Instance eq_dec : EqDecision t.
Proof. solve_decision. Defined.

End CounselingStatus.

Module EligibilityStatus.

Inductive t : Set := PENDING | APPROVED | REJECTED.

#[global] Instance eq_dec : EqDecision t.
Proof. solve_decision. Defined.

Definition value (s : t) : string :=
  match s with
  | PENDING => "pending"
  | APPROVED => "approved"
  | REJECTED => "rejected"
  end.

End EligibilityStatus.

(** ** Rows ([models/models.py])

    Primary keys are the strings produced by [generate_uuid]; timestamps are
    natural numbers.  Free-form profile columns (names, phone, address, ...)
    that no handler below reads are left out. *)

Record Bank : Type := mkBank {
  b_id : string;
  b_email : string;
  b_hashed_password : string;
  b_name : string;
  b_state : BankState.t;
  b_certification_documents : option (list string);
  b_is_verified : bool;
  b_verified_at : option nat;
  b_verified_by : option string;
  b_is_subscribed : bool;
  b_subscription_tier : option string;
  b_subscription_started_at : option nat;
  b_subscription_expires_at : option nat;
  b_counseling_config : option (list CounselingMethod.t)
}.

Record Donor : Type := mkDonor {
  d_id : string;
  d_email : string;
  d_hashed_password : option string;
  d_state : DonorState.t;
  d_bank_id : option string;
  d_selected_at : option nat;
  d_legal_documents : option (list string);
  d_consent_pending : bool;
  d_counseling_pending : bool;
  d_tests_pending : bool;
  d_eligibility_status : EligibilityStatus.t;
  d_eligibility_notes : option string;
  d_eligibility_decided_at : option nat
}.

Record ConsentTemplate : Type := mkConsentTemplate {
  t_id : string;
  t_bank_id : string;
  t_title : string;
  t_order : Z;
  t_is_active : bool
}.

Record DonorConsent : Type := mkDonorConsent {
  c_id : string;
  c_donor_id : string;
  c_template_id : string;
  c_status : ConsentStatus.t;
  c_signed_at : option nat;
  c_verified_at : option nat;
  c_verified_by : option string;
  c_verification_notes : option string
}.

Record CounselingSession : Type := mkCounselingSession {
  s_id : string;
  s_donor_id : string;
  s_bank_id : string;
  s_status : CounselingStatus.t;
  s_method : CounselingMethod.t;
  s_notes : option string
}.

Record TestReport : Type := mkTestReport {
  r_id : string;
  r_donor_id : string;
  r_bank_id : string;
  r_test_type : string;
  r_test_name : string;
  r_file_url : string;
  r_uploaded_by : string
}.

Record DonorStateHistory : Type := mkDonorStateHistory {
  dh_donor_id : string;
  dh_from_state : option DonorState.t;
  dh_to_state : DonorState.t;
  dh_changed_by : string;
  dh_changed_by_role : string;
  dh_reason : option string
}.

Record BankStateHistory : Type := mkBankStateHistory {
  bh_bank_id : string;
  bh_from_state : option BankState.t;
  bh_to_state : BankState.t;
  bh_changed_by : string;
  bh_reason : option string
}.

Record Admin : Type := mkAdmin {
  a_id : string;
  a_email : string;
  a_role : string;
  a_is_active : bool
}.

Record ActivityLog : Type := mkActivityLog {
  l_admin_id : string;
  l_action : string;
  l_entity_type : string;
  l_entity_id : option string
}.

(** ** The database

    [banks], [donors] and [admins] are keyed by primary key.  The other tables
    are lists in insertion order; the two history tables carry a server-side
    [created_at], so their insertion order is their order by timestamp. *)

Record Db : Type := mkDb {
  banks : gmap string Bank;
  donors : gmap string Donor;
  admins : gmap string Admin;
  consent_templates : list ConsentTemplate;
  donor_consents : list DonorConsent;
  counseling_sessions : list CounselingSession;
  test_reports : list TestReport;
  donor_state_history : list DonorStateHistory;
  bank_state_history : list BankStateHistory;
  activity_logs : list ActivityLog
}.

Definition empty_db : Db :=
  mkDb ∅ ∅ ∅ [] [] [] [] [] [] [].

(** Field updates. *)

Definition with_banks (m : gmap string Bank) (db : Db) : Db :=
  mkDb m (donors db) (admins db) (consent_templates db) (donor_consents db)
    (counseling_sessions db) (test_reports db) (donor_state_history db)
    (bank_state_history db) (activity_logs db).

Definition with_donors (m : gmap string Donor) (db : Db) : Db :=
  mkDb (banks db) m (admins db) (consent_templates db) (donor_consents db)
    (counseling_sessions db) (test_reports db) (donor_state_history db)
    (bank_state_history db) (activity_logs db).

Definition with_admins (m : gmap string Admin) (db : Db) : Db :=
  mkDb (banks db) (donors db) m (consent_templates db) (donor_consents db)
    (counseling_sessions db) (test_reports db) (donor_state_history db)
    (bank_state_history db) (activity_logs db).

Definition with_consent_templates (l : list ConsentTemplate) (db : Db) : Db :=
  mkDb (banks db) (donors db) (admins db) l (donor_consents db)
    (counseling_sessions db) (test_reports db) (donor_state_history db)
    (bank_state_history db) (activity_logs db).

Definition with_donor_consents (l : list DonorConsent) (db : Db) : Db :=
  mkDb (banks db) (donors db) (admins db) (consent_templates db) l
    (counseling_sessions db) (test_reports db) (donor_state_history db)
    (bank_state_history db) (activity_logs db).

Definition with_counseling_sessions (l : list CounselingSession) (db : Db) : Db :=
  mkDb (banks db) (donors db) (admins db) (consent_templates db)
    (donor_consents db) l (test_reports db) (donor_state_history db)
    (bank_state_history db) (activity_logs db).

Definition with_test_reports (l : list TestReport) (db : Db) : Db :=
  mkDb (banks db) (donors db) (admins db) (consent_templates db)
    (donor_consents db) (counseling_sessions db) l (donor_state_history db)
    (bank_state_history db) (activity_logs db).

Definition with_donor_state_history (l : list DonorStateHistory) (db : Db) : Db :=
  mkDb (banks db) (donors db) (admins db) (consent_templates db)
    (donor_consents db) (counseling_sessions db) (test_reports db) l
    (bank_state_history db) (activity_logs db).

Definition with_bank_state_history (l : list BankStateHistory) (db : Db) : Db :=
  mkDb (banks db) (donors db) (admins db) (consent_templates db)
    (donor_consents db) (counseling_sessions db) (test_reports db)
    (donor_state_history db) l (activity_logs db).

Definition with_activity_logs (l : list ActivityLog) (db : Db) : Db :=
  mkDb (banks db) (donors db) (admins db) (consent_templates db)
    (donor_consents db) (counseling_sessions db) (test_reports db)
    (donor_state_history db) (bank_state_history db) l.

Definition with_d_state (s : DonorState.t) (d : Donor) : Donor :=
  mkDonor (d_id d) (d_email d) (d_hashed_password d) s (d_bank_id d)
    (d_selected_at d) (d_legal_documents d) (d_consent_pending d)
    (d_counseling_pending d) (d_tests_pending d) (d_eligibility_status d)
    (d_eligibility_notes d) (d_eligibility_decided_at d).

Definition with_d_hashed_password (p : option string) (d : Donor) : Donor :=
  mkDonor (d_id d) (d_email d) p (d_state d) (d_bank_id d)
    (d_selected_at d) (d_legal_documents d) (d_consent_pending d)
    (d_counseling_pending d) (d_tests_pending d) (d_eligibility_status d)
    (d_eligibility_notes d) (d_eligibility_decided_at d).

Definition with_d_legal_documents (l : option (list string)) (d : Donor) : Donor :=
  mkDonor (d_id d) (d_email d) (d_hashed_password d) (d_state d) (d_bank_id d)
    (d_selected_at d) l (d_consent_pending d)
    (d_counseling_pending d) (d_tests_pending d) (d_eligibility_status d)
    (d_eligibility_notes d) (d_eligibility_decided_at d).

Definition with_d_eligibility (st : EligibilityStatus.t) (notes : option string)
    (decided_at : option nat) (d : Donor) : Donor :=
  mkDonor (d_id d) (d_email d) (d_hashed_password d) (d_state d) (d_bank_id d)
    (d_selected_at d) (d_legal_documents d) (d_consent_pending d)
    (d_counseling_pending d) (d_tests_pending d) st notes decided_at.

Definition with_b_state (s : BankState.t) (b : Bank) : Bank :=
  mkBank (b_id b) (b_email b) (b_hashed_password b) (b_name b) s
    (b_certification_documents b) (b_is_verified b) (b_verified_at b)
    (b_verified_by b) (b_is_subscribed b) (b_subscription_tier b)
    (b_subscription_started_at b) (b_subscription_expires_at b)
    (b_counseling_config b).

Definition with_b_certification_documents (l : option (list string)) (b : Bank) : Bank :=
  mkBank (b_id b) (b_email b) (b_hashed_password b) (b_name b) (b_state b)
    l (b_is_verified b) (b_verified_at b)
    (b_verified_by b) (b_is_subscribed b) (b_subscription_tier b)
    (b_subscription_started_at b) (b_subscription_expires_at b)
    (b_counseling_config b).

Definition with_b_verification (v : bool) (at_ : option nat) (by_ : option string)
    (b : Bank) : Bank :=
  mkBank (b_id b) (b_email b) (b_hashed_password b) (b_name b) (b_state b)
    (b_certification_documents b) v at_ by_ (b_is_subscribed b)
    (b_subscription_tier b) (b_subscription_started_at b)
    (b_subscription_expires_at b) (b_counseling_config b).

Definition with_b_subscription (sub : bool) (tier : option string)
    (started expires : option nat) (b : Bank) : Bank :=
  mkBank (b_id b) (b_email b) (b_hashed_password b) (b_name b) (b_state b)
    (b_certification_documents b) (b_is_verified b) (b_verified_at b)
    (b_verified_by b) sub tier started expires (b_counseling_config b).

Definition with_b_counseling_config (c : option (list CounselingMethod.t))
    (b : Bank) : Bank :=
  mkBank (b_id b) (b_email b) (b_hashed_password b) (b_name b) (b_state b)
    (b_certification_documents b) (b_is_verified b) (b_verified_at b)
    (b_verified_by b) (b_is_subscribed b) (b_subscription_tier b)
    (b_subscription_started_at b) (b_subscription_expires_at b) c.

Definition with_c_verification (st : ConsentStatus.t) (at_ : option nat)
    (by_ : option string) (notes : option string) (c : DonorConsent) : DonorConsent :=
  mkDonorConsent (c_id c) (c_donor_id c) (c_template_id c) st (c_signed_at c)
    at_ by_ notes.

(** ** The session

    [committed] is what other requests see, [flushed] what the SQL statements
    of the open transaction see, [live] the attribute values of the Python
    objects attached to the session.  A handler that raises leaves the request
    with whatever was committed before. *)

Inductive Exn : Type :=
| HTTPException (status_code : nat) (detail : string)
| ValueError (msg : string)
| IntegrityError
| ObjectNotFound.

Record Session : Type := mkSession {
  autoflush : bool;
  committed : Db;
  flushed : Db;
  live : Db
}.

Definition M (A : Type) : Type := Session -> (Exn + A) * Session.

Definition ret {A : Type} (a : A) : M A := fun s => (inr a, s).

Definition raise {A : Type} (e : Exn) : M A := fun s => (inl e, s).

Definition bind {A B : Type} (m : M A) (k : A -> M B) : M B :=
  fun s =>
    match m s with
    | (inl e, s') => (inl e, s')
    | (inr a, s') => k a s'
    end.

Notation "'let!' x ':=' m 'in' k" := (bind m (fun x => k))
  (at level 10, x name, m at level 100, k at level 200).

Notation "m '>>' k" := (bind m (fun _ => k))
  (at level 65, right associativity).

(** [db.flush()]: pending changes reach the open transaction. *)
Definition flush : M unit :=
  fun s => (inr tt, mkSession (autoflush s) (committed s) (live s) (live s)).

(** Running a query: with [autoflush] the session flushes first; the rows the
    statement sees are the flushed ones. *)
Definition query : M Db :=
  fun s =>
    let s' := if autoflush s
              then mkSession (autoflush s) (committed s) (live s) (live s)
              else s in
    (inr (flushed s'), s').

(** [db.commit()]: flush, then make the transaction visible. *)
Definition commit : M unit :=
  fun s => (inr tt, mkSession (autoflush s) (live s) (live s) (live s)).

(** Reading and writing attributes of attached objects. *)
Definition objects : M Db := fun s => (inr (live s), s).

Definition modify (f : Db -> Db) : M unit :=
  fun s => (inr tt, mkSession (autoflush s) (committed s) (flushed s) (f (live s))).

(** A request opens a session on the database, runs the handler and closes the
    session; uncommitted work is discarded. *)
Definition open_session (af : bool) (db : Db) : Session := mkSession af db db db.

Definition run_request {A : Type} (af : bool) (m : M A) (db : Db) : (Exn + A) * Db :=
  let (r, s) := m (open_session af db) in (r, committed s).

(** Objects are passed around by reference; a reference is the primary key.
    Reading through a reference whose row is gone raises [ObjectNotFound]; the
    handlers only hold references they have just resolved. *)
Definition donor_obj (id : string) : M Donor :=
  let! db := objects in
  match donors db !! id with
  | Some d => ret d
  | None => raise ObjectNotFound
  end.

Definition bank_obj (id : string) : M Bank :=
  let! db := objects in
  match banks db !! id with
  | Some b => ret b
  | None => raise ObjectNotFound
  end.

Definition set_donor (id : string) (f : Donor -> Donor) : M unit :=
  let! d := donor_obj id in
  modify (fun db => with_donors (<[id := f d]> (donors db)) db).

Definition set_bank (id : string) (f : Bank -> Bank) : M unit :=
  let! b := bank_obj id in
  modify (fun db => with_banks (<[id := f b]> (banks db)) db).

(** ** [utils/state_machine.py] *)

Definition DONOR_STATE_TRANSITIONS (s : DonorState.t) : list DonorState.t :=
  match s with
  | DonorState.VISITOR => [DonorState.BANK_SELECTED]
  | DonorState.BANK_SELECTED => [DonorState.LEAD_CREATED]
  | DonorState.LEAD_CREATED => [DonorState.ACCOUNT_CREATED]
  | DonorState.ACCOUNT_CREATED => [DonorState.COUNSELING_REQUESTED]
  | DonorState.COUNSELING_REQUESTED => [DonorState.CONSENT_PENDING]
  | DonorState.CONSENT_PENDING => [DonorState.CONSENT_VERIFIED]
  | DonorState.CONSENT_VERIFIED => [DonorState.TESTS_PENDING]
  | DonorState.TESTS_PENDING => [DonorState.ELIGIBILITY_DECISION]
  | DonorState.ELIGIBILITY_DECISION => [DonorState.DONOR_ONBOARDED]
  | DonorState.DONOR_ONBOARDED => []
  end.

(** [BankState.UNREGISTERED] is not a key of the dictionary: [.get] falls back
    to the empty list. *)
Definition BANK_STATE_TRANSITIONS (s : BankState.t) : list BankState.t :=
  match s with
  | BankState.UNREGISTERED => []
  | BankState.ACCOUNT_CREATED => [BankState.VERIFICATION_PENDING]
  | BankState.VERIFICATION_PENDING => [BankState.VERIFIED]
  | BankState.VERIFIED => [BankState.SUBSCRIPTION_PENDING]
  | BankState.SUBSCRIPTION_PENDING => [BankState.SUBSCRIBED_ONBOARDED]
  | BankState.SUBSCRIBED_ONBOARDED => [BankState.OPERATIONAL]
  | BankState.OPERATIONAL => []
  end.

Definition can_transition_donor_state (current_state new_state : DonorState.t) : bool :=
  bool_decide (new_state ∈ DONOR_STATE_TRANSITIONS current_state).

Definition can_transition_bank_state (current_state new_state : BankState.t) : bool :=
  bool_decide (new_state ∈ BANK_STATE_TRANSITIONS current_state).

(** The message of the [ValueError] is an f-string over the two states.  The
    model renders a state by its value, as Python up to 3.10 formats a member
    of an enumeration that mixes in [str]; from Python 3.11 on the same
    f-string gives the name of the member ([DonorState.VISITOR]).  Nothing but
    the text of the message depends on it. *)
Definition transition_donor_state (donor : string) (new_state : DonorState.t)
    (changed_by changed_by_role : string) (reason : option string) : M unit :=
  let! d := donor_obj donor in
  if negb (can_transition_donor_state (d_state d) new_state) then
    raise (ValueError ("Invalid state transition from "
                       +:+ DonorState.value (d_state d) +:+ " to "
                       +:+ DonorState.value new_state))
  else
    let old_state := d_state d in
    set_donor donor (with_d_state new_state) >>
    modify (fun db =>
      with_donor_state_history
        (donor_state_history db ++
         [mkDonorStateHistory (d_id d) (Some old_state) new_state
            changed_by changed_by_role reason]) db) >>
    commit.

Definition transition_bank_state (bank : string) (new_state : BankState.t)
    (changed_by : string) (reason : option string) : M unit :=
  let! b := bank_obj bank in
  if negb (can_transition_bank_state (b_state b) new_state) then
    raise (ValueError ("Invalid state transition from "
                       +:+ BankState.value (b_state b) +:+ " to "
                       +:+ BankState.value new_state))
  else
    let old_state := b_state b in
    set_bank bank (with_b_state new_state) >>
    modify (fun db =>
      with_bank_state_history
        (bank_state_history db ++
         [mkBankStateHistory (b_id b) (Some old_state) new_state
            changed_by reason]) db) >>
    commit.

(** ** Queries and inserts *)

(** [db.query(T).filter(...).first()] on a table keyed by primary key. *)
Definition first_where {A : Type} (P : A -> Prop) `{!∀ x, Decision (P x)}
    (m : gmap string A) : option A :=
  head (filter P (snd <$> map_to_list m)).

(** [db.add(row)]: a primary key that is already taken makes the flush fail
    with [IntegrityError].  The flush happens at the next autoflush or commit;
    every handler below adds before its first commit, so the request fails with
    nothing committed either way, and the failure is raised at the add. *)
Definition add_bank (b : Bank) : M unit :=
  let! db := objects in
  match banks db !! b_id b with
  | Some _ => raise IntegrityError
  | None => modify (fun db => with_banks (<[b_id b := b]> (banks db)) db)
  end.

Definition add_donor (d : Donor) : M unit :=
  let! db := objects in
  match donors db !! d_id d with
  | Some _ => raise IntegrityError
  | None => modify (fun db => with_donors (<[d_id d := d]> (donors db)) db)
  end.

Definition add_admin (a : Admin) : M unit :=
  let! db := objects in
  match admins db !! a_id a with
  | Some _ => raise IntegrityError
  | None => modify (fun db => with_admins (<[a_id a := a]> (admins db)) db)
  end.

Definition add_consent_template (t : ConsentTemplate) : M unit :=
  let! db := objects in
  if bool_decide (t_id t ∈ t_id <$> consent_templates db) then raise IntegrityError
  else modify (fun db => with_consent_templates (consent_templates db ++ [t]) db).

Definition add_donor_consent (c : DonorConsent) : M unit :=
  let! db := objects in
  if bool_decide (c_id c ∈ c_id <$> donor_consents db) then raise IntegrityError
  else modify (fun db => with_donor_consents (donor_consents db ++ [c]) db).

Definition add_counseling_session (x : CounselingSession) : M unit :=
  let! db := objects in
  if bool_decide (s_id x ∈ s_id <$> counseling_sessions db) then raise IntegrityError
  else modify (fun db => with_counseling_sessions (counseling_sessions db ++ [x]) db).

Definition add_test_report (x : TestReport) : M unit :=
  let! db := objects in
  if bool_decide (r_id x ∈ r_id <$> test_reports db) then raise IntegrityError
  else modify (fun db => with_test_reports (test_reports db ++ [x]) db).

Definition HTTP_400_BAD_REQUEST : nat := 400.
Definition HTTP_401_UNAUTHORIZED : nat := 401.
Definition HTTP_403_FORBIDDEN : nat := 403.
Definition HTTP_404_NOT_FOUND : nat := 404.

(** ** [utils/dependencies.py]

    Decoding the bearer token is outside the model: a request carries the
    decoded payload, or [None] when [decode_access_token] rejects the token. *)

Record Payload : Type := mkPayload {
  p_sub : option string;
  p_type : option string
}.

Definition get_current_user (payload : option Payload) : M (string * string) :=
  match payload with
  | None =>
      raise (HTTPException HTTP_401_UNAUTHORIZED "Invalid authentication credentials")
  | Some p =>
      match p_sub p, p_type p with
      | Some user_id, Some user_type =>
          if decide (user_type = "bank") then
            let! db := query in
            match banks db !! user_id with
            | Some _ => ret (user_id, user_type)
            | None => raise (HTTPException HTTP_401_UNAUTHORIZED "User not found")
            end
          else if decide (user_type = "donor") then
            let! db := query in
            match donors db !! user_id with
            | Some _ => ret (user_id, user_type)
            | None => raise (HTTPException HTTP_401_UNAUTHORIZED "User not found")
            end
          else raise (HTTPException HTTP_401_UNAUTHORIZED "Invalid user type")
      | _, _ => raise (HTTPException HTTP_401_UNAUTHORIZED "Invalid token payload")
      end
  end.

Definition get_current_bank (payload : option Payload) : M string :=
  let! current_user := get_current_user payload in
  if decide (current_user.2 ≠ "bank") then
    raise (HTTPException HTTP_403_FORBIDDEN "Bank access required")
  else ret current_user.1.

Definition get_current_donor (payload : option Payload) : M string :=
  let! current_user := get_current_user payload in
  if decide (current_user.2 ≠ "donor") then
    raise (HTTPException HTTP_403_FORBIDDEN "Donor access required")
  else ret current_user.1.

Definition get_verified_bank (payload : option Payload) : M string :=
  let! bank := get_current_bank payload in
  let! b := bank_obj bank in
  if negb (b_is_verified b) then
    raise (HTTPException HTTP_403_FORBIDDEN "Bank verification required")
  else ret bank.

Definition get_subscribed_bank (payload : option Payload) : M string :=
  let! bank := get_verified_bank payload in
  let! b := bank_obj bank in
  if negb (b_is_subscribed b) then
    raise (HTTPException HTTP_403_FORBIDDEN "Active subscription required")
  else ret bank.

(** ** [api/routes/auth.py] *)

(** [hashed_password] is the result of [hash_password(password)]. *)
Definition register_bank (email hashed_password name new_id : string) : M string :=
  let! db := query in
  match first_where (fun b => b_email b = email) (banks db) with
  | Some _ => raise (HTTPException HTTP_400_BAD_REQUEST "Email already registered")
  | None =>
      add_bank (mkBank new_id email hashed_password name BankState.ACCOUNT_CREATED
                  None false None None false None None None None) >>
      commit >>
      ret new_id
  end.

(** ** [api/routes/donor.py] *)

Definition create_lead (bank_id email new_id : string) (now : nat) : M string :=
  let! db := query in
  match banks db !! bank_id with
  | None => raise (HTTPException HTTP_400_BAD_REQUEST "Invalid or inactive bank")
  | Some bank =>
      if negb (b_is_verified bank) || negb (b_is_subscribed bank) then
        raise (HTTPException HTTP_400_BAD_REQUEST "Invalid or inactive bank")
      else
        let! db := query in
        match first_where (fun d => d_email d = email) (donors db) with
        | Some _ => raise (HTTPException HTTP_400_BAD_REQUEST "Email already registered")
        | None =>
            add_donor (mkDonor new_id email None DonorState.BANK_SELECTED
                         (Some (b_id bank)) (Some now) None true true true
                         EligibilityStatus.PENDING None None) >>
            commit >>
            transition_donor_state new_id DonorState.LEAD_CREATED
              new_id "donor" (Some "Lead created with bank selection") >>
            ret new_id
        end
  end.

Definition create_account (email hashed_password : string)
    (legal_documents : option (list string)) : M string :=
  let! db := query in
  match first_where (fun d => d_email d = email) (donors db) with
  | None =>
      raise (HTTPException HTTP_404_NOT_FOUND "Lead not found. Please create a lead first.")
  | Some donor =>
      if decide (d_state donor ≠ DonorState.LEAD_CREATED) then
        raise (HTTPException HTTP_400_BAD_REQUEST "Account already created or invalid state")
      else
        set_donor (d_id donor) (with_d_hashed_password (Some hashed_password)) >>
        match legal_documents with
        | Some (_ :: _) => set_donor (d_id donor) (with_d_legal_documents legal_documents)
        | _ => ret tt
        end >>
        transition_donor_state (d_id donor) DonorState.ACCOUNT_CREATED
          (d_id donor) "donor" (Some "Account created with credentials") >>
        ret (d_id donor)
  end.

Definition sign_consent (current_donor : string) (template_id new_id : string)
    (now : nat) : M string :=
  let! cd := donor_obj current_donor in
  if decide (d_state cd ∉ [DonorState.CONSENT_PENDING;
                           DonorState.COUNSELING_REQUESTED;
                           DonorState.ACCOUNT_CREATED]) then
    raise (HTTPException HTTP_400_BAD_REQUEST
             ("Cannot sign consents in current state: " +:+ DonorState.value (d_state cd)))
  else
    let! db := query in
    match head (filter (fun t => t_id t = template_id ∧ Some (t_bank_id t) = d_bank_id cd)
                  (consent_templates db)) with
    | None => raise (HTTPException HTTP_404_NOT_FOUND "Consent template not found")
    | Some template =>
        let! db := query in
        match head (filter (fun c => c_donor_id c = d_id cd ∧ c_template_id c = template_id)
                      (donor_consents db)) with
        | Some _ => raise (HTTPException HTTP_400_BAD_REQUEST "Consent already signed")
        | None =>
            add_donor_consent (mkDonorConsent new_id (d_id cd) template_id
                                 ConsentStatus.SIGNED (Some now) None None None) >>
            let! db := query in
            let total_consents :=
              length (filter (fun c => c_donor_id c = d_id cd
                                       ∧ c_status c = ConsentStatus.SIGNED)
                        (donor_consents db)) in
            let! cd := donor_obj current_donor in
            (if bool_decide (d_state cd = DonorState.COUNSELING_REQUESTED)
                && bool_decide (total_consents = 0)
             then transition_donor_state current_donor DonorState.CONSENT_PENDING
                    (d_id cd) "donor" (Some "Started signing consent forms")
             else ret tt) >>
            commit >>
            ret new_id
        end
    end.

(** The detail of the third error is an f-string that names the method; the
    model leaves the name out. *)
Definition request_counseling (current_donor : string) (method : CounselingMethod.t)
    (notes : option string) (new_id : string) : M string :=
  let! cd := donor_obj current_donor in
  if decide (d_state cd ≠ DonorState.ACCOUNT_CREATED) then
    raise (HTTPException HTTP_400_BAD_REQUEST "Invalid state for counseling request")
  else
    match d_bank_id cd with
    | None | Some "" => raise (HTTPException HTTP_400_BAD_REQUEST "No bank associated")
    | Some bank_id =>
        let! db := query in
        match banks db !! bank_id with
        | None => raise ObjectNotFound
        | Some bank =>
            match b_counseling_config bank with
            | Some allowed_methods =>
                if decide (method ∉ allowed_methods) then
                  raise (HTTPException HTTP_400_BAD_REQUEST
                           "Counseling method not supported by bank")
                else ret tt
            | None => ret tt
            end >>
            add_counseling_session
              (mkCounselingSession new_id (d_id cd) bank_id
                 CounselingStatus.REQUESTED method notes) >>
            transition_donor_state current_donor DonorState.COUNSELING_REQUESTED
              (d_id cd) "donor" (Some "Counseling requested") >>
            commit >>
            ret new_id
        end
    end.

(** ** [api/routes/bank.py]

    [save_upload_file] talks to the storage service; a handler receives its
    outcome, the URL of the stored file or the exception it raised. *)

Definition save_upload_file (file : Exn + string) : M string :=
  match file with
  | inl e => raise e
  | inr file_url => ret file_url
  end.

(** [certification_documents] is a plain JSON column.  Assigning the empty
    list marks the attribute as changed, and the list, appended to, is written
    at the next flush.  Appending to a list that was loaded from the row
    changes the loaded object only: the session does not see it, writes
    nothing, and after the commit the object is read from the row again. *)
Definition upload_certification (current_bank : string) (file : Exn + string) : M string :=
  let! file_url := save_upload_file file in
  let! b := bank_obj current_bank in
  match b_certification_documents b with
  | None =>
      set_bank current_bank (with_b_certification_documents (Some [])) >>
      set_bank current_bank
        (fun b => with_b_certification_documents
                    (Some (default [] (b_certification_documents b) ++ [file_url])%list) b)
  | Some _ => ret tt
  end >>
  let! b := bank_obj current_bank in
  (if decide (b_state b = BankState.ACCOUNT_CREATED) then
     transition_bank_state current_bank BankState.VERIFICATION_PENDING
       (b_id b) (Some "Certification documents uploaded")
   else ret tt) >>
  commit >>
  ret file_url.

Definition update_counseling_config (current_bank : string)
    (methods : list CounselingMethod.t) : M unit :=
  set_bank current_bank (with_b_counseling_config (Some methods)) >>
  commit.

Definition create_subscription (current_bank : string) (subscription_tier : string)
    (now : nat) : M unit :=
  let! b := bank_obj current_bank in
  if decide (b_state b ≠ BankState.VERIFIED) then
    raise (HTTPException HTTP_400_BAD_REQUEST "Bank must be verified first")
  else
    set_bank current_bank
      (fun b => with_b_subscription true (Some subscription_tier) (Some now)
                  (b_subscription_expires_at b) b) >>
    transition_bank_state current_bank BankState.SUBSCRIPTION_PENDING
      (b_id b) (Some "Subscription initiated") >>
    transition_bank_state current_bank BankState.SUBSCRIBED_ONBOARDED
      (b_id b) (Some "Subscription completed") >>
    transition_bank_state current_bank BankState.OPERATIONAL
      (b_id b) (Some "Bank is now operational") >>
    commit.

Definition create_consent_template (current_bank : string) (title : string)
    (order : Z) (new_id : string) : M string :=
  if decide (order < 1 ∨ order > 4)%Z then
    raise (HTTPException HTTP_400_BAD_REQUEST "Consent order must be between 1 and 4")
  else
    add_consent_template (mkConsentTemplate new_id current_bank title order true) >>
    commit >>
    ret new_id.

Definition upload_consent_template (current_bank : string) (file : Exn + string)
    (title : string) (order : Z) (new_id : string) : M string :=
  if decide (order < 1 ∨ order > 4)%Z then
    raise (HTTPException HTTP_400_BAD_REQUEST "Consent order must be between 1 and 4")
  else
    let! file_url := save_upload_file file in
    add_consent_template (mkConsentTemplate new_id current_bank title order true) >>
    commit >>
    ret new_id.

Definition verify_consent (current_bank : string) (consent_id : string)
    (status : ConsentStatus.t) (verification_notes : option string) (now : nat)
    : M string :=
  let! db := query in
  match head (filter (fun c => c_id c = consent_id) (donor_consents db)) with
  | None => raise (HTTPException HTTP_404_NOT_FOUND "Consent not found")
  | Some consent =>
      let! db := query in
      match first_where (fun d => d_id d = c_donor_id consent
                                  ∧ d_bank_id d = Some current_bank) (donors db) with
      | None =>
          raise (HTTPException HTTP_403_FORBIDDEN "Not authorized to verify this consent")
      | Some donor =>
          modify (fun db =>
            with_donor_consents
              ((fun c => if decide (c_id c = c_id consent)
                         then with_c_verification status (Some now)
                                (Some current_bank) verification_notes c
                         else c) <$> donor_consents db) db) >>
          let! db := query in
          let total_consents :=
            length (filter (fun c => c_donor_id c = d_id donor) (donor_consents db)) in
          let! db := query in
          let verified_consents :=
            length (filter (fun c => c_donor_id c = d_id donor
                                     ∧ c_status c = ConsentStatus.VERIFIED)
                      (donor_consents db)) in
          (if bool_decide (4 ≤ total_consents)%nat && bool_decide (4 ≤ verified_consents)%nat then
             let! d := donor_obj (d_id donor) in
             if decide (d_state d = DonorState.CONSENT_PENDING) then
               transition_donor_state (d_id donor) DonorState.CONSENT_VERIFIED
                 current_bank "bank" (Some "All consents verified by bank")
             else ret tt
           else ret tt) >>
          commit >>
          ret "Consent verified successfully"
      end
  end.

Definition upload_test_report (current_bank : string) (donor_id : string)
    (test_type test_name : string) (file : Exn + string) (new_id : string)
    : M string :=
  let! db := query in
  match first_where (fun d => d_id d = donor_id ∧ d_bank_id d = Some current_bank)
          (donors db) with
  | None => raise (HTTPException HTTP_404_NOT_FOUND "Donor not found")
  | Some donor =>
      if decide (d_state donor ∉ [DonorState.CONSENT_VERIFIED; DonorState.TESTS_PENDING]) then
        raise (HTTPException HTTP_400_BAD_REQUEST
                 ("Cannot upload tests for donor in state: "
                  +:+ DonorState.value (d_state donor)
                  +:+ ". Donor must have verified consents first."))
      else
        let! file_url := save_upload_file file in
        add_test_report (mkTestReport new_id (d_id donor) current_bank
                           test_type test_name file_url current_bank) >>
        let! d := donor_obj (d_id donor) in
        (if decide (d_state d = DonorState.CONSENT_VERIFIED) then
           transition_donor_state (d_id donor) DonorState.TESTS_PENDING
             current_bank "bank" (Some "Test report uploaded by bank")
         else ret tt) >>
        commit >>
        ret new_id
  end.

Definition make_eligibility_decision (current_bank : string) (donor_id : string)
    (status : EligibilityStatus.t) (notes : option string) (now : nat) : M string :=
  let! db := query in
  match first_where (fun d => d_id d = donor_id ∧ d_bank_id d = Some current_bank)
          (donors db) with
  | None => raise (HTTPException HTTP_404_NOT_FOUND "Donor not found")
  | Some donor =>
      if decide (d_state donor ≠ DonorState.TESTS_PENDING) then
        raise (HTTPException HTTP_400_BAD_REQUEST "Donor must be in tests_pending state")
      else
        set_donor (d_id donor) (with_d_eligibility status notes (Some now)) >>
        transition_donor_state (d_id donor) DonorState.ELIGIBILITY_DECISION
          current_bank "bank"
          (Some ("Eligibility decision: " +:+ EligibilityStatus.value status)) >>
        (if decide (status = EligibilityStatus.APPROVED) then
           transition_donor_state (d_id donor) DonorState.DONOR_ONBOARDED
             current_bank "bank" (Some "Donor approved and onboarded")
         else ret tt) >>
        commit >>
        ret (EligibilityStatus.value status)
  end.

(** ** [adminside/backend/routes.py] *)

Definition get_current_admin (payload : option Payload) : M Admin :=
  match payload with
  | None => raise (HTTPException HTTP_401_UNAUTHORIZED "Invalid token")
  | Some p =>
      match p_sub p, p_type p with
      | Some admin_id, Some "admin" =>
          if decide (admin_id = "") then
            raise (HTTPException HTTP_401_UNAUTHORIZED "Invalid token")
          else
            let! db := query in
            match admins db !! admin_id with
            | Some admin =>
                if a_is_active admin then ret admin
                else raise (HTTPException HTTP_401_UNAUTHORIZED "Admin not found or inactive")
            | None => raise (HTTPException HTTP_401_UNAUTHORIZED "Admin not found or inactive")
            end
      | _, _ => raise (HTTPException HTTP_401_UNAUTHORIZED "Invalid token")
      end
  end.

(** The detail of the 403 goes on with the list of the required roles, as
    Python prints it; the model keeps the first sentence. *)
Definition require_role (required_roles : list string) (payload : option Payload)
    : M Admin :=
  let! admin := get_current_admin payload in
  if decide (a_role admin ∉ required_roles) then
    raise (HTTPException HTTP_403_FORBIDDEN "Insufficient permissions")
  else ret admin.

Definition log_activity (admin : Admin) (action entity_type : string)
    (entity_id : option string) : M unit :=
  modify (fun db =>
    with_activity_logs
      (activity_logs db ++ [mkActivityLog (a_id admin) action entity_type entity_id]) db) >>
  commit.

Definition create_admin (current_admin : Admin) (email role new_id : string) : M string :=
  let! db := query in
  match first_where (fun a => a_email a = email) (admins db) with
  | Some _ => raise (HTTPException HTTP_400_BAD_REQUEST "Email already registered")
  | None =>
      add_admin (mkAdmin new_id email role true) >>
      commit >>
      log_activity current_admin "admin_created" "admin" (Some new_id) >>
      ret new_id
  end.

(** The admin portal maps [banks.state] as a string column: it compares the
    stored value with a literal and assigns a literal. *)
Definition assign_bank_state (bank_id : string) (literal : string) : M unit :=
  match BankState.of_value literal with
  | Some s => set_bank bank_id (with_b_state s)
  | None => raise (ValueError "invalid input value for enum bankstate")
  end.

Definition verify_bank (current_admin : Admin) (bank_id : string)
    (verified_by : string) (now : nat) : M string :=
  let! db := query in
  match banks db !! bank_id with
  | None => raise (HTTPException 404 "Bank not found")
  | Some bank =>
      if b_is_verified bank then
        raise (HTTPException 400 "Bank is already verified")
      else
        set_bank bank_id (with_b_verification true (Some now) (Some verified_by)) >>
        let! b := bank_obj bank_id in
        (if decide (BankState.value (b_state b) = "verification_pending") then
           assign_bank_state bank_id "verified"
         else ret tt) >>
        commit >>
        log_activity current_admin "bank_verified" "bank" (Some (b_id bank)) >>
        ret bank_id
  end.

Definition update_bank_subscription (current_admin : Admin) (bank_id : string)
    (subscription_tier : string) (subscription_started_at subscription_expires_at : nat)
    : M string :=
  let! db := query in
  match banks db !! bank_id with
  | None => raise (HTTPException 404 "Bank not found")
  | Some bank =>
      if negb (b_is_verified bank) then
        raise (HTTPException 400 "Bank must be verified first")
      else
        set_bank bank_id
          (with_b_subscription true (Some subscription_tier)
             (Some subscription_started_at) (Some subscription_expires_at)) >>
        let! b := bank_obj bank_id in
        (if decide (BankState.value (b_state b) ∈ ["verified"; "subscription_pending"]) then
           assign_bank_state bank_id "subscribed_onboarded"
         else ret tt) >>
        commit >>
        log_activity current_admin "subscription_updated" "bank" (Some (b_id bank)) >>
        ret bank_id
  end.

(** ** [services/business_logic.py] *)

Definition can_request_counseling (donor : Donor) : bool :=
  bool_decide (d_state donor = DonorState.ACCOUNT_CREATED).

Definition can_sign_consent (donor : Donor) : bool :=
  bool_decide (d_state donor ∈ [DonorState.COUNSELING_REQUESTED;
                                DonorState.CONSENT_PENDING]).

Definition can_upload_tests (donor : Donor) : bool :=
  bool_decide (d_state donor ∈ [DonorState.CONSENT_VERIFIED;
                                DonorState.TESTS_PENDING]).

Definition update_consent_template (current_bank : string) (template_id : string)
    (file : option (Exn + string)) (title : option string) (order : option Z)
    (is_active : option bool) : M string :=
  let! db := query in
  match head (filter (fun t => t_id t = template_id ∧ t_bank_id t = current_bank)
                (consent_templates db)) with
  | None => raise (HTTPException HTTP_404_NOT_FOUND "Consent template not found")
  | Some template =>
      let edit (f : ConsentTemplate -> ConsentTemplate) : M unit :=
        modify (fun db =>
          with_consent_templates
            ((fun t => if decide (t_id t = t_id template) then f t else t)
               <$> consent_templates db) db) in
      match file with
      | Some outcome => let! file_url := save_upload_file outcome in ret tt
      | None => ret tt
      end >>
      match title with
      | Some v =>
          edit (fun t => mkConsentTemplate (t_id t) (t_bank_id t) v (t_order t) (t_is_active t))
      | None => ret tt
      end >>
      match order with
      | Some v =>
          if decide (v < 1 ∨ v > 4)%Z then
            raise (HTTPException HTTP_400_BAD_REQUEST "Consent order must be between 1 and 4")
          else
            edit (fun t => mkConsentTemplate (t_id t) (t_bank_id t) (t_title t) v (t_is_active t))
      | None => ret tt
      end >>
      match is_active with
      | Some v =>
          edit (fun t => mkConsentTemplate (t_id t) (t_bank_id t) (t_title t) (t_order t) v)
      | None => ret tt
      end >>
      commit >>
      ret template_id
  end.

(** ** Requests

    One constructor per endpoint that creates a row or writes a column the two
    lifecycles depend on, with the decoded token, the request data and what the
    environment supplies (fresh primary keys, the clock, the outcome of the
    file upload).  Left out are the endpoints that only read, and four that
    write: [update_profile] ([PUT /api/bank/me]) assigns the profile columns of
    the calling bank, its [name] among them; [schedule_counseling] and
    [update_counseling_session] assign the status, the schedule and the notes
    of a counseling session of the calling bank; the admin's [admin_login]
    assigns [last_login].  None of them creates or deletes a row or writes any
    other column, and no statement about a sequence of requests below depends
    on the name of a bank or on the status or the notes of a session. *)

Inductive Request : Type :=
| POST_auth_bank_register (email hashed_password name new_id : string)
| POST_bank_certification_upload (token : option Payload) (file : Exn + string)
| PUT_bank_counseling_config (token : option Payload) (methods : list CounselingMethod.t)
| POST_bank_subscription (token : option Payload) (subscription_tier : string) (now : nat)
| POST_bank_consents_templates (token : option Payload) (title : string) (order : Z)
    (new_id : string)
| POST_bank_consents_templates_upload (token : option Payload) (file : Exn + string)
    (title : string) (order : Z) (new_id : string)
| PUT_bank_consents_templates (token : option Payload) (template_id : string)
    (file : option (Exn + string)) (title : option string) (order : option Z)
    (is_active : option bool)
| POST_bank_consents_verify (token : option Payload) (consent_id : string)
    (status : ConsentStatus.t) (verification_notes : option string) (now : nat)
| POST_bank_tests_upload (token : option Payload) (donor_id test_type test_name : string)
    (file : Exn + string) (new_id : string)
| POST_bank_eligibility_decide (token : option Payload) (donor_id : string)
    (status : EligibilityStatus.t) (notes : option string) (now : nat)
| POST_donor_lead (bank_id email new_id : string) (now : nat)
| POST_donor_account (email hashed_password : string)
    (legal_documents : option (list string))
| POST_donor_consents_sign (token : option Payload) (template_id new_id : string) (now : nat)
| POST_donor_counseling_request (token : option Payload) (method : CounselingMethod.t)
    (notes : option string) (new_id : string)
| POST_admin_register (token : option Payload) (email role new_id : string)
| PUT_admin_banks_verify (token : option Payload) (bank_id verified_by : string) (now : nat)
| PUT_admin_banks_subscription (token : option Payload) (bank_id subscription_tier : string)
    (subscription_started_at subscription_expires_at : nat).

Definition forget {A : Type} (m : M A) : M unit := let! _ := m in ret tt.

Definition handle (r : Request) : M unit :=
  match r with
  | POST_auth_bank_register email hashed_password name new_id =>
      forget (register_bank email hashed_password name new_id)
  | POST_bank_certification_upload token file =>
      let! current_bank := get_current_bank token in
      forget (upload_certification current_bank file)
  | PUT_bank_counseling_config token methods =>
      let! current_bank := get_subscribed_bank token in
      update_counseling_config current_bank methods
  | POST_bank_subscription token subscription_tier now =>
      let! current_bank := get_verified_bank token in
      create_subscription current_bank subscription_tier now
  | POST_bank_consents_templates token title order new_id =>
      let! current_bank := get_current_bank token in
      forget (create_consent_template current_bank title order new_id)
  | POST_bank_consents_templates_upload token file title order new_id =>
      let! current_bank := get_current_bank token in
      forget (upload_consent_template current_bank file title order new_id)
  | PUT_bank_consents_templates token template_id file title order is_active =>
      let! current_bank := get_current_bank token in
      forget (update_consent_template current_bank template_id file title order is_active)
  | POST_bank_consents_verify token consent_id status verification_notes now =>
      let! current_bank := get_subscribed_bank token in
      forget (verify_consent current_bank consent_id status verification_notes now)
  | POST_bank_tests_upload token donor_id test_type test_name file new_id =>
      let! current_bank := get_subscribed_bank token in
      forget (upload_test_report current_bank donor_id test_type test_name file new_id)
  | POST_bank_eligibility_decide token donor_id status notes now =>
      let! current_bank := get_subscribed_bank token in
      forget (make_eligibility_decision current_bank donor_id status notes now)
  | POST_donor_lead bank_id email new_id now =>
      forget (create_lead bank_id email new_id now)
  | POST_donor_account email hashed_password legal_documents =>
      forget (create_account email hashed_password legal_documents)
  | POST_donor_consents_sign token template_id new_id now =>
      let! current_donor := get_current_donor token in
      forget (sign_consent current_donor template_id new_id now)
  | POST_donor_counseling_request token method notes new_id =>
      let! current_donor := get_current_donor token in
      forget (request_counseling current_donor method notes new_id)
  | POST_admin_register token email role new_id =>
      let! current_admin := require_role ["super_admin"] token in
      forget (create_admin current_admin email role new_id)
  | PUT_admin_banks_verify token bank_id verified_by now =>
      let! current_admin := require_role ["super_admin"; "support"] token in
      forget (verify_bank current_admin bank_id verified_by now)
  | PUT_admin_banks_subscription token bank_id subscription_tier started expires =>
      let! current_admin := require_role ["super_admin"; "support"] token in
      forget (update_bank_subscription current_admin bank_id subscription_tier started expires)
  end.

(** The admin portal's endpoints. *)
Definition is_admin_request (r : Request) : bool :=
  match r with
  | POST_admin_register _ _ _ _
  | PUT_admin_banks_verify _ _ _ _
  | PUT_admin_banks_subscription _ _ _ _ _ => true
  | _ => false
  end.

(** The database after serving a request, and after serving a list of them. *)
Definition serve (af : bool) (db : Db) (r : Request) : Db :=
  (run_request af (handle r) db).2.

Definition serve_all (af : bool) (db : Db) (rs : list Request) : Db :=
  foldl (serve af) db rs.

Definition response (af : bool) (db : Db) (r : Request) : Exn + unit :=
  (run_request af (handle r) db).1.

(** ** [services/business_logic.py], the service classes

    The routes above do not call them; they state the same guards a second
    time. *)

Module DonorService.

Definition validate_lead_creation (email bank_id : string) : M Bank :=
  let! db := query in
  match first_where (fun d => d_email d = email) (donors db) with
  | Some _ =>
      raise (HTTPException HTTP_400_BAD_REQUEST "Donor with this email already exists")
  | None =>
      let! db := query in
      match banks db !! bank_id with
      | None => raise (HTTPException HTTP_404_NOT_FOUND "Bank not found")
      | Some bank =>
          if negb (b_is_verified bank) then
            raise (HTTPException HTTP_400_BAD_REQUEST "Bank is not verified")
          else if negb (b_is_subscribed bank) then
            raise (HTTPException HTTP_400_BAD_REQUEST
                     "Bank does not have an active subscription")
          else ret bank
      end
  end.

Definition get_all_consents_count (donor_id : string) : M (nat * nat * nat) :=
  let! db := query in
  let total := length (filter (fun c => c_donor_id c = donor_id) (donor_consents db)) in
  let! db := query in
  let signed :=
    length (filter (fun c => c_donor_id c = donor_id
                             ∧ c_status c ∈ [ConsentStatus.SIGNED; ConsentStatus.VERIFIED])
              (donor_consents db)) in
  let! db := query in
  let verified :=
    length (filter (fun c => c_donor_id c = donor_id
                             ∧ c_status c = ConsentStatus.VERIFIED)
              (donor_consents db)) in
  ret (total, signed, verified).

End DonorService.

Module BankService.

Definition can_manage_donors (bank : Bank) : bool :=
  b_is_verified bank && b_is_subscribed bank.

Definition can_make_eligibility_decision (bank : Bank) (donor : Donor) : Exn + bool :=
  if decide (d_bank_id donor ≠ Some (b_id bank)) then
    inl (HTTPException HTTP_403_FORBIDDEN "Donor does not belong to this bank")
  else if decide (d_state donor ≠ DonorState.TESTS_PENDING) then
    inl (HTTPException HTTP_400_BAD_REQUEST
           "Donor must complete testing before eligibility decision")
  else inr true.

End BankService.

Module ConsentService.

Definition validate_consent_template_count (bank_id : string) : M bool :=
  let! db := query in
  let count :=
    length (filter (fun t => t_bank_id t = bank_id ∧ t_is_active t = true)
              (consent_templates db)) in
  ret (bool_decide (count = 4)).

(** [order_by(ConsentTemplate.order)]; rows with equal [order] come in an
    order the database does not specify, here the one [merge_sort] gives. *)
Definition order_le (a b : ConsentTemplate) : Prop := (t_order a ≤ t_order b)%Z.

#[global] Instance order_le_dec : RelDecision order_le.
Proof. intros a b. unfold order_le. apply _. Defined.

Definition order_by_order (l : list ConsentTemplate) : list ConsentTemplate :=
  merge_sort order_le l.

Definition get_required_consents_for_donor (bank_id : string) : M (list ConsentTemplate) :=
  let! db := query in
  let templates :=
    order_by_order (filter (fun t => t_bank_id t = bank_id ∧ t_is_active t = true)
                      (consent_templates db)) in
  if decide (length templates ≠ 4) then
    raise (HTTPException HTTP_400_BAD_REQUEST
             "Bank must have exactly 4 active consent templates")
  else ret templates.

Definition all_consents_verified (donor_id : string) : M bool :=
  let! db := query in
  let verified_count :=
    length (filter (fun c => c_donor_id c = donor_id
                             ∧ c_status c = ConsentStatus.VERIFIED)
              (donor_consents db)) in
  ret (bool_decide (4 ≤ verified_count)%nat).

End ConsentService.

Module CounselingService.

(** The value of a member of [CounselingMethod], as the message renders it. *)
Definition method_value (m : CounselingMethod.t) : string :=
  match m with
  | CounselingMethod.CALL => "call"
  | CounselingMethod.VIDEO => "video"
  | CounselingMethod.IN_PERSON => "in_person"
  | CounselingMethod.EMAIL => "email"
  end.

(** [b_counseling_config] holds the ["methods"] of the stored config; no
    config and an empty list of methods both allow every method. *)
Definition validate_counseling_method (bank : Bank) (method : CounselingMethod.t)
    : Exn + bool :=
  match b_counseling_config bank with
  | None => inr true
  | Some [] => inr true
  | Some allowed_methods =>
      if decide (method ∉ allowed_methods) then
        inl (HTTPException HTTP_400_BAD_REQUEST
               ("Counseling method '" +:+ method_value method
                +:+ "' not supported by this bank"))
      else inr true
  end.

End CounselingService.

(** ** [api/routes/auth.py], the logins

    [create_access_token] signs the payload it is given; the model's token is
    that payload.  [verify_password] is the password check of [utils/auth.py],
    which is not part of the sources: it is a parameter. *)

Record TokenResponse : Type := mkTokenResponse {
  access_token : Payload;
  token_type : string;
  user_type : string;
  user_id : string
}.

Section Auth.

Variable verify_password : string -> string -> bool.

Definition login_donor (email password : string) : M TokenResponse :=
  let! db := query in
  match first_where (fun d => d_email d = email) (donors db) with
  | None => raise (HTTPException HTTP_401_UNAUTHORIZED "Invalid email or password")
  | Some donor =>
      match d_hashed_password donor with
      | None | Some "" =>
          raise (HTTPException HTTP_401_UNAUTHORIZED "Invalid email or password")
      | Some hashed =>
          if negb (verify_password password hashed) then
            raise (HTTPException HTTP_401_UNAUTHORIZED "Invalid email or password")
          else
            ret (mkTokenResponse (mkPayload (Some (d_id donor)) (Some "donor"))
                   "bearer" "donor" (d_id donor))
      end
  end.

Definition login_bank (email password : string) : M TokenResponse :=
  let! db := query in
  match first_where (fun b => b_email b = email) (banks db) with
  | None => raise (HTTPException HTTP_401_UNAUTHORIZED "Invalid email or password")
  | Some bank =>
      if negb (verify_password password (b_hashed_password bank)) then
        raise (HTTPException HTTP_401_UNAUTHORIZED "Invalid email or password")
      else
        ret (mkTokenResponse (mkPayload (Some (b_id bank)) (Some "bank"))
               "bearer" "bank" (b_id bank))
  end.

End Auth.

(** ** [api/routes/public.py] *)

Module Public.

Definition get_bank_details (bank_id : string) : M Bank :=
  let! db := query in
  match first_where (fun b => b_id b = bank_id ∧ b_is_verified b = true
                              ∧ b_is_subscribed b = true) (banks db) with
  | None => raise (HTTPException HTTP_404_NOT_FOUND "Bank not found")
  | Some bank => ret bank
  end.

End Public.

(** ** [adminside/backend/routes.py], the activity log

    [page] and [page_size] are validated by the framework ([ge=1]) before the
    handler runs.  A log row carries a server-side [created_at], so the order
    by [created_at] descending is the insertion order reversed.  An item pairs
    the log row with the admin row the handler looks up for its name. *)




Section ActivityLogs.

(** [page] and [page_size] are Python integers, declared [Query(1, ge=1)] and
    [Query(20, ge=1, le=100)]: FastAPI answers a value outside its range with
    status 422 before the handler runs.  The body of that answer is the
    framework's; its text is a parameter. *)
Variable validation_detail : string.

(** OFFSET is bound as a signed 64-bit integer.  The driver is configured in
    [database.py], which is not part of the sources: what it raises for an
    offset that does not fit is a parameter. *)
Variable out_of_range : Exn.


End ActivityLogs.

(** * Vocabulary of the specification *)

(** ** A weakest-precondition calculus for [M] *)

Definition wp {A : Type} (m : M A) (Q : Exn + A -> Session -> Prop) (s : Session) : Prop :=
  Q (m s).1 (m s).2.

(** ** What a transition does to the database *)

Definition apply_donor_transition (db : Db) (id : string) (d : Donor)
    (new_state : DonorState.t) (changed_by changed_by_role : string)
    (reason : option string) : Db :=
  with_donor_state_history
    (donor_state_history db ++
       [mkDonorStateHistory (d_id d) (Some (d_state d)) new_state
          changed_by changed_by_role reason])
    (with_donors (<[id := with_d_state new_state d]> (donors db)) db).

Definition apply_bank_transition (db : Db) (id : string) (b : Bank)
    (new_state : BankState.t) (changed_by : string) (reason : option string) : Db :=
  with_bank_state_history
    (bank_state_history db ++
       [mkBankStateHistory (b_id b) (Some (b_state b)) new_state changed_by reason])
    (with_banks (<[id := with_b_state new_state b]> (banks db)) db).

(** The representation invariant of the two keyed tables: a row is stored
    under its own primary key. *)
Definition keys_ok (db : Db) : Prop :=
  (∀ k d, donors db !! k = Some d -> d_id d = k) ∧
  (∀ k b, banks db !! k = Some b -> b_id b = k).

(** ** Consent counts *)

(** The three counts of [DonorService.get_all_consents_count]; [verify_consent]
    computes the first and the last with the same two queries, [sign_consent]
    counts the rows whose status is [SIGNED]. *)
Definition total_consents (db : Db) (donor_id : string) : nat :=
  length (filter (fun c => c_donor_id c = donor_id) (donor_consents db)).

Definition verified_consents (db : Db) (donor_id : string) : nat :=
  length (filter (fun c => c_donor_id c = donor_id ∧ c_status c = ConsentStatus.VERIFIED)
            (donor_consents db)).

Definition signed_consents (db : Db) (donor_id : string) : nat :=
  length (filter (fun c => c_donor_id c = donor_id ∧ c_status c = ConsentStatus.SIGNED)
            (donor_consents db)).

(** The database once the verification of [consent] is written to its row. *)
Definition record_verification (consent : DonorConsent) (status : ConsentStatus.t)
    (now : nat) (bank : string) (notes : option string) (db : Db) : Db :=
  with_donor_consents
    ((fun c => if decide (c_id c = c_id consent)
               then with_c_verification status (Some now) (Some bank) notes c
               else c) <$> donor_consents db) db.

(** ** The eligibility decision *)

(** The donor row and the history rows that [make_eligibility_decision]
    commits. *)
Definition decided (d : Donor) (status : EligibilityStatus.t) (notes : option string)
    (now : nat) : Donor :=
  with_d_state
    (if decide (status = EligibilityStatus.APPROVED)
     then DonorState.DONOR_ONBOARDED else DonorState.ELIGIBILITY_DECISION)
    (with_d_eligibility status notes (Some now) d).

Definition decision_rows (d : Donor) (bank : string) (status : EligibilityStatus.t)
    : list DonorStateHistory :=
  mkDonorStateHistory (d_id d) (Some DonorState.TESTS_PENDING)
    DonorState.ELIGIBILITY_DECISION bank "bank"
    (Some ("Eligibility decision: " +:+ EligibilityStatus.value status))
  :: (if decide (status = EligibilityStatus.APPROVED)
      then [mkDonorStateHistory (d_id d) (Some DonorState.ELIGIBILITY_DECISION)
              DonorState.DONOR_ONBOARDED bank "bank"
              (Some "Donor approved and onboarded")]
      else []).

(** ** What a request can do to the two lifecycles *)

(** The part of the database the lifecycle claims are about. *)
Record Lifecycle : Type := mkLifecycle {
  lc_banks : gmap string Bank;
  lc_donors : gmap string Donor;
  lc_donor_history : list DonorStateHistory;
  lc_bank_history : list BankStateHistory
}.

Definition lifecycle (db : Db) : Lifecycle :=
  mkLifecycle (banks db) (donors db) (donor_state_history db) (bank_state_history db).

(** Who writes: the transition functions of [utils/state_machine.py] (used by
    the whole main API), or one of the two admin handlers that assign
    [bank.state] themselves. *)
Inductive origin : Set := Engine | AdminVerify | AdminSubscription.

Definition origin_of (r : Request) : origin :=
  match r with
  | PUT_admin_banks_verify _ _ _ _ => AdminVerify
  | PUT_admin_banks_subscription _ _ _ _ _ => AdminSubscription
  | _ => Engine
  end.

(** The elementary writes.  Every request is a sequence of them
    ([serve_updates] below). *)
Inductive update (o : origin) : Lifecycle -> Lifecycle -> Prop :=
| U_add_donor bs ds dh bh d :
    ds !! d_id d = None ->
    d_state d = DonorState.BANK_SELECTED ->
    update o (mkLifecycle bs ds dh bh) (mkLifecycle bs (<[d_id d := d]> ds) dh bh)
| U_donor_fields bs ds dh bh id d d' :
    ds !! id = Some d ->
    d_id d' = d_id d ->
    d_state d' = d_state d ->
    d_bank_id d' = d_bank_id d ->
    (d_state d = DonorState.TESTS_PENDING
     ∨ d_eligibility_status d' = d_eligibility_status d) ->
    update o (mkLifecycle bs ds dh bh) (mkLifecycle bs (<[id := d']> ds) dh bh)
| U_donor_transition bs ds dh bh id d new_state changed_by role reason :
    ds !! id = Some d ->
    new_state ∈ DONOR_STATE_TRANSITIONS (d_state d) ->
    (new_state = DonorState.DONOR_ONBOARDED ->
     d_eligibility_status d = EligibilityStatus.APPROVED) ->
    update o (mkLifecycle bs ds dh bh)
      (mkLifecycle bs (<[id := with_d_state new_state d]> ds)
         (dh ++ [mkDonorStateHistory (d_id d) (Some (d_state d)) new_state
                   changed_by role reason])
         bh)
| U_add_bank bs ds dh bh b :
    bs !! b_id b = None ->
    b_state b = BankState.ACCOUNT_CREATED ->
    update o (mkLifecycle bs ds dh bh) (mkLifecycle (<[b_id b := b]> bs) ds dh bh)
| U_bank_fields bs ds dh bh id b b' :
    bs !! id = Some b ->
    b_id b' = b_id b ->
    b_state b' = b_state b ->
    update o (mkLifecycle bs ds dh bh) (mkLifecycle (<[id := b']> bs) ds dh bh)
| U_bank_transition bs ds dh bh id b new_state changed_by reason :
    bs !! id = Some b ->
    new_state ∈ BANK_STATE_TRANSITIONS (b_state b) ->
    update o (mkLifecycle bs ds dh bh)
      (mkLifecycle (<[id := with_b_state new_state b]> bs) ds dh
         (bh ++ [mkBankStateHistory (b_id b) (Some (b_state b)) new_state
                   changed_by reason]))
| U_admin_verify bs ds dh bh id b :
    o = AdminVerify ->
    bs !! id = Some b ->
    b_state b = BankState.VERIFICATION_PENDING ->
    update o (mkLifecycle bs ds dh bh)
      (mkLifecycle (<[id := with_b_state BankState.VERIFIED b]> bs) ds dh bh)
| U_admin_subscription bs ds dh bh id b :
    o = AdminSubscription ->
    bs !! id = Some b ->
    b_state b = BankState.VERIFIED ∨ b_state b = BankState.SUBSCRIPTION_PENDING ->
    update o (mkLifecycle bs ds dh bh)
      (mkLifecycle (<[id := with_b_state BankState.SUBSCRIBED_ONBOARDED b]> bs) ds dh bh).

Definition updates (o : origin) : Lifecycle -> Lifecycle -> Prop := rtc (update o).

(** ** History chains *)

Section Chain.
Context {St Row : Type}.
Variable row_from : Row -> option St.
Variable row_to : Row -> St.
Variable next : St -> list St.

(** [chain a rows b]: the rows lead from [a] to [b], each row starting where
    the one before ended and following an edge of the table [next]. *)
Fixpoint chain (a : St) (rows : list Row) (b : St) : Prop :=
  match rows with
  | [] => a = b
  | h :: rows' =>
      row_from h = Some a ∧ row_to h ∈ next a ∧ chain (row_to h) rows' b
  end.

End Chain.

Definition donor_chain : DonorState.t -> list DonorStateHistory -> DonorState.t -> Prop :=
  chain dh_from_state dh_to_state DONOR_STATE_TRANSITIONS.

Definition bank_chain : BankState.t -> list BankStateHistory -> BankState.t -> Prop :=
  chain bh_from_state bh_to_state BANK_STATE_TRANSITIONS.

(** The history of one entity, oldest row first. *)
Definition donor_rows (id : string) (l : list DonorStateHistory) : list DonorStateHistory :=
  filter (fun h => dh_donor_id h = id) l.

Definition bank_rows (id : string) (l : list BankStateHistory) : list BankStateHistory :=
  filter (fun h => bh_bank_id h = id) l.

(** ** Invariants of the lifecycle tables *)

Definition lc_keys_ok (l : Lifecycle) : Prop :=
  (∀ k d, lc_donors l !! k = Some d -> d_id d = k) ∧
  (∀ k b, lc_banks l !! k = Some b -> b_id b = k).

(** Donors are created in [BANK_SELECTED] by [create_lead]; from there every
    change of state is on record. *)
Definition donor_inv (l : Lifecycle) : Prop :=
  (∀ h, h ∈ lc_donor_history l -> is_Some (lc_donors l !! dh_donor_id h)) ∧
  (∀ id d, lc_donors l !! id = Some d ->
     donor_chain DonorState.BANK_SELECTED (donor_rows id (lc_donor_history l)) (d_state d)).

(** Banks are created in [ACCOUNT_CREATED] by [register_bank]. *)
Definition bank_inv (l : Lifecycle) : Prop :=
  (∀ h, h ∈ lc_bank_history l -> is_Some (lc_banks l !! bh_bank_id h)) ∧
  (∀ id b, lc_banks l !! id = Some b ->
     bank_chain BankState.ACCOUNT_CREATED (bank_rows id (lc_bank_history l)) (b_state b)).

(** ** How far one request can move an entity *)

(** Between two versions of the tables, every donor is still there, its
    history has only grown, and the new rows lead from its old state to its
    new one along edges of [DONOR_STATE_TRANSITIONS]. *)
Definition donor_progress (l l' : Lifecycle) : Prop :=
  ∀ id d, lc_donors l !! id = Some d ->
    ∃ d' delta,
      lc_donors l' !! id = Some d' ∧
      donor_rows id (lc_donor_history l') =
        (donor_rows id (lc_donor_history l) ++ delta)%list ∧
      donor_chain (d_state d) delta (d_state d').

Definition bank_recorded_progress (l l' : Lifecycle) : Prop :=
  ∀ id b, lc_banks l !! id = Some b ->
    ∃ b' delta,
      lc_banks l' !! id = Some b' ∧
      bank_rows id (lc_bank_history l') =
        (bank_rows id (lc_bank_history l) ++ delta)%list ∧
      bank_chain (b_state b) delta (b_state b').

(** One move of a bank's state: an edge of [BANK_STATE_TRANSITIONS], or, for
    the admin's subscription update only, the direct move from [VERIFIED] to
    [SUBSCRIBED_ONBOARDED]. *)
Definition bank_step (o : origin) (a b : BankState.t) : Prop :=
  b ∈ BANK_STATE_TRANSITIONS a ∨
  (o = AdminSubscription ∧ a = BankState.VERIFIED ∧ b = BankState.SUBSCRIBED_ONBOARDED).

Definition bank_progress (o : origin) (l l' : Lifecycle) : Prop :=
  ∀ id b, lc_banks l !! id = Some b ->
    ∃ b', lc_banks l' !! id = Some b' ∧ rtc (bank_step o) (b_state b) (b_state b').

Definition donor_edge (a b : DonorState.t) : Prop := b ∈ DONOR_STATE_TRANSITIONS a.

(** A donor parked in [ELIGIBILITY_DECISION] without an approval. *)
Definition parked (id : string) (l : Lifecycle) : Prop :=
  ∃ d, lc_donors l !! id = Some d
       ∧ d_state d = DonorState.ELIGIBILITY_DECISION
       ∧ d_eligibility_status d ≠ EligibilityStatus.APPROVED.

(** ** The initial database *)

(** The database before the first request: no banks and no donors yet.  The
    first admin account is created outside the API ([create_admin] needs a
    super admin), so the admins table is arbitrary. *)
Definition initial_db (admins0 : gmap string Admin) : Db := with_admins admins0 empty_db.

(** The chain property in the words of the data model: consecutive rows
    agree, the first row starts at [start], the last row ends at the entity's
    current state (with no rows, the entity is still in [start]). *)
Definition history_is_chain {St Row : Type} (row_from : Row -> option St)
    (row_to : Row -> St) (start : St) (rows : list Row) (current : St) : Prop :=
  (∀ i h h', rows !! i = Some h -> rows !! S i = Some h' ->
     row_from h' = Some (row_to h)) ∧
  (∀ h, head rows = Some h -> row_from h = Some start) ∧
  match last rows with
  | Some h => row_to h = current
  | None => start = current
  end.

(** ** Concrete data for the runs *)

(** One bank and one donor of that bank. *)
Definition bank1 : Bank :=
  mkBank "b1" "bank@example.com" "hash" "Bank One" BankState.OPERATIONAL
    (Some ["cert.pdf"]) true (Some 5) (Some "admin-1") true (Some "gold")
    (Some 6) None None.

Definition donor1 (state : DonorState.t) (bank : string) : Donor :=
  mkDonor "d1" "donor@example.com" (Some "hash") state (Some bank) (Some 7)
    None true true true EligibilityStatus.PENDING None None.

Definition template (n : string) (order : Z) : ConsentTemplate :=
  mkConsentTemplate n "b1" ("Consent form " +:+ n) order true.

Definition consent (n template_id : string) (status : ConsentStatus.t) : DonorConsent :=
  mkDonorConsent n "d1" template_id status (Some 8)
    (if decide (status = ConsentStatus.VERIFIED) then Some 9 else None)
    (if decide (status = ConsentStatus.VERIFIED) then Some "b1" else None) None.

Definition one_donor_db (d : Donor) (consents : list DonorConsent) : Db :=
  mkDb {[ "b1" := bank1 ]} {[ "d1" := d ]} ∅
    [template "t1" 1; template "t2" 2; template "t3" 3; template "t4" 4]
    consents [] [] [] [] [].

(** Three consents verified, the fourth signed and about to be verified. *)
Definition db_three_verified : Db :=
  one_donor_db (donor1 DonorState.CONSENT_PENDING "b1")
    [consent "c1" "t1" ConsentStatus.VERIFIED;
     consent "c2" "t2" ConsentStatus.VERIFIED;
     consent "c3" "t3" ConsentStatus.VERIFIED;
     consent "c4" "t4" ConsentStatus.SIGNED].

(** Scenario 4 of the specification: a donor in [VISITOR] asked to jump to
    [CONSENT_PENDING]. *)
Definition visitor_session : Session :=
  open_session false (one_donor_db (donor1 DonorState.VISITOR "b1") []).


(** A donor in [ACCOUNT_CREATED] signing a consent. *)
Definition db_account_created : Db :=
  one_donor_db (donor1 DonorState.ACCOUNT_CREATED "b1") [].

(** A donor in [TESTS_PENDING] that the bank rejects. *)
Definition db_tests_pending : Db :=
  one_donor_db (donor1 DonorState.TESTS_PENDING "b1") [].

Definition root_admin : Admin := mkAdmin "a1" "root@example.com" "super_admin" true.

Definition db0 : Db := initial_db {[ "a1" := root_admin ]}.

Definition token (sub type : string) : option Payload :=
  Some (mkPayload (Some sub) (Some type)).

(** A bank registers, uploads a certificate, is verified by the admin and
    subscribes through the main API; then a donor creates a lead with it. *)
Definition onboarding : list Request :=
  [ POST_auth_bank_register "bank@example.com" "hash" "Bank One" "b1";
    POST_bank_certification_upload (token "b1" "bank") (inr "cert.pdf");
    PUT_admin_banks_verify (token "a1" "admin") "b1" "admin-1" 5;
    POST_bank_subscription (token "b1" "bank") "gold" 6;
    POST_donor_lead "b1" "donor@example.com" "d1" 7 ].

(** The column defaults of [models/models.py], the initial states of the two
    machines. *)
Definition donor_initial_state : DonorState.t := DonorState.VISITOR.
Definition bank_initial_state : BankState.t := BankState.ACCOUNT_CREATED.

(** A bank that registered, uploaded its certificate and was verified by the
    admin. *)
Definition verified_bank_db : Db :=
  serve_all false db0
    [ POST_auth_bank_register "bank@example.com" "hash" "Bank One" "b1";
      POST_bank_certification_upload (token "b1" "bank") (inr "cert.pdf");
      PUT_admin_banks_verify (token "a1" "admin") "b1" "admin-1" 5 ].

Definition admin_subscribes : Request :=
  PUT_admin_banks_subscription (token "a1" "admin") "b1" "gold" 6 400.

(** A bank the admin verified before it uploaded its certificate. *)
Definition verified_early_db : Db :=
  serve_all false db0
    [ POST_auth_bank_register "bank@example.com" "hash" "Bank One" "b1";
      PUT_admin_banks_verify (token "a1" "admin") "b1" "admin-1" 5;
      POST_bank_certification_upload (token "b1" "bank") (inr "cert.pdf") ].

(** A donor of another bank, ["b2"]. *)
Definition db_foreign_donor : Db :=
  one_donor_db (donor1 DonorState.CONSENT_VERIFIED "b2") [].

(** ** The writes of a request, table by table *)

Definition order_in_range (order : Z) : Prop := (1 ≤ order ≤ 4)%Z.

(** Who moves a donor into a state: the donor up to [CONSENT_PENDING], the
    bank from [CONSENT_VERIFIED] on. *)
Definition transition_role (s : DonorState.t) : string :=
  match s with
  | DonorState.CONSENT_VERIFIED | DonorState.TESTS_PENDING
  | DonorState.ELIGIBILITY_DECISION | DonorState.DONOR_ONBOARDED => "bank"
  | _ => "donor"
  end.

(** The elementary writes of the handlers on the whole database, each with
    what the handler has checked when it makes it.  The two writes of the admin's
    [verify_bank] to a bank in [VERIFICATION_PENDING] and the three writes of
    [request_counseling] are taken together, as the handler commits them; so
    are the two assignments of [upload_certification] to the documents of a
    bank that has none (a bank that has documents keeps them as they are). *)
Inductive write (r : Request) : Db -> Db -> Prop :=
| W_add_bank bs ds ads ts cs ss rs dh bh ls b :
    bs !! b_id b = None ->
    first_where (fun x => b_email x = b_email b) bs = None ->
    b_state b = BankState.ACCOUNT_CREATED ->
    b_is_verified b = false ->
    b_is_subscribed b = false ->
    b_certification_documents b = None ->
    write r (mkDb bs ds ads ts cs ss rs dh bh ls)
      (mkDb (<[b_id b := b]> bs) ds ads ts cs ss rs dh bh ls)
| W_bank_documents bs ds ads ts cs ss rs dh bh ls id b url :
    bs !! id = Some b ->
    b_certification_documents b = None ->
    write r (mkDb bs ds ads ts cs ss rs dh bh ls)
      (mkDb (<[id := with_b_certification_documents (Some [url])
                       (with_b_certification_documents (Some []) b)]>
               (<[id := with_b_certification_documents (Some []) b]> bs))
         ds ads ts cs ss rs dh bh ls)
| W_bank_counseling_config bs ds ads ts cs ss rs dh bh ls id b config :
    bs !! id = Some b ->
    b_is_verified b = true ->
    b_is_subscribed b = true ->
    write r (mkDb bs ds ads ts cs ss rs dh bh ls)
      (mkDb (<[id := with_b_counseling_config config b]> bs) ds ads ts cs ss rs dh bh ls)
| W_bank_subscription bs ds ads ts cs ss rs dh bh ls id b tier started expires :
    bs !! id = Some b ->
    b_is_verified b = true ->
    write r (mkDb bs ds ads ts cs ss rs dh bh ls)
      (mkDb (<[id := with_b_subscription true tier started expires b]> bs)
         ds ads ts cs ss rs dh bh ls)
| W_bank_transition bs ds ads ts cs ss rs dh bh ls id b new_state changed_by reason :
    bs !! id = Some b ->
    changed_by = b_id b ->
    new_state ∈ BANK_STATE_TRANSITIONS (b_state b) ->
    new_state ≠ BankState.VERIFIED ->
    (new_state = BankState.VERIFICATION_PENDING ->
     is_Some (b_certification_documents b)) ->
    (new_state = BankState.VERIFICATION_PENDING
     ∨ b_is_verified b = true ∧ b_is_subscribed b = true) ->
    write r (mkDb bs ds ads ts cs ss rs dh bh ls)
      (mkDb (<[id := with_b_state new_state b]> bs) ds ads ts cs ss rs dh
         (bh ++ [mkBankStateHistory (b_id b) (Some (b_state b)) new_state
                   changed_by reason]) ls)
| W_admin_verification bs ds ads ts cs ss rs dh bh ls id b verified_at verified_by :
    is_admin_request r = true ->
    bs !! id = Some b ->
    b_is_verified b = false ->
    b_state b ≠ BankState.VERIFICATION_PENDING ->
    write r (mkDb bs ds ads ts cs ss rs dh bh ls)
      (mkDb (<[id := with_b_verification true verified_at verified_by b]> bs)
         ds ads ts cs ss rs dh bh ls)
| W_admin_verification_state bs ds ads ts cs ss rs dh bh ls id b verified_at verified_by :
    is_admin_request r = true ->
    bs !! id = Some b ->
    b_is_verified b = false ->
    b_state b = BankState.VERIFICATION_PENDING ->
    write r (mkDb bs ds ads ts cs ss rs dh bh ls)
      (mkDb (<[id := with_b_state BankState.VERIFIED
                       (with_b_verification true verified_at verified_by b)]>
               (<[id := with_b_verification true verified_at verified_by b]> bs))
         ds ads ts cs ss rs dh bh ls)
| W_admin_subscription_state bs ds ads ts cs ss rs dh bh ls id b :
    is_admin_request r = true ->
    bs !! id = Some b ->
    b_is_verified b = true ->
    b_is_subscribed b = true ->
    b_state b = BankState.VERIFIED ∨ b_state b = BankState.SUBSCRIPTION_PENDING ->
    write r (mkDb bs ds ads ts cs ss rs dh bh ls)
      (mkDb (<[id := with_b_state BankState.SUBSCRIBED_ONBOARDED b]> bs)
         ds ads ts cs ss rs dh bh ls)
| W_add_admin bs ds ads ts cs ss rs dh bh ls a :
    is_admin_request r = true ->
    ads !! a_id a = None ->
    a_is_active a = true ->
    write r (mkDb bs ds ads ts cs ss rs dh bh ls)
      (mkDb bs ds (<[a_id a := a]> ads) ts cs ss rs dh bh ls)
| W_log bs ds ads ts cs ss rs dh bh ls k admin row :
    is_admin_request r = true ->
    ads !! k = Some admin ->
    a_is_active admin = true ->
    l_admin_id row = a_id admin ->
    write r (mkDb bs ds ads ts cs ss rs dh bh ls)
      (mkDb bs ds ads ts cs ss rs dh bh (ls ++ [row]))
| W_add_template bs ds ads ts cs ss rs dh bh ls t :
    t_id t ∉ t_id <$> ts ->
    is_Some (bs !! t_bank_id t) ->
    order_in_range (t_order t) ->
    write r (mkDb bs ds ads ts cs ss rs dh bh ls)
      (mkDb bs ds ads (ts ++ [t]) cs ss rs dh bh ls)
| W_edit_template bs ds ads ts cs ss rs dh bh ls id (f : ConsentTemplate -> ConsentTemplate) :
    (∀ t, t_id (f t) = t_id t ∧ t_bank_id (f t) = t_bank_id t
          ∧ (order_in_range (t_order t) -> order_in_range (t_order (f t)))) ->
    write r (mkDb bs ds ads ts cs ss rs dh bh ls)
      (mkDb bs ds ads ((fun t => if decide (t_id t = id) then f t else t) <$> ts)
         cs ss rs dh bh ls)
| W_add_donor bs ds ads ts cs ss rs dh bh ls d k bank :
    ds !! d_id d = None ->
    first_where (fun x => d_email x = d_email d) ds = None ->
    d_state d = DonorState.BANK_SELECTED ->
    d_hashed_password d = None ->
    d_eligibility_status d = EligibilityStatus.PENDING ->
    d_bank_id d = Some (b_id bank) ->
    bs !! k = Some bank ->
    b_is_verified bank = true ->
    b_is_subscribed bank = true ->
    write r (mkDb bs ds ads ts cs ss rs dh bh ls)
      (mkDb bs (<[d_id d := d]> ds) ads ts cs ss rs dh bh ls)
| W_donor_password bs ds ads ts cs ss rs dh bh ls id d p :
    ds !! id = Some d ->
    d_state d = DonorState.LEAD_CREATED ->
    write r (mkDb bs ds ads ts cs ss rs dh bh ls)
      (mkDb bs (<[id := with_d_hashed_password (Some p) d]> ds) ads ts cs ss rs dh bh ls)
| W_donor_documents bs ds ads ts cs ss rs dh bh ls id d docs :
    ds !! id = Some d ->
    d_state d = DonorState.LEAD_CREATED ->
    write r (mkDb bs ds ads ts cs ss rs dh bh ls)
      (mkDb bs (<[id := with_d_legal_documents docs d]> ds) ads ts cs ss rs dh bh ls)
| W_donor_eligibility bs ds ads ts cs ss rs dh bh ls id d status notes decided_at :
    ds !! id = Some d ->
    d_state d = DonorState.TESTS_PENDING ->
    write r (mkDb bs ds ads ts cs ss rs dh bh ls)
      (mkDb bs (<[id := with_d_eligibility status notes decided_at d]> ds)
         ads ts cs ss rs dh bh ls)
| W_request_counseling bs ds ads ts cs ss rs dh bh ls id d x reason :
    ds !! id = Some d ->
    d_state d = DonorState.ACCOUNT_CREATED ->
    s_id x ∉ s_id <$> ss ->
    s_donor_id x = d_id d ->
    d_bank_id d = Some (s_bank_id x) ->
    write r (mkDb bs ds ads ts cs ss rs dh bh ls)
      (mkDb bs (<[id := with_d_state DonorState.COUNSELING_REQUESTED d]> ds) ads ts cs
         (ss ++ [x]) rs
         (dh ++ [mkDonorStateHistory (d_id d) (Some (d_state d))
                   DonorState.COUNSELING_REQUESTED (d_id d) "donor" reason])
         bh ls)
| W_donor_transition bs ds ads ts cs ss rs dh bh ls id d new_state changed_by reason :
    ds !! id = Some d ->
    new_state ∈ DONOR_STATE_TRANSITIONS (d_state d) ->
    new_state ≠ DonorState.COUNSELING_REQUESTED ->
    (new_state = DonorState.ACCOUNT_CREATED -> is_Some (d_hashed_password d)) ->
    (new_state = DonorState.DONOR_ONBOARDED ->
     d_eligibility_status d = EligibilityStatus.APPROVED) ->
    (transition_role new_state = "donor" ∧ changed_by = d_id d
     ∨ transition_role new_state = "bank" ∧ d_bank_id d = Some changed_by) ->
    write r (mkDb bs ds ads ts cs ss rs dh bh ls)
      (mkDb bs (<[id := with_d_state new_state d]> ds) ads ts cs ss rs
         (dh ++ [mkDonorStateHistory (d_id d) (Some (d_state d)) new_state
                   changed_by (transition_role new_state) reason])
         bh ls)
| W_add_consent bs ds ads ts cs ss rs dh bh ls c k d t :
    c_id c ∉ c_id <$> cs ->
    ds !! k = Some d ->
    c_donor_id c = d_id d ->
    t ∈ ts ->
    t_id t = c_template_id c ->
    Some (t_bank_id t) = d_bank_id d ->
    head (filter (fun x => c_donor_id x = c_donor_id c ∧ c_template_id x = c_template_id c)
            cs) = None ->
    c_status c = ConsentStatus.SIGNED ->
    c_verified_by c = None ->
    write r (mkDb bs ds ads ts cs ss rs dh bh ls)
      (mkDb bs ds ads ts (cs ++ [c]) ss rs dh bh ls)
| W_verify_consent bs ds ads ts cs ss rs dh bh ls target k d status verified_at bank notes :
    target ∈ cs ->
    ds !! k = Some d ->
    d_id d = c_donor_id target ->
    d_bank_id d = Some bank ->
    write r (mkDb bs ds ads ts cs ss rs dh bh ls)
      (mkDb bs ds ads ts
         ((fun c => if decide (c_id c = c_id target)
                    then with_c_verification status verified_at (Some bank) notes c
                    else c) <$> cs)
         ss rs dh bh ls)
| W_add_report bs ds ads ts cs ss rs dh bh ls x k d :
    r_id x ∉ r_id <$> rs ->
    ds !! k = Some d ->
    r_donor_id x = d_id d ->
    d_bank_id d = Some (r_bank_id x) ->
    d_state d ∈ [DonorState.CONSENT_VERIFIED; DonorState.TESTS_PENDING] ->
    write r (mkDb bs ds ads ts cs ss rs dh bh ls)
      (mkDb bs ds ads ts cs ss (rs ++ [x]) dh bh ls).

Definition writes (r : Request) : Db -> Db -> Prop := rtc (write r).

(** ** Invariants of the stored rows *)

(** The endpoints that are not requests of the model ([update_profile],
    [schedule_counseling], [update_counseling_session], [admin_login]) write
    the profile columns of a bank, among them its name, the status, the
    schedule and the notes of a counseling session, and the last login of an
    admin.  Nothing below mentions these columns. *)

(** What holds of a bank row in every database the handlers can produce. *)
Definition bank_sound (b : Bank) : Prop :=
  (b_is_subscribed b = true -> b_is_verified b = true) ∧
  (BankState.rank BankState.VERIFIED ≤ BankState.rank (b_state b) ->
   b_is_verified b = true)%nat ∧
  (BankState.rank BankState.SUBSCRIPTION_PENDING ≤ BankState.rank (b_state b) ->
   b_is_subscribed b = true)%nat ∧
  (BankState.rank BankState.VERIFICATION_PENDING ≤ BankState.rank (b_state b) ->
   ∃ l url, b_certification_documents b = Some (l ++ [url])%list)%nat ∧
  b_state b ≠ BankState.UNREGISTERED ∧
  b_certification_documents b ≠ Some [].

(** How a write can change a bank row; [admin] tells whether the request
    came through the admin portal.  The name of a bank is left out: it is a
    profile column, which [update_profile] may change. *)
Definition bank_row_step (admin : bool) (b b' : Bank) : Prop :=
  b_id b' = b_id b ∧ b_email b' = b_email b ∧
  b_hashed_password b' = b_hashed_password b ∧
  (BankState.rank (b_state b) ≤ BankState.rank (b_state b'))%nat ∧
  (b_is_verified b = true ->
   b_is_verified b' = true ∧ b_verified_at b' = b_verified_at b
   ∧ b_verified_by b' = b_verified_by b) ∧
  (b_is_subscribed b = true -> b_is_subscribed b' = true) ∧
  (admin = false ->
   b_is_verified b' = b_is_verified b ∧ b_verified_at b' = b_verified_at b
   ∧ b_verified_by b' = b_verified_by b) ∧
  (b_state b = BankState.VERIFICATION_PENDING -> b_is_verified b = true ->
   b_state b' = BankState.VERIFICATION_PENDING) ∧
  (∃ more, default [] (b_certification_documents b')
           = default [] (b_certification_documents b) ++ more)%list.

(** What holds of a donor row in every database the handlers can produce. *)
Definition donor_sound (d : Donor) : Prop :=
  (DonorState.rank DonorState.BANK_SELECTED ≤ DonorState.rank (d_state d))%nat ∧
  (DonorState.rank DonorState.ACCOUNT_CREATED ≤ DonorState.rank (d_state d) ->
   is_Some (d_hashed_password d))%nat ∧
  (d_state d = DonorState.DONOR_ONBOARDED ->
   d_eligibility_status d = EligibilityStatus.APPROVED) ∧
  (d_eligibility_status d ≠ EligibilityStatus.PENDING ->
   DonorState.rank DonorState.TESTS_PENDING ≤ DonorState.rank (d_state d))%nat.

Definition donor_row_step (d d' : Donor) : Prop :=
  d_id d' = d_id d ∧ d_email d' = d_email d ∧ d_bank_id d' = d_bank_id d ∧
  d_selected_at d' = d_selected_at d ∧
  (DonorState.rank (d_state d) ≤ DonorState.rank (d_state d'))%nat ∧
  (DonorState.rank DonorState.ACCOUNT_CREATED ≤ DonorState.rank (d_state d) ->
   d_hashed_password d' = d_hashed_password d
   ∧ d_legal_documents d' = d_legal_documents d)%nat ∧
  (DonorState.rank DonorState.ELIGIBILITY_DECISION ≤ DonorState.rank (d_state d) ->
   d_eligibility_status d' = d_eligibility_status d
   ∧ d_eligibility_notes d' = d_eligibility_notes d
   ∧ d_eligibility_decided_at d' = d_eligibility_decided_at d)%nat.

Definition emails_unique (db : Db) : Prop :=
  (∀ k1 k2 b1 b2, banks db !! k1 = Some b1 -> banks db !! k2 = Some b2 ->
     b_email b1 = b_email b2 -> k1 = k2) ∧
  (∀ k1 k2 d1 d2, donors db !! k1 = Some d1 -> donors db !! k2 = Some d2 ->
     d_email d1 = d_email d2 -> k1 = k2).

Definition banks_sound (db : Db) : Prop := ∀ k b, banks db !! k = Some b -> bank_sound b.

Definition donors_sound (db : Db) : Prop :=
  ∀ k d, donors db !! k = Some d ->
    donor_sound d ∧
    ∃ bank, d_bank_id d = Some (b_id bank) ∧ banks db !! b_id bank = Some bank ∧
            b_is_verified bank = true ∧ b_is_subscribed bank = true.

Definition sessions_sound (db : Db) : Prop :=
  NoDup (s_id <$> counseling_sessions db) ∧
  (∀ x, x ∈ counseling_sessions db ->
     ∃ d, donors db !! s_donor_id x = Some d ∧ d_bank_id d = Some (s_bank_id x)) ∧
  (∀ k d, donors db !! k = Some d ->
     length (filter (fun x => s_donor_id x = k) (counseling_sessions db))
     = if bool_decide (DonorState.rank DonorState.COUNSELING_REQUESTED
                       ≤ DonorState.rank (d_state d))%nat
       then 1%nat else 0%nat).

Definition consent_sound (db : Db) (c : DonorConsent) : Prop :=
  ∃ d t, donors db !! c_donor_id c = Some d ∧
         t ∈ consent_templates db ∧ t_id t = c_template_id c ∧
         Some (t_bank_id t) = d_bank_id d ∧
         (∀ bank, c_verified_by c = Some bank -> d_bank_id d = Some bank) ∧
         (c_status c ≠ ConsentStatus.SIGNED -> is_Some (c_verified_by c)).

Definition consents_sound (db : Db) : Prop :=
  NoDup (c_id <$> donor_consents db) ∧
  (∀ c, c ∈ donor_consents db -> consent_sound db c) ∧
  (∀ i j c1 c2, donor_consents db !! i = Some c1 -> donor_consents db !! j = Some c2 ->
     c_donor_id c1 = c_donor_id c2 -> c_template_id c1 = c_template_id c2 -> i = j).

Definition templates_sound (db : Db) : Prop :=
  NoDup (t_id <$> consent_templates db) ∧
  ∀ t, t ∈ consent_templates db ->
    order_in_range (t_order t) ∧ is_Some (banks db !! t_bank_id t).

Definition reports_sound (db : Db) : Prop :=
  NoDup (r_id <$> test_reports db) ∧
  ∀ x, x ∈ test_reports db ->
    ∃ d, donors db !! r_donor_id x = Some d ∧ d_bank_id d = Some (r_bank_id x) ∧
         (DonorState.rank DonorState.CONSENT_VERIFIED ≤ DonorState.rank (d_state d))%nat.

Definition donor_history_sound (db : Db) : Prop :=
  ∀ h, h ∈ donor_state_history db ->
    ∃ d, donors db !! dh_donor_id h = Some d ∧
         dh_changed_by_role h = transition_role (dh_to_state h) ∧
         (dh_changed_by_role h = "donor" -> dh_changed_by h = dh_donor_id h) ∧
         (dh_changed_by_role h = "bank" -> d_bank_id d = Some (dh_changed_by h)).

Definition bank_history_sound (db : Db) : Prop :=
  ∀ h, h ∈ bank_state_history db ->
    bh_changed_by h = bh_bank_id h ∧ bh_to_state h ≠ BankState.VERIFIED ∧
    is_Some (banks db !! bh_bank_id h).

Definition logs_sound (db : Db) : Prop :=
  ∀ row, row ∈ activity_logs db ->
    ∃ k a, admins db !! k = Some a ∧ l_admin_id row = a_id a ∧ a_is_active a = true.

Definition bank_rows_step (admin : bool) (db db' : Db) : Prop :=
  ∀ k b, banks db !! k = Some b ->
    ∃ b', banks db' !! k = Some b' ∧ bank_row_step admin b b'.

Definition donor_rows_step (db db' : Db) : Prop :=
  ∀ k d, donors db !! k = Some d ->
    ∃ d', donors db' !! k = Some d' ∧ donor_row_step d d'.

(** Banks of [db'] that [db] does not have are unverified (for a sequence of
    requests that does not go through the admin portal). *)
Definition new_banks_unverified (db db' : Db) : Prop :=
  ∀ k b', banks db !! k = None -> banks db' !! k = Some b' -> b_is_verified b' = false.

(** ** What one request does to a state *)

(** What one request does to the state of a bank it finds: nothing, or one
    of the moves the handlers make between two commits. *)
Definition bank_request_step (r : Request) (a b : BankState.t) : Prop :=
  a = b ∨
  (a = BankState.ACCOUNT_CREATED ∧ b = BankState.VERIFICATION_PENDING) ∨
  (is_admin_request r = true ∧ a = BankState.VERIFICATION_PENDING
   ∧ b = BankState.VERIFIED) ∨
  (is_admin_request r = true
   ∧ (a = BankState.VERIFIED ∨ a = BankState.SUBSCRIPTION_PENDING)
   ∧ b = BankState.SUBSCRIBED_ONBOARDED) ∨
  (is_admin_request r = false ∧ a = BankState.VERIFIED ∧ b = BankState.OPERATIONAL).

(** The same for a donor; [af] tells whether the session autoflushes. *)
Definition donor_request_step (af : bool) (a b : DonorState.t) : Prop :=
  a = b ∨
  (a = DonorState.LEAD_CREATED ∧ b = DonorState.ACCOUNT_CREATED) ∨
  (a = DonorState.ACCOUNT_CREATED ∧ b = DonorState.COUNSELING_REQUESTED) ∨
  (af = false ∧ a = DonorState.COUNSELING_REQUESTED ∧ b = DonorState.CONSENT_PENDING) ∨
  (a = DonorState.CONSENT_PENDING ∧ b = DonorState.CONSENT_VERIFIED) ∨
  (a = DonorState.CONSENT_VERIFIED ∧ b = DonorState.TESTS_PENDING) ∨
  (a = DonorState.TESTS_PENDING
   ∧ (b = DonorState.ELIGIBILITY_DECISION ∨ b = DonorState.DONOR_ONBOARDED)).

Definition request_steps (af : bool) (r : Request) (db db' : Db) : Prop :=
  (∀ k b, banks db !! k = Some b ->
     ∃ b', banks db' !! k = Some b' ∧ bank_request_step r (b_state b) (b_state b')) ∧
  (∀ k d, donors db !! k = Some d ->
     ∃ d', donors db' !! k = Some d' ∧ donor_request_step af (d_state d) (d_state d')) ∧
  (∀ k b', banks db !! k = None -> banks db' !! k = Some b' ->
     b_state b' = BankState.ACCOUNT_CREATED) ∧
  (∀ k d', donors db !! k = None -> donors db' !! k = Some d' ->
     d_state d' = DonorState.LEAD_CREATED).

(** ** The history of a bank *)

(** The moves on record for a bank: the two states of each of its rows,
    oldest row first. *)
Definition bank_moves (rows : list BankStateHistory)
    : list (option BankState.t * BankState.t) :=
  (fun h => (bh_from_state h, bh_to_state h)) <$> rows.

(** The three histories a bank can have, each with the states the bank can be
    in.  [upload_certification] records the first move and
    [create_subscription] the last three.  In between stands the admin's
    [verify_bank], which records nothing, so that the second row does not
    start where the first one ended; and a bank that the admin subscribed
    ([update_bank_subscription], no row either) stays with the one row. *)
Definition bank_history_shape (rows : list BankStateHistory) (state : BankState.t) : Prop :=
  (bank_moves rows = [] ∧ state = BankState.ACCOUNT_CREATED) ∨
  (bank_moves rows = [(Some BankState.ACCOUNT_CREATED, BankState.VERIFICATION_PENDING)]
   ∧ (state = BankState.VERIFICATION_PENDING ∨ state = BankState.VERIFIED
      ∨ state = BankState.SUBSCRIBED_ONBOARDED)) ∨
  (bank_moves rows =
     [(Some BankState.ACCOUNT_CREATED, BankState.VERIFICATION_PENDING);
      (Some BankState.VERIFIED, BankState.SUBSCRIPTION_PENDING);
      (Some BankState.SUBSCRIPTION_PENDING, BankState.SUBSCRIBED_ONBOARDED);
      (Some BankState.SUBSCRIBED_ONBOARDED, BankState.OPERATIONAL)]
   ∧ state = BankState.OPERATIONAL).

(** What a request of the admin portal does to the state of a bank: nothing;
    or, for [verify_bank], the edge from [VERIFICATION_PENDING] to [VERIFIED];
    or, for [update_bank_subscription], the move to [SUBSCRIBED_ONBOARDED],
    which is an edge from [SUBSCRIPTION_PENDING] and skips a state from
    [VERIFIED]. *)
Definition admin_bank_step (o : origin) (a b : BankState.t) : Prop :=
  a = b ∨
  (o = AdminVerify ∧ a = BankState.VERIFICATION_PENDING ∧ b = BankState.VERIFIED) ∨
  (o = AdminSubscription ∧ a = BankState.SUBSCRIPTION_PENDING
   ∧ b = BankState.SUBSCRIBED_ONBOARDED) ∨
  (o = AdminSubscription ∧ a = BankState.VERIFIED
   ∧ b = BankState.SUBSCRIBED_ONBOARDED).

(** Bank rows belong to stored banks, and a bank in [ACCOUNT_CREATED] has no
    row yet. *)
Definition bank_rows_start (l : Lifecycle) : Prop :=
  (∀ h, h ∈ lc_bank_history l -> is_Some (lc_banks l !! bh_bank_id h)) ∧
  (∀ id b, lc_banks l !! id = Some b -> b_state b = BankState.ACCOUNT_CREATED ->
     bank_rows id (lc_bank_history l) = []).

(** Every stored bank has one of the three histories. *)
Definition bank_shapes (db : Db) : Prop :=
  ∀ id b, banks db !! id = Some b ->
    bank_history_shape (bank_rows id (bank_state_history db)) (b_state b).

(** ** The activity log *)

(** The rows the two optional filters of [list_activity_logs] let through: a
    filter that is absent or empty lets every row through. *)
Definition log_matches (entity_type admin_id : option string) (log : ActivityLog) : Prop :=
  (∀ v, entity_type = Some v -> v ≠ "" -> l_entity_type log = v) ∧
  (∀ v, admin_id = Some v -> v ≠ "" -> l_admin_id log = v).

#[global] Instance log_matches_dec entity_type admin_id log :
  Decision (log_matches entity_type admin_id log).
Proof.
  unfold log_matches.
  assert (D : ∀ (o : option string) (x : string),
            Decision (∀ v, o = Some v -> v ≠ "" -> x = v)).
  { intros [v|] x.
    - destruct (decide (v = "")) as [->|Hv].
      + left. intros v' ? ?. by simplify_eq.
      + destruct (decide (x = v)) as [->|Hx].
        * left. intros v' ? ?. by simplify_eq.
        * right. intros H. by apply Hx, H.
    - left. by intros v' ?. }
  apply and_dec; apply D.
Defined.

(** ** More data for the runs *)

(** The bank of [one_donor_db] renames its first template and asks for an
    order that does not exist: the second edit is refused. *)
Definition rename_with_bad_order : Request :=
  PUT_bank_consents_templates (token "b1" "bank") "t1" None (Some "Renamed")
    (Some 9%Z) None.

(** What the main API alone can do for a bank. *)
Definition self_service : list Request :=
  [ POST_auth_bank_register "bank@example.com" "hash" "Bank One" "b1";
    POST_bank_certification_upload (token "b1" "bank") (inr "cert.pdf");
    POST_bank_subscription (token "b1" "bank") "gold" 6;
    POST_donor_lead "b1" "donor@example.com" "d1" 7 ].

(** The password check of the runs: the hash of a password is the password. *)
Definition plain_password (password hashed : string) : bool :=
  bool_decide (password = hashed).

(** * Reasoning about handlers *)

(** ** A weakest-precondition calculus for [M] *)

Lemma wp_bind {A B : Type} (m : M A) (k : A -> M B) Q s :
  wp m (fun r s' => match r with
                    | inl e => Q (inl e) s'
                    | inr a => wp (k a) Q s'
                    end) s ->
  wp (bind m k) Q s.
Proof. unfold wp, bind. by destruct (m s) as [[e|a] s']. Qed.

Lemma wp_ret {A : Type} (a : A) Q s : Q (inr a) s -> wp (ret a) Q s.
Proof. done. Qed.

Lemma wp_raise {A : Type} (e : Exn) (Q : Exn + A -> Session -> Prop) s :
  Q (inl e) s -> wp (raise e) Q s.
Proof. done. Qed.

Lemma wp_objects Q s : Q (inr (live s)) s -> wp objects Q s.
Proof. done. Qed.

Lemma wp_modify f Q s :
  Q (inr tt) (mkSession (autoflush s) (committed s) (flushed s) (f (live s))) ->
  wp (modify f) Q s.
Proof. done. Qed.

Lemma wp_commit Q s :
  Q (inr tt) (mkSession (autoflush s) (live s) (live s) (live s)) -> wp commit Q s.
Proof. done. Qed.

Lemma wp_query Q s :
  (if autoflush s
   then Q (inr (live s)) (mkSession true (committed s) (live s) (live s))
   else Q (inr (flushed s)) s) ->
  wp query Q s.
Proof. unfold wp, query. by destruct (autoflush s) eqn:E. Qed.

Lemma wp_run_request {A : Type} af (m : M A) db (P : (Exn + A) * Db -> Prop) :
  wp m (fun r s => P (r, committed s)) (open_session af db) ->
  P (run_request af m db).
Proof. unfold wp, run_request. by destruct (m (open_session af db)). Qed.

Lemma wp_donor_obj id Q s :
  match donors (live s) !! id with
  | Some d => Q (inr d) s
  | None => Q (inl ObjectNotFound) s
  end ->
  wp (donor_obj id) Q s.
Proof. unfold wp, donor_obj, bind, objects. by destruct (donors (live s) !! id). Qed.

Lemma wp_bank_obj id Q s :
  match banks (live s) !! id with
  | Some b => Q (inr b) s
  | None => Q (inl ObjectNotFound) s
  end ->
  wp (bank_obj id) Q s.
Proof. unfold wp, bank_obj, bind, objects. by destruct (banks (live s) !! id). Qed.

Lemma wp_set_donor id f Q s :
  match donors (live s) !! id with
  | Some d =>
      Q (inr tt) (mkSession (autoflush s) (committed s) (flushed s)
                    (with_donors (<[id := f d]> (donors (live s))) (live s)))
  | None => Q (inl ObjectNotFound) s
  end ->
  wp (set_donor id f) Q s.
Proof.
  unfold wp, set_donor, donor_obj, bind, objects, modify.
  by destruct (donors (live s) !! id).
Qed.

Lemma wp_set_bank id f Q s :
  match banks (live s) !! id with
  | Some b =>
      Q (inr tt) (mkSession (autoflush s) (committed s) (flushed s)
                    (with_banks (<[id := f b]> (banks (live s))) (live s)))
  | None => Q (inl ObjectNotFound) s
  end ->
  wp (set_bank id f) Q s.
Proof.
  unfold wp, set_bank, bank_obj, bind, objects, modify.
  by destruct (banks (live s) !! id).
Qed.

(** ** What a transition does to the database *)

Lemma transition_donor_state_run s id new_state changed_by role reason :
  transition_donor_state id new_state changed_by role reason s =
  match donors (live s) !! id with
  | None => (inl ObjectNotFound, s)
  | Some d =>
      if can_transition_donor_state (d_state d) new_state then
        let db := apply_donor_transition (live s) id d new_state changed_by role reason in
        (inr tt, mkSession (autoflush s) db db db)
      else
        (inl (ValueError ("Invalid state transition from "
                          +:+ DonorState.value (d_state d) +:+ " to "
                          +:+ DonorState.value new_state)), s)
  end.
Proof.
  unfold transition_donor_state, set_donor, donor_obj, bind, objects, modify,
    commit, ret, raise.
  destruct (donors (live s) !! id) as [d|] eqn:Hd; [|done].
  destruct (can_transition_donor_state (d_state d) new_state); simpl; [|done].
  by rewrite Hd.
Qed.

Lemma transition_bank_state_run s id new_state changed_by reason :
  transition_bank_state id new_state changed_by reason s =
  match banks (live s) !! id with
  | None => (inl ObjectNotFound, s)
  | Some b =>
      if can_transition_bank_state (b_state b) new_state then
        let db := apply_bank_transition (live s) id b new_state changed_by reason in
        (inr tt, mkSession (autoflush s) db db db)
      else
        (inl (ValueError ("Invalid state transition from "
                          +:+ BankState.value (b_state b) +:+ " to "
                          +:+ BankState.value new_state)), s)
  end.
Proof.
  unfold transition_bank_state, set_bank, bank_obj, bind, objects, modify,
    commit, ret, raise.
  destruct (banks (live s) !! id) as [b|] eqn:Hb; [|done].
  destruct (can_transition_bank_state (b_state b) new_state); simpl; [|done].
  by rewrite Hb.
Qed.

Lemma wp_transition_donor_state id new_state changed_by role reason Q s :
  match donors (live s) !! id with
  | None => Q (inl ObjectNotFound) s
  | Some d =>
      if can_transition_donor_state (d_state d) new_state then
        let db := apply_donor_transition (live s) id d new_state changed_by role reason in
        Q (inr tt) (mkSession (autoflush s) db db db)
      else ∀ msg, Q (inl (ValueError msg)) s
  end ->
  wp (transition_donor_state id new_state changed_by role reason) Q s.
Proof.
  unfold wp. rewrite transition_donor_state_run.
  destruct (donors (live s) !! id) as [d|]; [|done].
  destruct (can_transition_donor_state (d_state d) new_state); [done|].
  intros H. apply H.
Qed.

Lemma wp_transition_bank_state id new_state changed_by reason Q s :
  match banks (live s) !! id with
  | None => Q (inl ObjectNotFound) s
  | Some b =>
      if can_transition_bank_state (b_state b) new_state then
        let db := apply_bank_transition (live s) id b new_state changed_by reason in
        Q (inr tt) (mkSession (autoflush s) db db db)
      else ∀ msg, Q (inl (ValueError msg)) s
  end ->
  wp (transition_bank_state id new_state changed_by reason) Q s.
Proof.
  unfold wp. rewrite transition_bank_state_run.
  destruct (banks (live s) !! id) as [b|]; [|done].
  destruct (can_transition_bank_state (b_state b) new_state); [done|].
  intros H. apply H.
Qed.

(** The legal edges, read off the two tables. *)
Lemma can_transition_donor_state_spec a b :
  can_transition_donor_state a b = true <-> b ∈ DONOR_STATE_TRANSITIONS a.
Proof. unfold can_transition_donor_state. by rewrite bool_decide_eq_true. Qed.

Lemma can_transition_bank_state_spec a b :
  can_transition_bank_state a b = true <-> b ∈ BANK_STATE_TRANSITIONS a.
Proof. unfold can_transition_bank_state. by rewrite bool_decide_eq_true. Qed.

Lemma donor_edge_rank a b :
  b ∈ DONOR_STATE_TRANSITIONS a -> DonorState.rank b = S (DonorState.rank a).
Proof. destruct a; cbn; intros H; decompose_list_elem_of; by subst. Qed.

Lemma bank_edge_rank a b :
  b ∈ BANK_STATE_TRANSITIONS a -> BankState.rank b = S (BankState.rank a).
Proof. destruct a; cbn; intros H; decompose_list_elem_of; by subst. Qed.

(** The string literals of the admin portal denote these states. *)
Lemma of_value_verified : BankState.of_value "verified" = Some BankState.VERIFIED.
Proof. reflexivity. Qed.

Lemma of_value_subscribed_onboarded :
  BankState.of_value "subscribed_onboarded" = Some BankState.SUBSCRIBED_ONBOARDED.
Proof. reflexivity. Qed.

Lemma value_verification_pending s :
  BankState.value s = "verification_pending" <-> s = BankState.VERIFICATION_PENDING.
Proof. by destruct s. Qed.

Lemma value_verified_or_subscription_pending s :
  BankState.value s ∈ ["verified"; "subscription_pending"]
  <-> s = BankState.VERIFIED ∨ s = BankState.SUBSCRIPTION_PENDING.
Proof.
  rewrite !elem_of_cons, elem_of_nil.
  destruct s; cbn; (split; [intros [?|[?|[]]]|intros [?|?]]); try done; auto.
Qed.

(** ** Symbolic execution of a handler *)

Ltac db_simpl :=
  cbn [autoflush committed flushed live fst snd open_session
       banks donors admins consent_templates donor_consents counseling_sessions
       test_reports donor_state_history bank_state_history activity_logs
       with_banks with_donors with_admins with_consent_templates
       with_donor_consents with_counseling_sessions with_test_reports
       with_donor_state_history with_bank_state_history with_activity_logs
       apply_donor_transition apply_bank_transition] in *.

Ltac db_simpl_goal :=
  cbn [autoflush committed flushed live fst snd open_session
       banks donors admins consent_templates donor_consents counseling_sessions
       test_reports donor_state_history bank_state_history activity_logs
       with_banks with_donors with_admins with_consent_templates
       with_donor_consents with_counseling_sessions with_test_reports
       with_donor_state_history with_bank_state_history with_activity_logs
       apply_donor_transition apply_bank_transition];
  rewrite ?lookup_insert_eq, ?of_value_verified, ?of_value_subscribed_onboarded.

Ltac wp_branch :=
  lazymatch goal with
  | |- wp (match ?x with _ => _ end) _ _ => destruct x eqn:?
  | |- match ?x with _ => _ end => destruct x eqn:?
  end; simplify_eq.

Ltac wp_step :=
  lazymatch goal with
  | |- wp (bind _ _) _ _ => apply wp_bind
  | |- wp (ret _) _ _ => apply wp_ret
  | |- wp (raise _) _ _ => apply wp_raise
  | |- wp query _ _ => apply wp_query
  | |- wp objects _ _ => apply wp_objects
  | |- wp (modify _) _ _ => apply wp_modify
  | |- wp commit _ _ => apply wp_commit
  | |- wp (donor_obj _) _ _ => apply wp_donor_obj
  | |- wp (bank_obj _) _ _ => apply wp_bank_obj
  | |- wp (set_donor _ _) _ _ => apply wp_set_donor
  | |- wp (set_bank _ _) _ _ => apply wp_set_bank
  | |- wp (transition_donor_state _ _ _ _ _) _ _ => apply wp_transition_donor_state
  | |- wp (transition_bank_state _ _ _ _) _ _ => apply wp_transition_bank_state
  | |- wp (add_bank _) _ _ => unfold add_bank
  | |- wp (add_donor _) _ _ => unfold add_donor
  | |- wp (add_admin _) _ _ => unfold add_admin
  | |- wp (add_consent_template _) _ _ => unfold add_consent_template
  | |- wp (add_donor_consent _) _ _ => unfold add_donor_consent
  | |- wp (add_counseling_session _) _ _ => unfold add_counseling_session
  | |- wp (add_test_report _) _ _ => unfold add_test_report
  | |- wp (save_upload_file _) _ _ => unfold save_upload_file
  | |- wp (log_activity _ _ _ _) _ _ => unfold log_activity
  | |- wp (assign_bank_state _ _) _ _ => unfold assign_bank_state
  | |- wp (forget _) _ _ => unfold forget
  | |- _ => wp_branch
  end; db_simpl_goal.

Ltac wp_run := repeat wp_step.

Ltac wp_start :=
  lazymatch goal with
  | |- context [run_request ?af ?m ?db] =>
      pattern (run_request af m db); apply wp_run_request
  end.

(** ** Facts about queries *)

Lemma first_where_Some {A : Type} (P : A -> Prop) `{!∀ x, Decision (P x)}
    (m : gmap string A) (x : A) :
  first_where P m = Some x -> P x ∧ ∃ k, m !! k = Some x.
Proof.
  unfold first_where. intros Hf.
  assert (Hin : x ∈ filter P (snd <$> map_to_list m)).
  { destruct (filter P (snd <$> map_to_list m)) as [|y l]; simplify_eq/=.
    apply list_elem_of_here. }
  apply list_elem_of_filter in Hin as [HP Hin]. split; [done|].
  apply list_elem_of_fmap in Hin as [[k y] [-> Hin]].
  exists k. by apply elem_of_map_to_list.
Qed.

Lemma first_where_None {A : Type} (P : A -> Prop) `{!∀ x, Decision (P x)}
    (m : gmap string A) (k : string) (x : A) :
  first_where P m = None -> m !! k = Some x -> ¬ P x.
Proof.
  unfold first_where. intros Hf Hk HP.
  assert (Hin : x ∈ filter P (snd <$> map_to_list m)).
  { apply list_elem_of_filter. split; [done|].
    apply list_elem_of_fmap. exists (k, x). split; [done|].
    by apply elem_of_map_to_list. }
  destruct (filter P (snd <$> map_to_list m)); [|done].
  by apply elem_of_nil in Hin.
Qed.

Lemma head_filter_Some {A : Type} (P : A -> Prop) `{!∀ x, Decision (P x)}
    (l : list A) (x : A) :
  head (filter P l) = Some x -> P x ∧ x ∈ l.
Proof.
  intros Hf.
  assert (Hin : x ∈ filter P l).
  { destruct (filter P l); simplify_eq/=. apply list_elem_of_here. }
  by apply list_elem_of_filter in Hin.
Qed.

Lemma head_filter_None {A : Type} (P : A -> Prop) `{!∀ x, Decision (P x)}
    (l : list A) (x : A) :
  head (filter P l) = None -> x ∈ l -> ¬ P x.
Proof.
  intros Hf Hin HP.
  assert (Hin' : x ∈ filter P l) by by apply list_elem_of_filter.
  destruct (filter P l); [|done]. by apply elem_of_nil in Hin'.
Qed.

Lemma first_where_donor_id db (P : Donor -> Prop) `{!∀ x, Decision (P x)} id d :
  keys_ok db ->
  first_where (fun d => d_id d = id ∧ P d) (donors db) = Some d ->
  donors db !! id = Some d ∧ P d.
Proof.
  intros [Hk _] Hf. apply first_where_Some in Hf as [[Hid HP] [k Hl]].
  pose proof (Hk _ _ Hl). by simplify_eq.
Qed.

(** * C2: a transition that raises changes nothing *)

(** C2.  If [transition_donor_state] or [transition_bank_state] raises, the
    session it ran in is left exactly as it was: the live objects, the rows
    flushed to the transaction and the committed rows are all unchanged, hence
    neither the entity's [state] nor any history row differs between the
    snapshot before and the snapshot after. *)
Theorem transition_failure_changes_nothing (s s' : Session) (e : Exn) :
  (∀ donor new_state changed_by changed_by_role reason,
     transition_donor_state donor new_state changed_by changed_by_role reason s
       = (inl e, s') ->
     s' = s) ∧
  (∀ bank new_state changed_by reason,
     transition_bank_state bank new_state changed_by reason s = (inl e, s') ->
     s' = s).
Proof.
  split.
  - intros donor new_state changed_by role reason.
    rewrite transition_donor_state_run.
    destruct (donors (live s) !! donor) as [d|]; [|congruence].
    destruct (can_transition_donor_state (d_state d) new_state); cbn; congruence.
  - intros bank new_state changed_by reason.
    rewrite transition_bank_state_run.
    destruct (banks (live s) !! bank) as [b|]; [|congruence].
    destruct (can_transition_bank_state (b_state b) new_state); cbn; congruence.
Qed.

(** An edge that is not in the table does make the function raise. *)
Lemma transition_donor_state_illegal s id d new_state changed_by role reason :
  donors (live s) !! id = Some d ->
  new_state ∉ DONOR_STATE_TRANSITIONS (d_state d) ->
  ∃ msg, transition_donor_state id new_state changed_by role reason s
         = (inl (ValueError msg), s).
Proof.
  intros Hd Hn. rewrite transition_donor_state_run, Hd.
  destruct (can_transition_donor_state (d_state d) new_state) eqn:E; [|eauto].
  by apply can_transition_donor_state_spec in E.
Qed.

Lemma transition_bank_state_illegal s id b new_state changed_by reason :
  banks (live s) !! id = Some b ->
  new_state ∉ BANK_STATE_TRANSITIONS (b_state b) ->
  ∃ msg, transition_bank_state id new_state changed_by reason s
         = (inl (ValueError msg), s).
Proof.
  intros Hb Hn. rewrite transition_bank_state_run, Hb.
  destruct (can_transition_bank_state (b_state b) new_state) eqn:E; [|eauto].
  by apply can_transition_bank_state_spec in E.
Qed.

(** * C1, C9: the consent quorum in [verify_consent] *)

Ltac resolve_donor_query db bank Hd :=
  try match goal with
    | H : first_where _ _ = Some _ |- _ =>
        apply (first_where_donor_id db (fun d => d_bank_id d = Some bank)) in H as [? ?];
          [|done]; simplify_eq
    | H : first_where _ _ = None |- _ =>
        exfalso; eapply (first_where_None _ _ _ _ H Hd); by split
    end.

Ltac settle_guards :=
  repeat match goal with
    | H : _ && _ = true |- _ => rewrite H
    | H : _ && _ = false |- _ => rewrite H
    | H : d_state _ = _ |- _ => rewrite H in *
    end;
  rewrite ?bool_decide_eq_true_2 by done;
  rewrite ?bool_decide_eq_false_2 by done;
  try done.

(** What a call of [verify_consent] by the owning bank returns and commits.
    [seen] is the database the two count queries run against. *)
Lemma verify_consent_run (af : bool) (db : Db) bank consent_id status notes now
    consent donor :
  keys_ok db ->
  head (filter (fun c => c_id c = consent_id) (donor_consents db)) = Some consent ->
  donors db !! c_donor_id consent = Some donor ->
  d_bank_id donor = Some bank ->
  let recorded := record_verification consent status now bank notes db in
  let seen := if af then recorded else db in
  run_request af (verify_consent bank consent_id status notes now) db =
  (inr "Consent verified successfully",
   if bool_decide (4 ≤ total_consents seen (d_id donor))%nat
      && bool_decide (4 ≤ verified_consents seen (d_id donor))%nat
      && bool_decide (d_state donor = DonorState.CONSENT_PENDING)
   then apply_donor_transition recorded (d_id donor) donor DonorState.CONSENT_VERIFIED
          bank "bank" (Some "All consents verified by bank")
   else recorded).
Proof.
  intros Hk Hc Hd Hb recorded seen.
  assert (Hid : d_id donor = c_donor_id consent) by (by apply Hk).
  apply (wp_run_request af _ db (fun x => x = _)).
  unfold verify_consent.
  subst seen recorded. unfold total_consents, verified_consents, record_verification.
  assert (Hd' : donors db !! d_id donor = Some donor) by (by rewrite Hid).
  assert (Hcan : can_transition_donor_state DonorState.CONSENT_PENDING
                   DonorState.CONSENT_VERIFIED = true) by done.
  destruct af; wp_run; resolve_donor_query db bank Hd; db_simpl; simplify_eq;
    settle_guards.
Qed.


(** C9 (as the code has it).  When the quorum advance fires, whatever the
    session's flush setting, the one history row that [verify_consent] appends
    records the edge [CONSENT_PENDING -> CONSENT_VERIFIED] and attributes it to
    the verifying bank: [changed_by] is the bank's id and [changed_by_role] is
    ["bank"]. *)
Theorem verify_consent_advance_attributed_to_bank (af : bool) (db : Db) bank
    consent_id status notes now consent donor donor' :
  keys_ok db ->
  head (filter (fun c => c_id c = consent_id) (donor_consents db)) = Some consent ->
  donors db !! c_donor_id consent = Some donor ->
  d_bank_id donor = Some bank ->
  let out := run_request af (verify_consent bank consent_id status notes now) db in
  d_state donor = DonorState.CONSENT_PENDING ->
  donors out.2 !! d_id donor = Some donor' ->
  d_state donor' = DonorState.CONSENT_VERIFIED ->
  donor_state_history out.2 =
    (donor_state_history db ++
     [mkDonorStateHistory (d_id donor) (Some DonorState.CONSENT_PENDING)
        DonorState.CONSENT_VERIFIED bank "bank"
        (Some "All consents verified by bank")])%list.
Proof.
  intros Hk Hc Hd Hb out Hs Hd' Hs'. subst out.
  assert (Hid : d_id donor = c_donor_id consent) by (by apply Hk).
  rewrite (verify_consent_run af db bank consent_id status notes now consent donor)
    in * by done.
  cbn [fst snd] in *.
  match type of Hd' with
  | context [if ?c then _ else _] => destruct c
  end.
  - unfold apply_donor_transition. db_simpl. by rewrite Hs.
  - unfold record_verification in Hd'. db_simpl.
    rewrite Hid, Hd in Hd'. simplify_eq. congruence.
Qed.

(** * C5, C10: [sign_consent] *)

(** What a successful call of [sign_consent] returns and commits.  [seen] is
    the database the count query runs against. *)
Lemma sign_consent_run (af : bool) (db : Db) donor_id d template_id new_id now template :
  donors db !! donor_id = Some d ->
  d_state d ∈ [DonorState.CONSENT_PENDING; DonorState.COUNSELING_REQUESTED;
               DonorState.ACCOUNT_CREATED] ->
  head (filter (fun t => t_id t = template_id ∧ Some (t_bank_id t) = d_bank_id d)
          (consent_templates db)) = Some template ->
  head (filter (fun c => c_donor_id c = d_id d ∧ c_template_id c = template_id)
          (donor_consents db)) = None ->
  new_id ∉ c_id <$> donor_consents db ->
  let added :=
    with_donor_consents
      (donor_consents db ++
       [mkDonorConsent new_id (d_id d) template_id ConsentStatus.SIGNED (Some now)
          None None None]) db in
  let seen := if af then added else db in
  run_request af (sign_consent donor_id template_id new_id now) db =
  (inr new_id,
   if bool_decide (d_state d = DonorState.COUNSELING_REQUESTED)
      && bool_decide (signed_consents seen (d_id d) = 0)
   then apply_donor_transition added donor_id d DonorState.CONSENT_PENDING
          (d_id d) "donor" (Some "Started signing consent forms")
   else added).
Proof.
  intros Hd Hs Ht He Hn added seen.
  apply (wp_run_request af _ db (fun x => x = _)).
  unfold sign_consent. subst seen added. unfold signed_consents.
  destruct af; wp_run; db_simpl; simplify_eq;
    repeat match goal with
      | H : bool_decide _ = true |- _ => apply bool_decide_eq_true in H
      | H : bool_decide _ = false |- _ => apply bool_decide_eq_false in H
      | H : _ && _ = true |- _ => apply andb_true_iff in H as [? ?]
      end;
    try done.
  all: settle_guards.
Qed.




(** C10.  [sign_consent] accepts a donor in [ACCOUNT_CREATED]: with a template
    of the donor's bank that the donor has not signed yet, the call returns the
    new consent, a row with status [SIGNED] is appended to the consents, and
    the donors and the donor history are unchanged; the service-layer predicate
    [can_sign_consent] rejects that same donor. *)
Theorem sign_consent_accepts_account_created (af : bool) (db : Db) donor_id d
    template_id new_id now template :
  donors db !! donor_id = Some d ->
  d_state d = DonorState.ACCOUNT_CREATED ->
  head (filter (fun t => t_id t = template_id ∧ Some (t_bank_id t) = d_bank_id d)
          (consent_templates db)) = Some template ->
  head (filter (fun c => c_donor_id c = d_id d ∧ c_template_id c = template_id)
          (donor_consents db)) = None ->
  new_id ∉ c_id <$> donor_consents db ->
  let out := run_request af (sign_consent donor_id template_id new_id now) db in
  out.1 = inr new_id ∧
  donor_consents out.2 =
    (donor_consents db ++
     [mkDonorConsent new_id (d_id d) template_id ConsentStatus.SIGNED (Some now)
        None None None])%list ∧
  donors out.2 = donors db ∧
  donor_state_history out.2 = donor_state_history db ∧
  can_sign_consent d = false.
Proof.
  intros Hd Hs Ht He Hn out. subst out.
  rewrite (sign_consent_run af db donor_id d template_id new_id now template)
    by (try done; rewrite Hs; do 2 apply list_elem_of_further; apply list_elem_of_here).
  cbn [fst snd]. rewrite (bool_decide_eq_false_2 (d_state d = _)) by (by rewrite Hs).
  cbn [andb]. db_simpl. repeat split; try done.
  unfold can_sign_consent. apply bool_decide_eq_false_2. rewrite Hs.
  by intros [?|[?|?%elem_of_nil]%elem_of_cons]%elem_of_cons.
Qed.

(** * C6: [verify_bank] *)

(** C6 (as the code has it).  For a bank that is not verified yet,
    [verify_bank] succeeds in every state: it sets [is_verified], [verified_at]
    and [verified_by], moves [state] to [VERIFIED] exactly when it was
    [VERIFICATION_PENDING], leaves [state] alone otherwise, and writes no
    history row.  For a bank that is already verified the call is rejected
    with status 400 and nothing is committed. *)
Theorem verify_bank_flags_and_state (af : bool) (db : Db) admin bank_id verified_by
    now b :
  banks db !! bank_id = Some b ->
  let out := run_request af (verify_bank admin bank_id verified_by now) db in
  if b_is_verified b then
    out = (inl (HTTPException 400 "Bank is already verified"), db)
  else
    out.1 = inr bank_id ∧
    bank_state_history out.2 = bank_state_history db ∧
    ∃ b',
      banks out.2 !! bank_id = Some b' ∧
      b_is_verified b' = true ∧
      b_verified_at b' = Some now ∧
      b_verified_by b' = Some verified_by ∧
      b_state b' = (if decide (b_state b = BankState.VERIFICATION_PENDING)
                    then BankState.VERIFIED else b_state b).
Proof.
  intros Hb out. subst out. wp_start.
  unfold verify_bank.
  destruct af; wp_run; try done.
  all: split; [done|]; split; [done|]; eexists; split; [done|].
  all: repeat split; try done; cbn.
  all: repeat match goal with H : decide _ = _ |- _ => clear H end; cbn in *.
  all: repeat match goal with
         | H : BankState.value _ = _ |- _ => apply value_verification_pending in H
         | H : ¬ (BankState.value _ = _) |- _ => rewrite value_verification_pending in H
         end.
  all: by case_decide.
Qed.

(** * C7: a bank acting on another bank's donor *)

Lemma first_where_not_owned db id d bank :
  keys_ok db ->
  donors db !! id = Some d ->
  d_bank_id d ≠ Some bank ->
  first_where (fun x => d_id x = id ∧ d_bank_id x = Some bank) (donors db) = None.
Proof.
  intros Hk Hd Hb.
  destruct (first_where _ (donors db)) as [x|] eqn:E; [|done].
  apply (first_where_donor_id db (fun x => d_bank_id x = Some bank)) in E as [? ?];
    [|done].
  by simplify_eq.
Qed.

(** C7 (as the code has it).  When the acting bank is not the bank of the
    donor, nothing is committed, and the status depends on the handler:
    [verify_consent], which looks the consent up first, answers 403;
    [upload_test_report] and [make_eligibility_decision], which look the donor
    up by id and bank in one query, answer 404 as for a donor that does not
    exist. *)
Theorem foreign_donor_is_rejected (af : bool) (db : Db) bank donor_id d :
  keys_ok db ->
  donors db !! donor_id = Some d ->
  d_bank_id d ≠ Some bank ->
  (∀ consent_id consent status notes now,
     head (filter (fun c => c_id c = consent_id) (donor_consents db)) = Some consent ->
     c_donor_id consent = donor_id ->
     run_request af (verify_consent bank consent_id status notes now) db =
     (inl (HTTPException 403 "Not authorized to verify this consent"), db)) ∧
  (∀ test_type test_name file new_id,
     run_request af (upload_test_report bank donor_id test_type test_name file new_id) db =
     (inl (HTTPException 404 "Donor not found"), db)) ∧
  (∀ status notes now,
     run_request af (make_eligibility_decision bank donor_id status notes now) db =
     (inl (HTTPException 404 "Donor not found"), db)).
Proof.
  intros Hk Hd Hb.
  pose proof (first_where_not_owned db donor_id d bank Hk Hd Hb) as Hnone.
  repeat split.
  - intros consent_id consent status notes now Hc Hid. subst donor_id.
    wp_start. unfold verify_consent. destruct af; wp_run; done.
  - intros test_type test_name file new_id.
    wp_start. unfold upload_test_report. destruct af; wp_run; done.
  - intros status notes now.
    wp_start. unfold make_eligibility_decision. destruct af; wp_run; done.
Qed.

(** * C8: the eligibility decision *)

Lemma make_eligibility_decision_run (af : bool) (db : Db) bank donor_id d status
    notes now :
  keys_ok db ->
  donors db !! donor_id = Some d ->
  d_bank_id d = Some bank ->
  d_state d = DonorState.TESTS_PENDING ->
  let out := run_request af (make_eligibility_decision bank donor_id status notes now) db in
  out.1 = inr (EligibilityStatus.value status) ∧
  donors out.2 = <[donor_id := decided d status notes now]> (donors db) ∧
  donor_state_history out.2 =
    (donor_state_history db ++ decision_rows d bank status)%list ∧
  banks out.2 = banks db ∧
  bank_state_history out.2 = bank_state_history db.
Proof.
  intros Hk Hd Hb Hs out. subst out.
  assert (Hid : d_id d = donor_id) by (by apply Hk).
  wp_start. unfold make_eligibility_decision, decided, decision_rows.
  destruct af; wp_run; resolve_donor_query db bank Hd;
    cbn in *; simplify_eq; rewrite ?Hs in *;
    repeat match goal with
      | H : can_transition_donor_state _ _ = false |- _ => by vm_compute in H
      | H : decide _ = _ |- _ => clear H
      end;
    try done.
  all: rewrite ?insert_insert_eq, <- ?app_assoc; cbn [app]; try done.
Qed.

(** * What a request can do to the two lifecycles *)

Ltac lc_simpl :=
  db_simpl; cbn [lifecycle lc_banks lc_donors lc_donor_history lc_bank_history] in *.

(** Side conditions of the elementary writes. *)
Ltac update_side :=
  cbn; rewrite ?lookup_insert_eq;
  first
    [ done
    | by apply can_transition_donor_state_spec
    | by apply can_transition_bank_state_spec
    | by left
    | by right
    | (left; by apply dec_stable)
    | by apply value_verification_pending
    | by apply value_verified_or_subscription_pending
    | (intros; congruence) ].

Ltac last_update :=
  first
    [ eapply U_donor_transition
    | eapply U_bank_transition
    | eapply U_admin_verify
    | eapply U_admin_subscription
    | eapply U_add_donor
    | eapply U_add_bank
    | eapply U_donor_fields
    | eapply U_bank_fields ];
  update_side.

Ltac solve_updates_from :=
  first
    [ apply rtc_refl
    | eapply rtc_r; [|last_update]; solve_updates_from ].

Ltac solve_updates := intros; unfold updates; lc_simpl; solve_updates_from.

Lemma first_where_lookup db (P : Donor -> Prop) `{!∀ x, Decision (P x)} x :
  keys_ok db ->
  first_where P (donors db) = Some x ->
  donors db !! d_id x = Some x ∧ P x.
Proof.
  intros [Hk _] Hf. apply first_where_Some in Hf as [HP [k Hl]].
  pose proof (Hk _ _ Hl). by simplify_eq.
Qed.

Ltac resolve_first_where Hk :=
  repeat match goal with
    | H : first_where _ (donors _) = Some _ |- _ =>
        apply first_where_lookup in H as [? ?]; [|exact Hk]
    end;
  simplify_eq.

Ltac wp_handler :=
  unfold get_subscribed_bank, get_verified_bank, get_current_bank, get_current_donor,
    get_current_user, require_role, get_current_admin,
    register_bank, upload_certification, update_counseling_config, create_subscription,
    create_consent_template, upload_consent_template, update_consent_template,
    verify_consent, upload_test_report, make_eligibility_decision,
    create_lead, create_account, sign_consent, request_counseling,
    create_admin, verify_bank, update_bank_subscription;
  wp_run.

(** Every request is a sequence of elementary writes. *)
Lemma serve_updates (af : bool) (db : Db) (r : Request) :
  keys_ok db ->
  updates (origin_of r) (lifecycle db) (lifecycle (serve af db r)).
Proof.
  intros Hk. unfold serve.
  destruct r; wp_start; cbn [handle origin_of].
  all: destruct af; wp_handler; resolve_first_where Hk; try solve_updates.
Qed.

(** ** History chains *)

Section ChainFacts.
Context {St Row : Type}.
Variable row_from : Row -> option St.
Variable row_to : Row -> St.
Variable next : St -> list St.

Lemma chain_app a rows1 b rows2 c :
  chain row_from row_to next a rows1 b ->
  chain row_from row_to next b rows2 c ->
  chain row_from row_to next a (rows1 ++ rows2) c.
Proof.
  revert a. induction rows1 as [|h rows1 IH]; intros a; cbn.
  - by intros ->.
  - intros (? & ? & ?) ?. eauto.
Qed.

Lemma chain_snoc a rows b h :
  chain row_from row_to next a rows b -> row_from h = Some b -> row_to h ∈ next b ->
  chain row_from row_to next a (rows ++ [h]) (row_to h).
Proof. intros H1 H2 H3. eapply chain_app; [done|]. by cbn. Qed.

Lemma chain_head a rows b h :
  chain row_from row_to next a rows b -> head rows = Some h -> row_from h = Some a.
Proof. destruct rows; cbn; [done|]. intros (? & ? & ?) ?. by simplify_eq. Qed.

Lemma chain_last a rows b :
  chain row_from row_to next a rows b ->
  match last rows with
  | Some h => row_to h = b
  | None => a = b
  end.
Proof.
  revert a. induction rows as [|h rows IH]; intros a; cbn; [done|].
  intros (? & ? & Hc). specialize (IH _ Hc).
  destruct rows as [|h' rows']; [exact IH|]. rewrite last_cons_cons.
  destruct (last (h' :: rows')) eqn:E; [done|]. by apply last_None in E.
Qed.

Lemma chain_consecutive a rows b i h h' :
  chain row_from row_to next a rows b ->
  rows !! i = Some h -> rows !! S i = Some h' ->
  row_from h' = Some (row_to h).
Proof.
  revert a i. induction rows as [|x rows IH]; intros a i; [done|].
  cbn. intros (? & ? & Hc) Hi Hi'. destruct i as [|i].
  - simplify_eq/=. destruct rows as [|y rows]; simplify_eq/=.
    by destruct Hc.
  - by eapply IH.
Qed.

Lemma chain_edges a rows b h :
  chain row_from row_to next a rows b -> h ∈ rows ->
  ∃ s, row_from h = Some s ∧ row_to h ∈ next s.
Proof.
  revert a. induction rows as [|x rows IH]; intros a; cbn.
  - by intros _ ?%elem_of_nil.
  - intros (? & ? & Hc) [->|?]%elem_of_cons; eauto.
Qed.

End ChainFacts.

Lemma donor_rows_snoc id l h :
  donor_rows id (l ++ [h]) =
  (donor_rows id l ++ if decide (dh_donor_id h = id) then [h] else [])%list.
Proof.
  unfold donor_rows. by rewrite filter_app.
Qed.

Lemma bank_rows_snoc id l h :
  bank_rows id (l ++ [h]) =
  (bank_rows id l ++ if decide (bh_bank_id h = id) then [h] else [])%list.
Proof.
  unfold bank_rows. by rewrite filter_app.
Qed.

(** ** Invariants of the lifecycle tables *)

Lemma donor_rows_fresh id l (ds : gmap string Donor) :
  (∀ h, h ∈ l -> is_Some (ds !! dh_donor_id h)) ->
  ds !! id = None ->
  donor_rows id l = [].
Proof.
  intros Href Hnone. unfold donor_rows.
  induction l as [|h l IH]; [done|].
  rewrite filter_cons_False.
  - apply IH. intros h' Hh'. apply Href. by apply list_elem_of_further.
  - intros <-. destruct (Href h) as [x Hx]; [apply list_elem_of_here|]. congruence.
Qed.

Lemma bank_rows_fresh id l (bs : gmap string Bank) :
  (∀ h, h ∈ l -> is_Some (bs !! bh_bank_id h)) ->
  bs !! id = None ->
  bank_rows id l = [].
Proof.
  intros Href Hnone. unfold bank_rows.
  induction l as [|h l IH]; [done|].
  rewrite filter_cons_False.
  - apply IH. intros h' Hh'. apply Href. by apply list_elem_of_further.
  - intros <-. destruct (Href h) as [x Hx]; [apply list_elem_of_here|]. congruence.
Qed.

Lemma update_keys_ok o l l' : update o l l' -> lc_keys_ok l -> lc_keys_ok l'.
Proof.
  intros Hu [Hd Hb]. destruct Hu; split; cbn in *; try done;
    intros k x Hl; apply lookup_insert_Some in Hl as [[? ?]|[? ?]];
    simplify_eq; cbn; eauto; etransitivity; eauto.
Qed.

Lemma updates_keys_ok o l l' : updates o l l' -> lc_keys_ok l -> lc_keys_ok l'.
Proof. induction 1; eauto using update_keys_ok. Qed.

Lemma update_donor_inv o l l' :
  update o l l' -> lc_keys_ok l -> donor_inv l -> donor_inv l'.
Proof.
  intros Hu [Hk _] [Href Hch].
  destruct Hu; split; cbn [lc_banks lc_donors lc_donor_history lc_bank_history] in *;
    try done.
  - intros h Hh. apply lookup_insert_is_Some'. right. by apply Href.
  - intros id d0 [[<- <-]|[? ?]]%lookup_insert_Some; [|by apply Hch].
    rewrite (donor_rows_fresh _ _ ds) by done. cbn. congruence.
  - intros h Hh. apply lookup_insert_is_Some'. right. by apply Href.
  - intros id0 d0 [[<- <-]|[? ?]]%lookup_insert_Some; [|by apply Hch].
    match goal with H : d_state _ = d_state _ |- _ => rewrite H end. by apply Hch.
  - intros h [Hh| ->%list_elem_of_singleton]%elem_of_app;
      apply lookup_insert_is_Some'; [right; by apply Href|].
    left. cbn. symmetry. by eapply Hk.
  - intros id0 d0 Hl. rewrite donor_rows_snoc. cbn [dh_donor_id].
    apply lookup_insert_Some in Hl as [[<- <-]|[? Hl]].
    + rewrite decide_True by (by eapply Hk).
      eapply (chain_snoc dh_from_state dh_to_state DONOR_STATE_TRANSITIONS
                _ _ _ (mkDonorStateHistory _ _ _ _ _ _)); cbn; eauto.
      by apply Hch.
    + rewrite decide_False, app_nil_r; [by apply Hch|].
      erewrite Hk by done. done.
Qed.

Lemma update_bank_inv l l' :
  update Engine l l' -> lc_keys_ok l -> bank_inv l -> bank_inv l'.
Proof.
  intros Hu [_ Hk] [Href Hch].
  destruct Hu; split; cbn [lc_banks lc_donors lc_donor_history lc_bank_history] in *;
    try done.
  - intros h Hh. apply lookup_insert_is_Some'. right. by apply Href.
  - intros id b0 [[<- <-]|[? ?]]%lookup_insert_Some; [|by apply Hch].
    rewrite (bank_rows_fresh _ _ bs) by done. cbn. congruence.
  - intros h Hh. apply lookup_insert_is_Some'. right. by apply Href.
  - intros id0 b0 [[<- <-]|[? ?]]%lookup_insert_Some; [|by apply Hch].
    match goal with H : b_state _ = b_state _ |- _ => rewrite H end. by apply Hch.
  - intros h [Hh| ->%list_elem_of_singleton]%elem_of_app;
      apply lookup_insert_is_Some'; [right; by apply Href|].
    left. cbn. symmetry. by eapply Hk.
  - intros id0 b0 Hl. rewrite bank_rows_snoc. cbn [bh_bank_id].
    apply lookup_insert_Some in Hl as [[<- <-]|[? Hl]].
    + rewrite decide_True by (by eapply Hk).
      eapply (chain_snoc bh_from_state bh_to_state BANK_STATE_TRANSITIONS
                _ _ _ (mkBankStateHistory _ _ _ _ _)); cbn; eauto.
      by apply Hch.
    + rewrite decide_False, app_nil_r; [by apply Hch|].
      erewrite Hk by done. done.
Qed.

Lemma updates_donor_inv o l l' :
  updates o l l' -> lc_keys_ok l -> donor_inv l -> donor_inv l'.
Proof.
  induction 1; [done|]. intros ? ?.
  eauto using update_keys_ok, update_donor_inv.
Qed.

Lemma updates_bank_inv l l' :
  updates Engine l l' -> lc_keys_ok l -> bank_inv l -> bank_inv l'.
Proof.
  induction 1; [done|]. intros ? ?.
  eauto using update_keys_ok, update_bank_inv.
Qed.

(** ** How far one request can move an entity *)

Lemma donor_chain_path a rows b : donor_chain a rows b -> rtc donor_edge a b.
Proof.
  revert a. induction rows as [|h rows IH]; intros a; cbn.
  - by intros ->.
  - intros (? & ? & ?). eapply rtc_l; [done|]. by apply IH.
Qed.

Lemma donor_path_rank a b : rtc donor_edge a b -> (DonorState.rank a ≤ DonorState.rank b)%nat.
Proof.
  induction 1 as [|a b c Hab _ IH]; [done|].
  apply donor_edge_rank in Hab. lia.
Qed.

Lemma bank_step_rank o a b : bank_step o a b -> (BankState.rank a < BankState.rank b)%nat.
Proof.
  intros [H|(_ & -> & ->)]; [|cbn; lia]. apply bank_edge_rank in H. lia.
Qed.

Lemma bank_path_rank o a b : rtc (bank_step o) a b -> (BankState.rank a ≤ BankState.rank b)%nat.
Proof.
  induction 1 as [|a b c Hab _ IH]; [done|].
  apply bank_step_rank in Hab. lia.
Qed.

Lemma donor_progress_refl l : donor_progress l l.
Proof. intros id d Hd. exists d, []. by rewrite app_nil_r. Qed.

Lemma donor_progress_trans l1 l2 l3 :
  donor_progress l1 l2 -> donor_progress l2 l3 -> donor_progress l1 l3.
Proof.
  intros H12 H23 id d Hd.
  destruct (H12 _ _ Hd) as (d2 & delta1 & Hd2 & Hr2 & Hc2).
  destruct (H23 _ _ Hd2) as (d3 & delta2 & Hd3 & Hr3 & Hc3).
  exists d3, (delta1 ++ delta2)%list. split; [done|]. split.
  - by rewrite Hr3, Hr2, app_assoc.
  - by eapply chain_app.
Qed.

Lemma bank_recorded_progress_refl l : bank_recorded_progress l l.
Proof. intros id b Hb. exists b, []. by rewrite app_nil_r. Qed.

Lemma bank_recorded_progress_trans l1 l2 l3 :
  bank_recorded_progress l1 l2 -> bank_recorded_progress l2 l3 ->
  bank_recorded_progress l1 l3.
Proof.
  intros H12 H23 id b Hb.
  destruct (H12 _ _ Hb) as (b2 & delta1 & Hb2 & Hr2 & Hc2).
  destruct (H23 _ _ Hb2) as (b3 & delta2 & Hb3 & Hr3 & Hc3).
  exists b3, (delta1 ++ delta2)%list. split; [done|]. split.
  - by rewrite Hr3, Hr2, app_assoc.
  - by eapply chain_app.
Qed.

Lemma bank_progress_trans o l1 l2 l3 :
  bank_progress o l1 l2 -> bank_progress o l2 l3 -> bank_progress o l1 l3.
Proof.
  intros H12 H23 id b Hb.
  destruct (H12 _ _ Hb) as (b2 & Hb2 & Hp2).
  destruct (H23 _ _ Hb2) as (b3 & Hb3 & Hp3).
  exists b3. split; [done|]. by etrans.
Qed.

Ltac lc_cbn := cbn [lc_banks lc_donors lc_donor_history lc_bank_history] in *.

Lemma update_donor_progress o l l' :
  update o l l' -> lc_keys_ok l -> donor_progress l l'.
Proof.
  intros Hu [Hk _].
  destruct Hu; intros id0 d0 Hd0; lc_cbn;
    try (by exists d0, []; rewrite app_nil_r).
  - exists d0, []. rewrite app_nil_r. split; [|done].
    rewrite lookup_insert_ne; [done|]. intros ?. by simplify_eq.
  - destruct (decide (id = id0)) as [<-|Hne].
    + exists d', []. rewrite lookup_insert_eq, app_nil_r. simplify_eq.
      split; [done|]. split; [done|]. unfold donor_chain. cbn. congruence.
    + exists d0, []. rewrite lookup_insert_ne, app_nil_r by done. done.
  - rewrite donor_rows_snoc. cbn [dh_donor_id].
    destruct (decide (id = id0)) as [<-|Hne].
    + simplify_eq. rewrite lookup_insert_eq, decide_True by (by eapply Hk).
      eexists _, _. split; [done|]. split; [done|]. by cbn.
    + rewrite lookup_insert_ne, decide_False by (by erewrite ?Hk by done).
      exists d0, []. done.
Qed.

Lemma update_bank_recorded_progress l l' :
  update Engine l l' -> lc_keys_ok l -> bank_recorded_progress l l'.
Proof.
  intros Hu [_ Hk].
  destruct Hu; try done; intros id0 b0 Hb0; lc_cbn;
    try (by exists b0, []; rewrite app_nil_r).
  - exists b0, []. rewrite app_nil_r. split; [|done].
    rewrite lookup_insert_ne; [done|]. intros ?. by simplify_eq.
  - destruct (decide (id = id0)) as [<-|Hne].
    + exists b', []. rewrite lookup_insert_eq, app_nil_r. simplify_eq.
      split; [done|]. split; [done|]. unfold bank_chain. cbn. congruence.
    + exists b0, []. rewrite lookup_insert_ne, app_nil_r by done. done.
  - rewrite bank_rows_snoc. cbn [bh_bank_id].
    destruct (decide (id = id0)) as [<-|Hne].
    + simplify_eq. rewrite lookup_insert_eq, decide_True by (by eapply Hk).
      eexists _, _. split; [done|]. split; [done|]. by cbn.
    + rewrite lookup_insert_ne, decide_False by (by erewrite ?Hk by done).
      exists b0, []. done.
Qed.

Lemma update_bank_progress o l l' : update o l l' -> bank_progress o l l'.
Proof.
  intros Hu.
  destruct Hu; intros id0 b0 Hb0; lc_cbn; try (by exists b0).
  - exists b0. split; [|done]. rewrite lookup_insert_ne; [done|].
    intros ?. by simplify_eq.
  - destruct (decide (id = id0)) as [<-|Hne].
    + exists b'. rewrite lookup_insert_eq. simplify_eq. split; [done|].
      match goal with H : b_state _ = b_state _ |- _ => by rewrite H end.
    + exists b0. by rewrite lookup_insert_ne.
  - destruct (decide (id = id0)) as [<-|Hne].
    + eexists. rewrite lookup_insert_eq. simplify_eq. split; [done|].
      apply rtc_once. by left.
    + exists b0. by rewrite lookup_insert_ne.
  - destruct (decide (id = id0)) as [<-|Hne].
    + eexists. rewrite lookup_insert_eq. simplify_eq. split; [done|].
      apply rtc_once. left. cbn.
      match goal with H : b_state _ = _ |- _ => rewrite H end.
      apply list_elem_of_here.
    + exists b0. by rewrite lookup_insert_ne.
  - destruct (decide (id = id0)) as [<-|Hne].
    + eexists. rewrite lookup_insert_eq. simplify_eq. split; [done|].
      apply rtc_once. cbn.
      match goal with H : _ ∨ _ |- _ => destruct H as [Hs|Hs] end; rewrite Hs.
      * by right.
      * left. apply list_elem_of_here.
    + exists b0. by rewrite lookup_insert_ne.
Qed.

Lemma updates_donor_progress o l l' :
  updates o l l' -> lc_keys_ok l -> donor_progress l l'.
Proof.
  induction 1 as [|l1 l2 l3 Hu _ IH]; [intros; apply donor_progress_refl|].
  intros Hk. eapply donor_progress_trans; [by eapply update_donor_progress|].
  apply IH. by eapply update_keys_ok.
Qed.

Lemma updates_bank_recorded_progress l l' :
  updates Engine l l' -> lc_keys_ok l -> bank_recorded_progress l l'.
Proof.
  induction 1 as [|l1 l2 l3 Hu _ IH]; [intros; apply bank_recorded_progress_refl|].
  intros Hk. eapply bank_recorded_progress_trans;
    [by eapply update_bank_recorded_progress|].
  apply IH. by eapply update_keys_ok.
Qed.

Lemma updates_bank_progress o l l' : updates o l l' -> bank_progress o l l'.
Proof.
  induction 1 as [|l1 l2 l3 Hu _ IH]; [by intros id b ?; exists b|].
  eapply bank_progress_trans; [by eapply update_bank_progress|done].
Qed.

Lemma update_parked o l l' id : update o l l' -> parked id l -> parked id l'.
Proof.
  intros Hu (d & Hd & Hs & He). unfold parked.
  destruct Hu; lc_cbn; try (by exists d).
  - exists d. split; [|done]. rewrite lookup_insert_ne; [done|].
    intros ?. by simplify_eq.
  - destruct (decide (id0 = id)) as [->|Hne].
    + simplify_eq. exists d'. rewrite lookup_insert_eq. split; [done|].
      split; [congruence|].
      match goal with H : _ ∨ _ |- _ => destruct H as [?|Heq] end; congruence.
    + exists d. by rewrite lookup_insert_ne.
  - destruct (decide (id0 = id)) as [->|Hne].
    + simplify_eq. exfalso.
      match goal with H : _ ∈ DONOR_STATE_TRANSITIONS _ |- _ =>
        rewrite Hs in H; apply list_elem_of_singleton in H end.
      auto.
    + exists d. by rewrite lookup_insert_ne.
Qed.

Lemma updates_parked o l l' id : updates o l l' -> parked id l -> parked id l'.
Proof. induction 1; eauto using update_parked. Qed.

(** ** Serving requests *)

Lemma serve_keys_ok af db r : keys_ok db -> keys_ok (serve af db r).
Proof.
  intros Hk. change (lc_keys_ok (lifecycle (serve af db r))).
  apply (updates_keys_ok (origin_of r) (lifecycle db)); [|done].
  by apply serve_updates.
Qed.

Lemma serve_all_keys_ok af db rs : keys_ok db -> keys_ok (serve_all af db rs).
Proof.
  revert db. induction rs as [|r rs IH]; intros db Hk; [done|].
  apply IH. by apply serve_keys_ok.
Qed.

Lemma initial_keys_ok admins0 : keys_ok (initial_db admins0).
Proof. split; intros k x; cbn; by rewrite lookup_empty. Qed.

Lemma initial_donor_inv admins0 : donor_inv (lifecycle (initial_db admins0)).
Proof.
  split; cbn.
  - by intros h ?%elem_of_nil.
  - intros id d. by rewrite lookup_empty.
Qed.

Lemma initial_bank_inv admins0 : bank_inv (lifecycle (initial_db admins0)).
Proof.
  split; cbn.
  - by intros h ?%elem_of_nil.
  - intros id b. by rewrite lookup_empty.
Qed.

Lemma serve_all_donor_inv af db rs :
  keys_ok db -> donor_inv (lifecycle db) -> donor_inv (lifecycle (serve_all af db rs)).
Proof.
  revert db. induction rs as [|r rs IH]; intros db Hk Hi; [done|].
  apply (IH (serve af db r)); [by apply serve_keys_ok|].
  eapply (updates_donor_inv (origin_of r) (lifecycle db));
    [by apply serve_updates|exact Hk|exact Hi].
Qed.

Lemma serve_all_bank_inv af db rs :
  Forall (fun r => origin_of r = Engine) rs ->
  keys_ok db -> bank_inv (lifecycle db) -> bank_inv (lifecycle (serve_all af db rs)).
Proof.
  intros Hrs. revert db. induction Hrs as [|r rs Hr _ IH]; intros db Hk Hi; [done|].
  apply (IH (serve af db r)); [by apply serve_keys_ok|].
  eapply (updates_bank_inv (lifecycle db)); [|exact Hk|exact Hi].
  rewrite <- Hr. by apply serve_updates.
Qed.

Lemma serve_all_parked af db rs id :
  keys_ok db -> parked id (lifecycle db) -> parked id (lifecycle (serve_all af db rs)).
Proof.
  revert db. induction rs as [|r rs IH]; intros db Hk Hp; [done|].
  apply (IH (serve af db r)); [by apply serve_keys_ok|].
  eapply (updates_parked (origin_of r) (lifecycle db)); [by apply serve_updates|done].
Qed.

(** ** Chains in the words of the data model *)

Lemma chain_history_is_chain {St Row : Type} (row_from : Row -> option St)
    (row_to : Row -> St) next start rows current :
  chain row_from row_to next start rows current ->
  history_is_chain row_from row_to start rows current.
Proof.
  intros Hc. split; [|split].
  - intros i h h'. by eapply chain_consecutive.
  - intros h. by eapply chain_head.
  - by eapply chain_last.
Qed.

(** Outside the admin's subscription update a move of a bank is an edge. *)
Lemma bank_step_edge o a b :
  o ≠ AdminSubscription -> bank_step o a b <-> b ∈ BANK_STATE_TRANSITIONS a.
Proof. intros Ho. split; [by intros [?|(? & _)]|by left]. Qed.

(** * C8, continued *)

(** C8.  For a donor of the acting bank in [TESTS_PENDING],
    [make_eligibility_decision] succeeds, stores the status and the notes,
    records the edge to [ELIGIBILITY_DECISION], and goes on to
    [DONOR_ONBOARDED] exactly when the status is [APPROVED].  A donor that was
    not approved is left in [ELIGIBILITY_DECISION], and no sequence of requests
    moves it from there. *)
Theorem eligibility_decision_outcome (af : bool) (db : Db) bank donor_id d status
    notes now :
  keys_ok db ->
  donors db !! donor_id = Some d ->
  d_bank_id d = Some bank ->
  d_state d = DonorState.TESTS_PENDING ->
  let out := run_request af (make_eligibility_decision bank donor_id status notes now) db in
  out.1 = inr (EligibilityStatus.value status) ∧
  donor_state_history out.2 =
    (donor_state_history db ++ decision_rows d bank status)%list ∧
  ∃ d',
    donors out.2 !! donor_id = Some d' ∧
    d_eligibility_status d' = status ∧
    d_eligibility_notes d' = notes ∧
    (d_state d' = DonorState.DONOR_ONBOARDED <-> status = EligibilityStatus.APPROVED) ∧
    (status ≠ EligibilityStatus.APPROVED ->
     d_state d' = DonorState.ELIGIBILITY_DECISION ∧
     ∀ af' rs, ∃ d'',
       donors (serve_all af' out.2 rs) !! donor_id = Some d'' ∧
       d_state d'' = DonorState.ELIGIBILITY_DECISION ∧
       d_eligibility_status d'' ≠ EligibilityStatus.APPROVED).
Proof.
  intros Hk Hd Hb Hs out.
  destruct (make_eligibility_decision_run af db bank donor_id d status notes now
              Hk Hd Hb Hs) as (Hr & Hds & Hh & Hbs & Hbh).
  fold out in Hr, Hds, Hh, Hbs, Hbh.
  split; [done|]. split; [done|].
  exists (decided d status notes now).
  assert (Hl : donors out.2 !! donor_id = Some (decided d status notes now))
    by (by rewrite Hds, lookup_insert_eq).
  split; [done|]. split; [done|]. split; [done|].
  unfold decided. split.
  - cbn. case_decide; split; done.
  - intros Hna. cbn. rewrite decide_False by done. split; [done|].
    intros af' rs.
    assert (Hk' : keys_ok out.2).
    { destruct Hk as [Hkd Hkb]. split.
      - intros k x. rewrite Hds.
        intros [[<- <-]|[? ?]]%lookup_insert_Some; [|by eauto].
        cbn. by apply Hkd.
      - intros k x. rewrite Hbs. apply Hkb. }
    destruct (serve_all_parked af' out.2 rs donor_id Hk') as (d'' & ? & ? & ?).
    + exists (decided d status notes now). split; [done|].
      unfold decided. cbn. by rewrite decide_False.
    + by exists d''.
Qed.

(** * Concrete runs *)

Lemma one_donor_db_keys_ok d consents : d_id d = "d1" -> keys_ok (one_donor_db d consents).
Proof.
  intros Hid. split; intros k x; cbn.
  - intros [<- <-]%lookup_singleton_Some. done.
  - intros [<- <-]%lookup_singleton_Some. done.
Qed.


(** The run itself: the fourth verification moves the donor. *)
Example fourth_verification_advances :
  d_state <$> donors (run_request true
                        (verify_consent "b1" "c4" ConsentStatus.VERIFIED None 9)
                        db_three_verified).2 !! "d1"
  = Some DonorState.CONSENT_VERIFIED.
Proof. vm_compute. reflexivity. Qed.

Example third_verification_does_not_advance :
  d_state <$> donors (run_request true
                        (verify_consent "b1" "c3" ConsentStatus.VERIFIED None 9)
                        (one_donor_db (donor1 DonorState.CONSENT_PENDING "b1")
                           [consent "c1" "t1" ConsentStatus.VERIFIED;
                            consent "c2" "t2" ConsentStatus.VERIFIED;
                            consent "c3" "t3" ConsentStatus.SIGNED;
                            consent "c4" "t4" ConsentStatus.SIGNED])).2 !! "d1"
  = Some DonorState.CONSENT_PENDING.
Proof. vm_compute. reflexivity. Qed.

Lemma transition_failure_changes_nothing_witness :
  transition_donor_state "d1" DonorState.CONSENT_PENDING "d1" "donor" None
    visitor_session
  = (inl (ValueError "Invalid state transition from visitor to consent_pending"),
     visitor_session)
  ∧ transition_bank_state "b1" BankState.VERIFIED "b1" None visitor_session
    = (inl (ValueError "Invalid state transition from operational to verified"),
       visitor_session).
Proof.
  assert (H1 : transition_donor_state "d1" DonorState.CONSENT_PENDING "d1" "donor" None
                 visitor_session
               = (inl (ValueError "Invalid state transition from visitor to consent_pending"),
                  (transition_donor_state "d1" DonorState.CONSENT_PENDING "d1" "donor"
                     None visitor_session).2))
    by (vm_compute; reflexivity).
  assert (H2 : transition_bank_state "b1" BankState.VERIFIED "b1" None visitor_session
               = (inl (ValueError "Invalid state transition from operational to verified"),
                  (transition_bank_state "b1" BankState.VERIFIED "b1" None
                     visitor_session).2))
    by (vm_compute; reflexivity).
  split.
  - exact (eq_trans H1
             (f_equal (pair _)
                (proj1 (transition_failure_changes_nothing visitor_session _ _)
                   _ _ _ _ _ H1))).
  - exact (eq_trans H2
             (f_equal (pair _)
                (proj2 (transition_failure_changes_nothing visitor_session _ _)
                   _ _ _ _ H2))).
Defined.


Lemma sign_consent_accepts_account_created_witness :
  let out := run_request false (sign_consent "d1" "t1" "c1" 8) db_account_created in
  out.1 = inr "c1" ∧
  donor_consents out.2 =
    [mkDonorConsent "c1" "d1" "t1" ConsentStatus.SIGNED (Some 8) None None None] ∧
  donors out.2 = donors db_account_created ∧
  donor_state_history out.2 = donor_state_history db_account_created ∧
  can_sign_consent (donor1 DonorState.ACCOUNT_CREATED "b1") = false.
Proof.
  apply (sign_consent_accepts_account_created false db_account_created "d1"
           (donor1 DonorState.ACCOUNT_CREATED "b1") "t1" "c1" 8 (template "t1" 1)).
  - reflexivity.
  - reflexivity.
  - reflexivity.
  - reflexivity.
  - vm_compute. intros H. by apply elem_of_nil in H.
Defined.

Lemma eligibility_decision_outcome_witness :
  let out := run_request false
               (make_eligibility_decision "b1" "d1" EligibilityStatus.REJECTED
                  (Some "anaemia") 10) db_tests_pending in
  out.1 = inr "rejected" ∧
  ∃ d',
    donors out.2 !! "d1" = Some d' ∧
    d_eligibility_status d' = EligibilityStatus.REJECTED ∧
    d_state d' = DonorState.ELIGIBILITY_DECISION ∧
    ∀ af' rs, ∃ d'',
      donors (serve_all af' out.2 rs) !! "d1" = Some d'' ∧
      d_state d'' = DonorState.ELIGIBILITY_DECISION.
Proof.
  destruct (eligibility_decision_outcome false db_tests_pending "b1" "d1"
              (donor1 DonorState.TESTS_PENDING "b1") EligibilityStatus.REJECTED
              (Some "anaemia") 10)
    as (Hr & _ & d' & Hd' & He & _ & _ & Hstay).
  - by apply one_donor_db_keys_ok.
  - reflexivity.
  - reflexivity.
  - reflexivity.
  - split; [exact Hr|]. exists d'. split; [exact Hd'|]. split; [exact He|].
    destruct Hstay as [Hs Hever]; [discriminate|]. split; [exact Hs|].
    intros af' rs. destruct (Hever af' rs) as (d'' & ? & ? & _). by exists d''.
Defined.



(** ** Runs from the initial database *)

(** C3 fails as stated.  After [onboarding], the first row of the donor's
    history starts at [BANK_SELECTED], which is neither null nor the donor
    machine's initial state; and the bank's first row ends at
    [VERIFICATION_PENDING] while its second starts at [VERIFIED], because
    [verify_bank] changed the state without a row. *)
Lemma history_chain_counterexample :
  let db := serve_all false db0 onboarding in
  (∃ h, head (donor_rows "d1" (donor_state_history db)) = Some h
        ∧ dh_from_state h ≠ None
        ∧ dh_from_state h ≠ Some donor_initial_state) ∧
  (∃ h0 h1, bank_rows "b1" (bank_state_history db) !! 0 = Some h0
            ∧ bank_rows "b1" (bank_state_history db) !! 1 = Some h1
            ∧ bh_to_state h0 = BankState.VERIFICATION_PENDING
            ∧ bh_from_state h1 = Some BankState.VERIFIED
            ∧ bh_from_state h1 ≠ Some (bh_to_state h0)).
Proof.
  split.
  - eexists. split; [vm_compute; reflexivity|]. cbn. split; discriminate.
  - eexists _, _. split; [vm_compute; reflexivity|].
    split; [vm_compute; reflexivity|]. cbn. repeat split; discriminate.
Qed.

(** C4 fails as stated.  A verified bank whose subscription the admin
    sets goes from [VERIFIED] to [SUBSCRIBED_ONBOARDED] in one request; that
    is no edge of the table, [SUBSCRIPTION_PENDING] is skipped. *)
Lemma skipped_state_counterexample :
  b_state <$> banks verified_bank_db !! "b1" = Some BankState.VERIFIED ∧
  b_state <$> banks (serve false verified_bank_db admin_subscribes) !! "b1"
    = Some BankState.SUBSCRIBED_ONBOARDED ∧
  ¬ can_transition_bank_state BankState.VERIFIED BankState.SUBSCRIBED_ONBOARDED ∧
  bank_state_history (serve false verified_bank_db admin_subscribes)
    = bank_state_history verified_bank_db.
Proof.
  split; [vm_compute; reflexivity|].
  split; [vm_compute; reflexivity|].
  split; [vm_compute; tauto|].
  vm_compute; reflexivity.
Qed.

(** C6 fails as stated.  A bank the admin verified before it uploaded a
    certificate is in [VERIFICATION_PENDING] with [is_verified] set; verifying
    it again is refused with status 400: the state stays
    [VERIFICATION_PENDING] and [verified_by] is not overwritten. *)
Lemma verify_bank_counterexample :
  let out := run_request false (verify_bank root_admin "b1" "admin-2" 9)
               verified_early_db in
  b_state <$> banks verified_early_db !! "b1" = Some BankState.VERIFICATION_PENDING ∧
  out.1 = inl (HTTPException 400 "Bank is already verified") ∧
  b_state <$> banks out.2 !! "b1" = Some BankState.VERIFICATION_PENDING ∧
  (banks out.2 !! "b1") ≫= b_verified_by = Some "admin-1".
Proof.
  split; [vm_compute; reflexivity|].
  split; [vm_compute; reflexivity|].
  split; vm_compute; reflexivity.
Qed.

Lemma verify_bank_flags_and_state_witness :
  let db := serve_all false db0
              [ POST_auth_bank_register "bank@example.com" "hash" "Bank One" "b1";
                POST_bank_certification_upload (token "b1" "bank") (inr "cert.pdf") ] in
  let out := run_request false (verify_bank root_admin "b1" "admin-1" 5) db in
  out.1 = inr "b1" ∧
  bank_state_history out.2 = bank_state_history db ∧
  ∃ b',
    banks out.2 !! "b1" = Some b' ∧
    b_is_verified b' = true ∧
    b_verified_at b' = Some 5 ∧
    b_verified_by b' = Some "admin-1" ∧
    b_state b' = BankState.VERIFIED.
Proof.
  intros db.
  apply (verify_bank_flags_and_state false db root_admin "b1" "admin-1" 5
           (mkBank "b1" "bank@example.com" "hash" "Bank One"
              BankState.VERIFICATION_PENDING (Some ["cert.pdf"]) false None None
              false None None None None)).
  vm_compute. reflexivity.
Defined.

(** C7 fails as stated.  Bank ["b1"] uploading a test report for a donor
    of bank ["b2"] gets 404, the answer for a donor that does not exist, not
    403. *)
Lemma foreign_donor_counterexample :
  run_request false
    (upload_test_report "b1" "d1" "blood" "CBC" (inr "report.pdf") "r1")
    db_foreign_donor
  = (inl (HTTPException 404 "Donor not found"), db_foreign_donor)
  ∧ run_request false
      (make_eligibility_decision "b1" "d1" EligibilityStatus.APPROVED None 9)
      (one_donor_db (donor1 DonorState.TESTS_PENDING "b2") [])
    = (inl (HTTPException 404 "Donor not found"),
       one_donor_db (donor1 DonorState.TESTS_PENDING "b2") [])
  ∧ HTTP_404_NOT_FOUND ≠ HTTP_403_FORBIDDEN.
Proof.
  split; [vm_compute; reflexivity|].
  split; [vm_compute; reflexivity|].
  discriminate.
Qed.

Lemma foreign_donor_is_rejected_witness :
  run_request false (verify_consent "b1" "c1" ConsentStatus.VERIFIED None 9)
    (one_donor_db (donor1 DonorState.CONSENT_PENDING "b2")
       [consent "c1" "t1" ConsentStatus.SIGNED])
  = (inl (HTTPException 403 "Not authorized to verify this consent"),
     one_donor_db (donor1 DonorState.CONSENT_PENDING "b2")
       [consent "c1" "t1" ConsentStatus.SIGNED])
  ∧ run_request false
      (upload_test_report "b1" "d1" "blood" "CBC" (inr "report.pdf") "r1")
      (one_donor_db (donor1 DonorState.CONSENT_PENDING "b2")
         [consent "c1" "t1" ConsentStatus.SIGNED])
    = (inl (HTTPException 404 "Donor not found"),
       one_donor_db (donor1 DonorState.CONSENT_PENDING "b2")
         [consent "c1" "t1" ConsentStatus.SIGNED]).
Proof.
  destruct (foreign_donor_is_rejected false
              (one_donor_db (donor1 DonorState.CONSENT_PENDING "b2")
                 [consent "c1" "t1" ConsentStatus.SIGNED])
              "b1" "d1" (donor1 DonorState.CONSENT_PENDING "b2"))
    as (Hv & Hu & _).
  - by apply one_donor_db_keys_ok.
  - reflexivity.
  - discriminate.
  - split.
    + apply (Hv "c1" (consent "c1" "t1" ConsentStatus.SIGNED)); reflexivity.
    + apply Hu.
Defined.

(** C9 fails as stated.  When the fourth verification fires the advance,
    the row written for it names the bank, with role ["bank"]. *)
Lemma system_actor_counterexample :
  let out := run_request true
               (verify_consent "b1" "c4" ConsentStatus.VERIFIED None 9)
               db_three_verified in
  d_state <$> donors out.2 !! "d1" = Some DonorState.CONSENT_VERIFIED ∧
  last (donor_state_history out.2)
    = Some (mkDonorStateHistory "d1" (Some DonorState.CONSENT_PENDING)
              DonorState.CONSENT_VERIFIED "b1" "bank"
              (Some "All consents verified by bank")) ∧
  ¬ ∃ h, last (donor_state_history out.2) = Some h
         ∧ dh_changed_by_role h = "system".
Proof.
  split; [vm_compute; reflexivity|].
  split; [vm_compute; reflexivity|].
  intros (h & Hl & Hr). vm_compute in Hl. by simplify_eq.
Qed.

Lemma verify_consent_advance_attributed_to_bank_witness :
  donor_state_history
    (run_request true (verify_consent "b1" "c4" ConsentStatus.VERIFIED None 9)
       db_three_verified).2
  = [mkDonorStateHistory "d1" (Some DonorState.CONSENT_PENDING)
       DonorState.CONSENT_VERIFIED "b1" "bank"
       (Some "All consents verified by bank")].
Proof.
  apply (verify_consent_advance_attributed_to_bank true db_three_verified "b1" "c4"
           ConsentStatus.VERIFIED None 9 (consent "c4" "t4" ConsentStatus.SIGNED)
           (donor1 DonorState.CONSENT_PENDING "b1")
           (donor1 DonorState.CONSENT_VERIFIED "b1")).
  - by apply one_donor_db_keys_ok.
  - reflexivity.
  - reflexivity.
  - reflexivity.
  - reflexivity.
  - vm_compute. reflexivity.
  - reflexivity.
Defined.

(** * The writes of a request *)

Lemma writes_eta r db db' :
  rtc (write r) (mkDb (banks db) (donors db) (admins db) (consent_templates db)
                   (donor_consents db) (counseling_sessions db) (test_reports db)
                   (donor_state_history db) (bank_state_history db) (activity_logs db))
    (mkDb (banks db') (donors db') (admins db') (consent_templates db')
       (donor_consents db') (counseling_sessions db') (test_reports db')
       (donor_state_history db') (bank_state_history db') (activity_logs db')) ->
  rtc (write r) db db'.
Proof. by destruct db, db'. Qed.

(** What the guards of a handler have established, in a form the side
    conditions of the writes can use. *)
Ltac guard_facts :=
  repeat match goal with
    | H : decide _ = _ |- _ => clear H
    end;
  repeat match goal with
    | H : _ ∧ _ |- _ => destruct H
    | H : head (filter _ _) = Some _ |- _ =>
        apply head_filter_Some in H as [? ?]; cbn beta in *
    | H : negb _ = false |- _ => apply negb_false_iff in H
    | H : negb _ = true |- _ => apply negb_true_iff in H
    | H : _ || _ = false |- _ => apply orb_false_iff in H as [? ?]
    | H : ¬ (_ ∉ _) |- _ => apply dec_stable in H
    | H : ¬ (_ ≠ _) |- _ => apply dec_stable in H
    | H : bool_decide _ = false |- _ => apply bool_decide_eq_false_1 in H
    | H : BankState.value _ = "verification_pending" |- _ =>
        apply value_verification_pending in H
    | H : BankState.value _ ≠ "verification_pending" |- _ =>
        rewrite value_verification_pending in H
    | H : BankState.value _ ∈ _ |- _ =>
        apply value_verified_or_subscription_pending in H
    end.

Ltac write_side :=
  cbn; rewrite ?lookup_insert_eq;
  first
    [ done
    | eassumption
    | by apply can_transition_donor_state_spec
    | by apply can_transition_bank_state_spec
    | by eauto
    | (unfold order_in_range in *; cbn; lia)
    | (intros; congruence)
    | (intros ->%value_verification_pending; done)
    | (split; write_side)
    | (left; write_side)
    | (right; write_side)
    | by eexists [], _
    | by eexists _, _
    | (eexists; write_side)
    | (intro; write_side) ].

Ltac last_write :=
  first
    [ eapply W_request_counseling
    | eapply W_donor_transition
    | eapply W_bank_transition
    | eapply W_admin_verification_state
    | eapply W_admin_subscription_state
    | eapply W_admin_verification
    | eapply W_bank_subscription
    | eapply W_bank_documents
    | eapply W_bank_counseling_config
    | eapply W_add_bank
    | eapply W_add_admin
    | eapply W_log
    | eapply W_add_template
    | eapply W_edit_template
    | eapply W_add_donor
    | eapply W_donor_password
    | eapply W_donor_documents
    | eapply W_donor_eligibility
    | eapply W_add_consent
    | eapply W_verify_consent
    | eapply W_add_report ].

Ltac solve_writes_from :=
  first
    [ apply rtc_refl
    | eapply rtc_r; [|last_write; write_side]; solve_writes_from ].

Ltac solve_writes :=
  intros;
  first [ apply rtc_refl
        | apply writes_eta; guard_facts; db_simpl; solve_writes_from ].

Lemma serve_writes (af : bool) (db : Db) (r : Request) :
  keys_ok db ->
  (∀ e, response af db r = inl e -> serve af db r = db) ∧
  writes r db (serve af db r).
Proof.
  intros Hk. unfold serve, response, writes.
  destruct r; wp_start; cbn [handle].
  all: destruct af; wp_handler; resolve_first_where Hk.
  all: (split; [intros; done|solve_writes]).
Qed.

(** ** What a write preserves *)

Ltac split_hyps :=
  repeat match goal with
    | H : _ ∨ _ |- _ => destruct H
    | H : _ ∧ _ |- _ => destruct H
    | H : ∃ _, _ |- _ => destruct H
    end.

Ltac case_key :=
  repeat match goal with
    | |- context [<[?i := _]> _ !! ?j] =>
        let e := fresh "e" in
        destruct (decide (i = j)) as [e|];
        [rewrite e in *; rewrite lookup_insert_eq
        |rewrite lookup_insert_ne by done]
    end; simplify_eq.

Ltac use_ranks :=
  repeat match goal with
    | H : (?a ≤ ?b)%nat -> _ |- _ =>
        first [ specialize (H ltac:(cbn; lia)) | clear H ]
    end.

Lemma write_keys_ok r db db' : write r db db' -> keys_ok db -> keys_ok db'.
Proof.
  intros Hw [Hd Hb]. destruct Hw; cbn in *; split; cbn; try done.
  all: intros k' y Hx; repeat (apply lookup_insert_Some in Hx as [[<- <-]|[? Hx]]);
    cbn; eauto.
Qed.

Lemma bank_row_step_refl admin b : bank_row_step admin b b.
Proof.
  unfold bank_row_step. split_and!; try done. exists []. by rewrite app_nil_r.
Qed.

Lemma bank_row_step_trans admin b1 b2 b3 :
  bank_row_step admin b1 b2 -> bank_row_step admin b2 b3 -> bank_row_step admin b1 b3.
Proof.
  unfold bank_row_step.
  intros (?&?&?&?&Hv&Hs&Ha&Hp&[m1 Hm1]) (?&?&?&?&Hv'&Hs'&Ha'&Hp'&[m2 Hm2]).
  split_and!; try congruence; try lia.
  - intros Hb. destruct (Hv Hb) as (Hx&?&?). destruct (Hv' Hx) as (?&?&?).
    split_and!; congruence.
  - eauto.
  - intros Hb. destruct (Ha Hb) as (?&?&?). destruct (Ha' Hb) as (?&?&?).
    split_and!; congruence.
  - intros Hb Hb'. apply Hp'; [by apply Hp|]. by destruct (Hv Hb') as (?&?&?).
  - exists (m1 ++ m2)%list. by rewrite Hm2, Hm1, app_assoc.
Qed.

Lemma bank_row_step_weaken admin admin' b b' :
  bank_row_step admin b b' -> bank_row_step (admin || admin') b b'.
Proof.
  unfold bank_row_step. intros (?&?&?&?&?&?&Ha&?&?).
  split_and!; try done; intros [-> _]%orb_false_iff; by apply Ha.
Qed.

Lemma bank_row_step_weaken_r admin admin' b b' :
  bank_row_step admin' b b' -> bank_row_step (admin || admin') b b'.
Proof. rewrite orb_comm. apply bank_row_step_weaken. Qed.

Lemma write_bank_rows r db db' k b :
  write r db db' -> banks db !! k = Some b ->
  ∃ b', banks db' !! k = Some b' ∧ bank_row_step (is_admin_request r) b b'.
Proof.
  intros Hw Hb. destruct Hw; cbn in *;
    try (exists b; split; [done|apply bank_row_step_refl]).
  all: case_key.
  all: try (eexists; split; [done|apply bank_row_step_refl]).
  all: try congruence.
  all: eexists; (split; [done|]); unfold bank_row_step, bank_sound; cbn.
  all: split_and!; intros; cbn in *; split_hyps; subst; use_ranks; split_hyps;
    try done; try congruence.
  all: try (by exists []; rewrite app_nil_r).
  all: try (by eexists).
  all: try (by eauto).
  all: try (match goal with H : b_certification_documents _ = None |- _ =>
              rewrite H; by eexists end).
  all: try (match goal with H : b_state ?b = _ |- _ => rewrite H in *; cbn in *;
              first [lia | done | decompose_list_elem_of; congruence] end).
  all: try (destruct (b_state b0) eqn:E; cbn in *; decompose_list_elem_of; subst;
            cbn in *; use_ranks; first [done | lia | congruence | by eauto]).
Qed.

Lemma write_new_bank r db db' k b' :
  write r db db' -> banks db !! k = None -> banks db' !! k = Some b' ->
  b_id b' = k ∧ b_state b' = BankState.ACCOUNT_CREATED ∧
  b_is_verified b' = false ∧ b_is_subscribed b' = false ∧
  b_certification_documents b' = None ∧
  (∀ k0 b0, banks db !! k0 = Some b0 -> b_email b0 ≠ b_email b') ∧
  (∀ k2 b2, banks db !! k2 = None -> banks db' !! k2 = Some b2 -> k2 = k).
Proof.
  intros Hw Hn Hb. destruct Hw; cbn in *; try congruence.
  all: repeat (apply lookup_insert_Some in Hb as [[<- <-]|[? Hb]]); try congruence.
  split_and!; try done.
  - intros key b0 Hkey.
    match goal with H : first_where _ _ = None |- _ =>
      exact (first_where_None _ _ _ _ H Hkey) end.
  - intros k2 b2 ? [[<- <-]|[? ?]]%lookup_insert_Some; congruence.
Qed.

Lemma write_bank_origin r db db' k b' :
  write r db db' -> banks db' !! k = Some b' ->
  (∃ b, banks db !! k = Some b ∧ bank_row_step (is_admin_request r) b b')
  ∨ banks db !! k = None.
Proof.
  intros Hw Hb'. destruct (banks db !! k) as [b|] eqn:Hb; [left|by right].
  destruct (write_bank_rows _ _ _ _ _ Hw Hb) as (b'' & ? & ?).
  exists b. split; [done|]. congruence.
Qed.

Lemma documents_snoc (docs : option (list string)) :
  is_Some docs -> docs ≠ Some [] -> ∃ l url, docs = Some (l ++ [url])%list.
Proof.
  intros [l ->] Hne. destruct l as [|x l _] using rev_ind; [done|]. by exists l, x.
Qed.

Lemma write_bank_sound r db db' :
  write r db db' ->
  (∀ k b, banks db !! k = Some b -> bank_sound b) ->
  ∀ k b, banks db' !! k = Some b -> bank_sound b.
Proof.
  intros Hw HI. destruct Hw; cbn in *; try done.
  all: intros k' y Hx; repeat (apply lookup_insert_Some in Hx as [[<- <-]|[? Hx]]); eauto.
  all: repeat match goal with
         | Hb : _ !! _ = Some ?b |- _ =>
             lazymatch goal with
             | _ : bank_sound b |- _ => fail
             | _ => pose proof (HI _ _ Hb : bank_sound b)
             end
         end; unfold bank_sound in *; cbn in *; split_hyps.
  all: try (destruct (b_state b) eqn:E; cbn in *; decompose_list_elem_of; subst; cbn in *).
  all: use_ranks; split_hyps; simplify_eq.
  all: split_and!;
    first [done | lia | by eauto | (intros; lia) | congruence
          | (intros; apply documents_snoc; by eauto) | (intros; eauto)].
Qed.

Lemma donor_row_step_refl d : donor_row_step d d.
Proof. unfold donor_row_step. by split_and!. Qed.

Lemma donor_row_step_trans d1 d2 d3 :
  donor_row_step d1 d2 -> donor_row_step d2 d3 -> donor_row_step d1 d3.
Proof.
  unfold donor_row_step.
  intros (?&?&?&?&?&Hp&He) (?&?&?&?&?&Hp'&He').
  split_and!; try congruence; try lia.
  - intros Hr. destruct (Hp Hr) as [? ?]. destruct Hp' as [? ?]; [lia|].
    split; congruence.
  - intros Hr. destruct (He Hr) as (?&?&?). destruct He' as (?&?&?); [lia|].
    split_and!; congruence.
Qed.

Lemma write_donor_rows r db db' k d :
  write r db db' -> donors db !! k = Some d ->
  ∃ d', donors db' !! k = Some d' ∧ donor_row_step d d'.
Proof.
  intros Hw Hd. destruct Hw; cbn in *;
    try (exists d; split; [done|apply donor_row_step_refl]).
  all: case_key.
  all: try (eexists; split; [done|apply donor_row_step_refl]).
  all: try congruence.
  all: eexists; (split; [done|]); unfold donor_row_step; cbn.
  all: split_and!; intros; cbn in *; split_hyps; subst; try done; try congruence.
  all: try (match goal with H : _ ∈ DONOR_STATE_TRANSITIONS _ |- _ =>
              apply donor_edge_rank in H; cbn in H; lia end).
  all: try (match goal with H : d_state ?b = _ |- _ => rewrite H in *; cbn in *;
              first [lia | decompose_list_elem_of; congruence] end).
Qed.

Lemma write_new_donor r db db' k d' :
  write r db db' -> donors db !! k = None -> donors db' !! k = Some d' ->
  d_id d' = k ∧ d_state d' = DonorState.BANK_SELECTED ∧
  d_hashed_password d' = None ∧
  d_eligibility_status d' = EligibilityStatus.PENDING ∧
  (∀ k0 d0, donors db !! k0 = Some d0 -> d_email d0 ≠ d_email d') ∧
  (∀ k2 d2, donors db !! k2 = None -> donors db' !! k2 = Some d2 -> k2 = k) ∧
  ∃ kb bank, d_bank_id d' = Some (b_id bank) ∧ banks db' !! kb = Some bank ∧
             b_is_verified bank = true ∧ b_is_subscribed bank = true.
Proof.
  intros Hw Hn Hd. destruct Hw; cbn in *; try congruence.
  all: repeat (apply lookup_insert_Some in Hd as [[<- <-]|[? Hd]]); try congruence.
  split_and!; try done; [| |by eauto 10].
  - intros key d0 Hkey.
    match goal with H : first_where _ _ = None |- _ =>
      exact (first_where_None _ _ _ _ H Hkey) end.
  - intros k2 d2 ? [[<- <-]|[? ?]]%lookup_insert_Some; congruence.
Qed.

Lemma write_donor_origin r db db' k d' :
  write r db db' -> donors db' !! k = Some d' ->
  (∃ d, donors db !! k = Some d ∧ donor_row_step d d')
  ∨ donors db !! k = None.
Proof.
  intros Hw Hd'. destruct (donors db !! k) as [d|] eqn:Hd; [left|by right].
  destruct (write_donor_rows _ _ _ _ _ Hw Hd) as (d'' & ? & ?).
  exists d. split; [done|]. congruence.
Qed.

Lemma write_donor_sound r db db' :
  write r db db' ->
  (∀ k d, donors db !! k = Some d -> donor_sound d) ->
  ∀ k d, donors db' !! k = Some d -> donor_sound d.
Proof.
  intros Hw HI. destruct Hw; cbn in *; try done.
  all: intros k' y Hx; repeat (apply lookup_insert_Some in Hx as [[<- <-]|[? Hx]]); eauto.
  all: repeat match goal with
         | Hb : _ !! _ = Some ?b |- _ =>
             lazymatch goal with
             | _ : donor_sound b |- _ => fail
             | _ => pose proof (HI _ _ Hb : donor_sound b)
             end
         end; unfold donor_sound in *; cbn in *; split_hyps.
  all: try (destruct (d_state d) eqn:E; cbn in *; decompose_list_elem_of; subst; cbn in *).
  all: use_ranks; split_hyps; simplify_eq.
  all: split_and!; first [done | lia | by eauto | (intros; lia) | congruence| (intros; eauto)].
Qed.

Lemma writes_keys_ok r db db' : writes r db db' -> keys_ok db -> keys_ok db'.
Proof. induction 1; eauto using write_keys_ok. Qed.

Section Invariant.
Variable I : Db -> Prop.
Hypothesis step : ∀ r db db', write r db db' -> keys_ok db -> I db -> I db'.

Lemma writes_invariant r db db' : writes r db db' -> keys_ok db -> I db -> I db'.
Proof. induction 1; eauto using write_keys_ok. Qed.

Lemma serve_invariant af db r : keys_ok db -> I db -> I (serve af db r).
Proof.
  intros Hk HI. eapply writes_invariant; [|done|done].
  by apply serve_writes.
Qed.

Lemma serve_all_invariant af db rs : keys_ok db -> I db -> I (serve_all af db rs).
Proof.
  revert db. induction rs as [|r rs IH]; intros db Hk HI; [done|].
  apply IH; [by apply serve_keys_ok|by apply serve_invariant].
Qed.
End Invariant.

Lemma write_emails_unique r db db' :
  write r db db' -> keys_ok db -> emails_unique db -> emails_unique db'.
Proof.
  intros Hw _ [Hb Hd]. split.
  - intros k1 k2 b1 b2 H1 H2 He.
    destruct (write_bank_origin _ _ _ _ _ Hw H1) as [(x1 & Hx1 & S1)|N1],
             (write_bank_origin _ _ _ _ _ Hw H2) as [(x2 & Hx2 & S2)|N2].
    + apply (Hb _ _ _ _ Hx1 Hx2). destruct S1 as (_&E1&_), S2 as (_&E2&_). congruence.
    + destruct (write_new_bank _ _ _ _ _ Hw N2 H2) as (_&_&_&_&_&Hf&_).
      destruct S1 as (_&E1&_). exfalso. apply (Hf _ _ Hx1). congruence.
    + destruct (write_new_bank _ _ _ _ _ Hw N1 H1) as (_&_&_&_&_&Hf&_).
      destruct S2 as (_&E2&_). exfalso. apply (Hf _ _ Hx2). congruence.
    + destruct (write_new_bank _ _ _ _ _ Hw N1 H1) as (_&_&_&_&_&_&Hu).
      symmetry. by eapply Hu.
  - intros k1 k2 d1 d2 H1 H2 He.
    destruct (write_donor_origin _ _ _ _ _ Hw H1) as [(x1 & Hx1 & S1)|N1],
             (write_donor_origin _ _ _ _ _ Hw H2) as [(x2 & Hx2 & S2)|N2].
    + apply (Hd _ _ _ _ Hx1 Hx2). destruct S1 as (_&E1&_), S2 as (_&E2&_). congruence.
    + destruct (write_new_donor _ _ _ _ _ Hw N2 H2) as (_&_&_&_&Hf&_).
      destruct S1 as (_&E1&_). exfalso. apply (Hf _ _ Hx1). congruence.
    + destruct (write_new_donor _ _ _ _ _ Hw N1 H1) as (_&_&_&_&Hf&_).
      destruct S2 as (_&E2&_). exfalso. apply (Hf _ _ Hx2). congruence.
    + destruct (write_new_donor _ _ _ _ _ Hw N1 H1) as (_&_&_&_&_&Hu&_).
      symmetry. by eapply Hu.
Qed.

Lemma write_banks_sound r db db' :
  write r db db' -> keys_ok db -> banks_sound db -> banks_sound db'.
Proof. intros Hw _ HI. exact (write_bank_sound _ _ _ Hw HI). Qed.

Lemma write_donors_sound r db db' :
  write r db db' -> keys_ok db -> donors_sound db -> donors_sound db'.
Proof.
  intros Hw Hk HI k d' Hd'.
  pose proof (write_keys_ok _ _ _ Hw Hk) as [_ Hkb'].
  split.
  { eapply (write_donor_sound _ _ _ Hw); [|done]. intros k0 d0 H0. by apply (HI _ _ H0). }
  destruct (write_donor_origin _ _ _ _ _ Hw Hd') as [(d & Hd & S)|N].
  - destruct (HI _ _ Hd) as (_ & bank & Hbid & Hbank & Hv & Hs).
    destruct (write_bank_rows _ _ _ _ _ Hw Hbank) as (bank' & Hbank' & Sb).
    destruct Sb as (Eid&_&_&_&Hv'&Hs'&_).
    exists bank'. destruct S as (_&_&->&_). rewrite Eid.
    split_and!; [done|done|by apply Hv'|by apply Hs'].
  - destruct (write_new_donor _ _ _ _ _ Hw N Hd') as (_&_&_&_&_&_&kb&bank&?&Hb&?&?).
    exists bank. pose proof (Hkb' _ _ Hb) as Hid. rewrite Hid. split_and!; congruence.
Qed.

Lemma filter_nil_length {A} (P : A -> Prop) `{!∀ x, Decision (P x)} (l : list A) :
  (∀ x, x ∈ l -> ¬ P x) -> length (filter P l) = 0%nat.
Proof.
  intros Hl. induction l as [|x l IH]; [done|].
  rewrite filter_cons. rewrite decide_False by (apply Hl; apply list_elem_of_here).
  apply IH. intros y Hy. apply Hl. by apply list_elem_of_further.
Qed.

Ltac refers_to_donor Hx :=
  let x := fresh "x" in let Hin := fresh "Hin" in
  let d0 := fresh "d0" in let Hd0 := fresh "Hd0" in
  intros x Hin; destruct (Hx x Hin) as (d0 & Hd0 & ?);
  match goal with
  | |- context [<[?i := _]> _ !! ?j] =>
      destruct (decide (i = j)) as [e|];
      [rewrite e in *; rewrite lookup_insert_eq; simplify_eq;
       try (eexists; split; [done|]; cbn; split_and?; first [done|congruence])
      |rewrite lookup_insert_ne by done; eauto]
  end.

Ltac same_threshold :=
  match goal with
  | |- context [d_state ?d] =>
      destruct (d_state d) eqn:?; cbn in *; decompose_list_elem_of; subst;
      first [done | congruence]
  end.

Lemma write_sessions_sound r db db' :
  write r db db' -> keys_ok db -> sessions_sound db -> sessions_sound db'.
Proof.
  intros Hw [Hkd _] (Hn & Hx & Hc).
  destruct Hw; cbn in *; try (by split_and!).
  all: split_and!; cbn; try done.
  all: try (by refers_to_donor Hx).
  all: try (intros k' y [[<- <-]|[? Hy]]%lookup_insert_Some; [|by apply Hc];
            try (match goal with Hd : _ !! _ = Some ?d |- _ =>
                   rewrite (Hc _ _ Hd); cbn; try done; same_threshold end)).
  - (* a new donor has no session *)
    match goal with H : d_state _ = DonorState.BANK_SELECTED |- _ => rewrite H end.
    cbn. apply filter_nil_length. intros x0 Hin Heq.
    destruct (Hx _ Hin) as (d0 & Hd0 & _). congruence.
  - rewrite fmap_app. apply NoDup_app. split_and!; [done| |apply NoDup_singleton].
    intros y Hy ->%list_elem_of_singleton. done.
  - assert (Hid : d_id d = id) by eauto.
    intros x0 [Hin| ->%list_elem_of_singleton]%elem_of_app.
    + revert x0 Hin. refers_to_donor Hx.
    + match goal with H : s_donor_id x = _ |- _ => rewrite H end.
      rewrite Hid, lookup_insert_eq. eexists. split; [done|]. done.
  - assert (Hid : d_id d = id) by eauto.
    intros k' y Hy. rewrite filter_app, length_app, filter_cons, filter_nil.
    apply lookup_insert_Some in Hy as [[<- <-]|[? Hy]].
    + match goal with Hd : _ !! _ = Some d |- _ => rewrite (Hc _ _ Hd) end.
      rewrite decide_True by congruence.
      match goal with H : d_state d = _ |- _ => rewrite H end. done.
    + rewrite (Hc _ _ Hy). rewrite decide_False by congruence.
      cbn. lia.
Qed.

Lemma NoDup_fmap_inj_on {A B} (f : A -> B) (l : list A) x y :
  NoDup (f <$> l) -> x ∈ l -> y ∈ l -> f x = f y -> x = y.
Proof.
  intros Hn Hx Hy Hf.
  apply list_elem_of_lookup in Hx as [i Hi]. apply list_elem_of_lookup in Hy as [j Hj].
  assert (i = j).
  { eapply NoDup_lookup; [exact Hn| |].
    - rewrite list_lookup_fmap, Hi. reflexivity.
    - rewrite list_lookup_fmap, Hj. cbn. by rewrite Hf. }
  congruence.
Qed.

(** A consent stays sound when the rows it refers to are only updated in
    place. *)
Lemma consent_sound_mono db db' c :
  (∀ k d, donors db !! k = Some d ->
     ∃ d', donors db' !! k = Some d' ∧ d_bank_id d' = d_bank_id d) ->
  (∀ t, t ∈ consent_templates db ->
     ∃ t', t' ∈ consent_templates db' ∧ t_id t' = t_id t ∧ t_bank_id t' = t_bank_id t) ->
  consent_sound db c -> consent_sound db' c.
Proof.
  intros Hd Ht (d & t & Hld & Hin & Hid & Hb & Hv & Hs).
  destruct (Hd _ _ Hld) as (d' & Hd' & Eb). destruct (Ht _ Hin) as (t' & Hin' & Ei & Et).
  exists d', t'. split_and!; try done; try congruence.
  intros bank Hbank. rewrite Eb. by apply Hv.
Qed.

Lemma write_donor_bank r db db' k d :
  write r db db' -> donors db !! k = Some d ->
  ∃ d', donors db' !! k = Some d' ∧ d_bank_id d' = d_bank_id d.
Proof.
  intros Hw Hd. destruct (write_donor_rows _ _ _ _ _ Hw Hd) as (d' & ? & S).
  exists d'. split; [done|]. by destruct S as (_&_&?&_).
Qed.

Lemma write_template_rows r db db' t :
  write r db db' -> t ∈ consent_templates db ->
  ∃ t', t' ∈ consent_templates db' ∧ t_id t' = t_id t ∧ t_bank_id t' = t_bank_id t
        ∧ (order_in_range (t_order t) -> order_in_range (t_order t')).
Proof.
  intros Hw Ht. destruct Hw; cbn in *; try (by exists t).
  - exists t. split; [|done]. apply elem_of_app. by left.
  - exists (if decide (t_id t = id) then f t else t). split.
    + apply list_elem_of_fmap. by exists t.
    + destruct (decide (t_id t = id)); [|done].
      match goal with H : ∀ t, t_id (f t) = _ ∧ _ |- _ => destruct (H t) as (?&?&?) end. done.
Qed.

Lemma write_consents_sound r db db' :
  write r db db' -> keys_ok db -> consents_sound db -> consents_sound db'.
Proof.
  intros Hw Hk (Hn & Hc & Hu).
  assert (Hmono : ∀ c, consent_sound db c -> consent_sound db' c).
  { intros c. apply consent_sound_mono.
    - intros k d Hd. by eapply write_donor_bank.
    - intros t Ht. destruct (write_template_rows _ _ _ _ Hw Ht) as (t' & ? & ? & ? & _).
      by exists t'. }
  destruct Hk as [Hkd _].
  destruct Hw; cbn in *; try (split_and!; [done|by eauto|done]).
  all: unfold consents_sound; cbn [donor_consents].
  - (* sign_consent *)
    split_and!.
    + rewrite fmap_app. apply NoDup_app. split_and!; [done| |apply NoDup_singleton].
      intros y Hy ->%list_elem_of_singleton. done.
    + intros c0 [Hin| ->%list_elem_of_singleton]%elem_of_app; [by eauto|].
      assert (d_id d = k) by eauto. subst k.
      exists d, t. cbn. split_and!; try done; try congruence.
    + intros i j c1 c2 Hi Hj E1 E2.
      assert (Hnew : ∀ n x, cs !! n = Some x ->
                ¬ (c_donor_id x = c_donor_id c ∧ c_template_id x = c_template_id c)).
      { intros n x Hn'.
        apply (head_filter_None
                 (fun x => c_donor_id x = c_donor_id c ∧ c_template_id x = c_template_id c)
                 cs x); [done|].
        by eapply list_elem_of_lookup_2. }
      apply lookup_app_Some in Hi as [Hi|[Hli Hi]], Hj as [Hj|[Hlj Hj]].
      * by eapply Hu.
      * apply list_lookup_singleton_Some in Hj as [? <-].
        exfalso. apply (Hnew _ _ Hi). split; congruence.
      * apply list_lookup_singleton_Some in Hi as [? <-].
        exfalso. apply (Hnew _ _ Hj). split; congruence.
      * apply list_lookup_singleton_Some in Hi as [? _].
        apply list_lookup_singleton_Some in Hj as [? _]. lia.
  - (* verify_consent *)
    assert (d_id d = k) by eauto. subst k.
    split_and!.
    + rewrite <- list_fmap_compose.
      erewrite list_fmap_ext; [exact Hn|]. intros i x _. cbn. by destruct (decide _).
    + intros c' (c0 & -> & Hin)%list_elem_of_fmap.
      destruct (decide (c_id c0 = c_id target)) as [e|]; [|by eauto].
      assert (c0 = target) by (by eapply (NoDup_fmap_inj_on c_id)). subst c0.
      destruct (Hc _ Hin) as (d0 & t0 & Hd0 & ? & ? & ? & ? & ?). cbn in *.
      assert (d0 = d) by congruence. subst d0.
      exists d, t0. cbn. split_and!; try done; try congruence; try (intros _; by eexists).
    + intros i j c1 c2. rewrite !list_lookup_fmap.
      intros (x1 & Hx1 & ->)%fmap_Some (x2 & Hx2 & ->)%fmap_Some E1 E2.
      apply (Hu _ _ _ _ Hx1 Hx2).
      * revert E1. by repeat destruct (decide _).
      * revert E2. by repeat destruct (decide _).
Qed.

Lemma write_bank_exists r db db' :
  write r db db' -> ∀ k, is_Some (banks db !! k) -> is_Some (banks db' !! k).
Proof.
  intros Hw k [b Hb]. destruct (write_bank_rows _ _ _ _ _ Hw Hb) as (b' & ? & _). by exists b'.
Qed.

Lemma write_templates_sound r db db' :
  write r db db' -> keys_ok db -> templates_sound db -> templates_sound db'.
Proof.
  intros Hw _ (Hn & Ht).
  assert (Hb := write_bank_exists _ _ _ Hw).
  destruct Hw; cbn in *; try (split; [done|]; intros t0 Ht0;
    destruct (Ht _ Ht0); split; [done|by apply Hb]).
  all: unfold templates_sound; cbn [consent_templates banks].
  - split.
    + rewrite fmap_app. apply NoDup_app. split_and!; [done| |apply NoDup_singleton].
      intros y Hy ->%list_elem_of_singleton. done.
    + intros t0 [Hin| ->%list_elem_of_singleton]%elem_of_app; [by apply Ht|done].
  - split.
    + rewrite <- list_fmap_compose.
      erewrite list_fmap_ext; [exact Hn|]. intros i x _. cbn.
      destruct (decide _); [|done].
      match goal with H : ∀ t, t_id (f t) = _ ∧ _ |- _ => by destruct (H x) as (?&?&?) end.
    + intros t' (t0 & -> & Hin)%list_elem_of_fmap. destruct (Ht _ Hin).
      destruct (decide _); [|done].
      match goal with H : ∀ t, t_id (f t) = _ ∧ _ |- _ => destruct (H t0) as (?&E&?) end.
      rewrite E. split; eauto.
Qed.

Lemma write_donor_persist r db db' :
  write r db db' -> ∀ k d, donors db !! k = Some d ->
  ∃ d', donors db' !! k = Some d' ∧ d_bank_id d' = d_bank_id d ∧
        (DonorState.rank (d_state d) ≤ DonorState.rank (d_state d'))%nat.
Proof.
  intros Hw k d Hd. destruct (write_donor_rows _ _ _ _ _ Hw Hd) as (d' & ? & S).
  exists d'. split; [done|]. by destruct S as (_&_&?&_&?&_).
Qed.

Lemma write_reports_sound r db db' :
  write r db db' -> keys_ok db -> reports_sound db -> reports_sound db'.
Proof.
  intros Hw [Hkd _] (Hn & Hx).
  assert (Hp := write_donor_persist _ _ _ Hw).
  assert (Hold : ∀ x, x ∈ test_reports db ->
            ∃ d, donors db' !! r_donor_id x = Some d ∧ d_bank_id d = Some (r_bank_id x) ∧
              (DonorState.rank DonorState.CONSENT_VERIFIED ≤ DonorState.rank (d_state d))%nat).
  { intros x0 Hin. destruct (Hx _ Hin) as (d0 & Hd0 & ? & ?).
    destruct (Hp _ _ Hd0) as (d' & ? & ? & ?). exists d'. split_and!; [done|congruence|lia]. }
  destruct Hw; cbn in *; try (split; [done|exact Hold]).
  unfold reports_sound; cbn [test_reports donors]. split.
  - rewrite fmap_app. apply NoDup_app. split_and!; [done| |apply NoDup_singleton].
    intros y Hy ->%list_elem_of_singleton. done.
  - intros x0 [Hin| ->%list_elem_of_singleton]%elem_of_app; [by apply Hold|].
    assert (d_id d = k) by eauto. subst k.
    exists d. split_and!; [congruence|done|].
    decompose_list_elem_of; match goal with H : d_state d = _ |- _ => rewrite H end; cbn; lia.
Qed.

Lemma write_donor_history_sound r db db' :
  write r db db' -> keys_ok db -> donor_history_sound db -> donor_history_sound db'.
Proof.
  intros Hw [Hkd _] Hh.
  assert (Hp := write_donor_persist _ _ _ Hw).
  assert (Hold : ∀ h, h ∈ donor_state_history db ->
    ∃ d, donors db' !! dh_donor_id h = Some d ∧
         dh_changed_by_role h = transition_role (dh_to_state h) ∧
         (dh_changed_by_role h = "donor" -> dh_changed_by h = dh_donor_id h) ∧
         (dh_changed_by_role h = "bank" -> d_bank_id d = Some (dh_changed_by h))).
  { intros h Hin. destruct (Hh _ Hin) as (d0 & Hd0 & ? & ? & Hb).
    destruct (Hp _ _ Hd0) as (d' & ? & E & ?). exists d'. split_and!; try done.
    intros ?. rewrite E. by apply Hb. }
  unfold donor_history_sound.
  destruct Hw; cbn in *; try done.
  all: assert (d_id d = id) by eauto; subst id.
  all: intros h [Hin| ->%list_elem_of_singleton]%elem_of_app; [by apply Hold|]; cbn.
  all: rewrite lookup_insert_eq; eexists; split; [done|]; cbn.
  - by split_and!.
  - split_hyps; split_and!; try done; congruence.
Qed.

Lemma write_bank_history_sound r db db' :
  write r db db' -> keys_ok db -> bank_history_sound db -> bank_history_sound db'.
Proof.
  intros Hw [_ Hkb] Hh.
  assert (Hb := write_bank_exists _ _ _ Hw).
  assert (Hold : ∀ h, h ∈ bank_state_history db ->
    bh_changed_by h = bh_bank_id h ∧ bh_to_state h ≠ BankState.VERIFIED ∧
    is_Some (banks db' !! bh_bank_id h)).
  { intros h Hin. destruct (Hh _ Hin) as (? & ? & ?). split_and!; [done|done|by apply Hb]. }
  unfold bank_history_sound.
  destruct Hw; cbn in *; try done.
  assert (b_id b = id) by eauto; subst id.
  intros h [Hin| ->%list_elem_of_singleton]%elem_of_app; [by apply Hold|]; cbn.
  rewrite lookup_insert_eq. split_and!; [done|done|by eexists].
Qed.

Lemma write_admins r db db' :
  write r db db' -> ∀ k a, admins db !! k = Some a -> admins db' !! k = Some a.
Proof.
  intros Hw k a Ha. destruct Hw; cbn in *; try done.
  rewrite lookup_insert_ne; [done|]. congruence.
Qed.

Lemma write_logs_sound r db db' :
  write r db db' -> keys_ok db -> logs_sound db -> logs_sound db'.
Proof.
  intros Hw _ Hl.
  assert (Ha := write_admins _ _ _ Hw).
  assert (Hold : ∀ row, row ∈ activity_logs db ->
    ∃ k a, admins db' !! k = Some a ∧ l_admin_id row = a_id a ∧ a_is_active a = true).
  { intros row Hin. destruct (Hl _ Hin) as (k & a & ? & ? & ?). exists k, a. eauto. }
  unfold logs_sound. destruct Hw; cbn in *; try done.
  intros row0 [Hin| ->%list_elem_of_singleton]%elem_of_app; [by apply Hold|].
  eauto.
Qed.

Lemma bank_rows_step_refl admin db : bank_rows_step admin db db.
Proof. intros k b Hb. exists b. split; [done|apply bank_row_step_refl]. Qed.

Lemma bank_rows_step_trans admin db1 db2 db3 :
  bank_rows_step admin db1 db2 -> bank_rows_step admin db2 db3 ->
  bank_rows_step admin db1 db3.
Proof.
  intros H1 H2 k b Hb. destruct (H1 _ _ Hb) as (b2 & Hb2 & S1).
  destruct (H2 _ _ Hb2) as (b3 & Hb3 & S2). exists b3. split; [done|].
  by eapply bank_row_step_trans.
Qed.

Lemma donor_rows_step_refl db : donor_rows_step db db.
Proof. intros k d Hd. exists d. split; [done|apply donor_row_step_refl]. Qed.

Lemma donor_rows_step_trans db1 db2 db3 :
  donor_rows_step db1 db2 -> donor_rows_step db2 db3 -> donor_rows_step db1 db3.
Proof.
  intros H1 H2 k d Hd. destruct (H1 _ _ Hd) as (d2 & Hd2 & S1).
  destruct (H2 _ _ Hd2) as (d3 & Hd3 & S2). exists d3. split; [done|].
  by eapply donor_row_step_trans.
Qed.

Lemma writes_rows r db db' :
  writes r db db' ->
  bank_rows_step (is_admin_request r) db db' ∧ donor_rows_step db db'.
Proof.
  induction 1 as [db|db1 db2 db3 Hw _ [IHb IHd]].
  - split; [apply bank_rows_step_refl|apply donor_rows_step_refl].
  - split.
    + eapply bank_rows_step_trans; [|exact IHb].
      intros k b Hb. by eapply write_bank_rows.
    + eapply donor_rows_step_trans; [|exact IHd].
      intros k d Hd. by eapply write_donor_rows.
Qed.

Lemma serve_rows af db r :
  keys_ok db ->
  bank_rows_step (is_admin_request r) db (serve af db r)
  ∧ donor_rows_step db (serve af db r).
Proof. intros Hk. apply writes_rows. by apply serve_writes. Qed.

Lemma bank_rows_step_weaken admin admin' db db' :
  bank_rows_step admin db db' -> bank_rows_step (admin || admin') db db'.
Proof.
  intros H k b Hb. destruct (H _ _ Hb) as (b' & ? & ?). exists b'. split; [done|].
  by apply bank_row_step_weaken.
Qed.

Lemma bank_rows_step_weaken_r admin admin' db db' :
  bank_rows_step admin' db db' -> bank_rows_step (admin || admin') db db'.
Proof.
  intros H k b Hb. destruct (H _ _ Hb) as (b' & ? & ?). exists b'. split; [done|].
  by apply bank_row_step_weaken_r.
Qed.

Lemma serve_all_rows af db rs :
  keys_ok db ->
  bank_rows_step (existsb is_admin_request rs) db (serve_all af db rs)
  ∧ donor_rows_step db (serve_all af db rs).
Proof.
  revert db. induction rs as [|r rs IH]; intros db Hk.
  - split; [apply bank_rows_step_refl|apply donor_rows_step_refl].
  - destruct (serve_rows af db r Hk) as [Hb Hd].
    destruct (IH (serve af db r) (serve_keys_ok _ _ _ Hk)) as [Hb' Hd'].
    split.
    + eapply bank_rows_step_trans.
      * apply bank_rows_step_weaken. exact Hb.
      * apply bank_rows_step_weaken_r. exact Hb'.
    + by eapply donor_rows_step_trans.
Qed.

Lemma writes_new_banks_unverified r db db' :
  writes r db db' -> is_admin_request r = false -> new_banks_unverified db db'.
Proof.
  intros Hw Hr. induction Hw as [db|db1 db2 db3 Hw Hws IH].
  - intros k b' ? ?. congruence.
  - intros k b' Hn Hb'.
    destruct (banks db2 !! k) as [b2|] eqn:Hb2; [|by eapply IH].
    destruct (write_new_bank _ _ _ _ _ Hw Hn Hb2) as (_&_&Hv&_).
    destruct (writes_rows _ _ _ Hws) as [Hrows _].
    destruct (Hrows _ _ Hb2) as (b3 & Hb3 & S).
    destruct S as (_&_&_&_&_&_&Ha&_). destruct (Ha Hr) as (E&_). congruence.
Qed.

Lemma serve_all_new_banks_unverified af db rs :
  keys_ok db -> existsb is_admin_request rs = false ->
  new_banks_unverified db (serve_all af db rs).
Proof.
  revert db. induction rs as [|r rs IH]; intros db Hk Hrs.
  - intros k b' ? ?. cbn in *. congruence.
  - cbn in Hrs. apply orb_false_iff in Hrs as [Hr Hrs].
    intros k b' Hn Hb'.
    change (serve_all af db (r :: rs)) with (serve_all af (serve af db r) rs) in Hb'.
    destruct (banks (serve af db r) !! k) as [b1|] eqn:Hb1.
    + assert (Hv : b_is_verified b1 = false).
      { eapply (writes_new_banks_unverified r db); [|done|done|done].
        by apply serve_writes. }
      destruct (serve_all_rows af (serve af db r) rs (serve_keys_ok _ _ _ Hk)) as [Hrows _].
      destruct (Hrows _ _ Hb1) as (b3 & Hb3 & S).
      destruct S as (_&_&_&_&_&_&Ha&_). destruct (Ha Hrs) as (E&_). congruence.
    + eapply (IH (serve af db r)); [by apply serve_keys_ok|done|done|done].
Qed.

(** ** What one request does to a state *)

Lemma request_steps_refl af r db : request_steps af r db db.
Proof.
  split_and!.
  - intros k b ?. exists b. split; [done|by left].
  - intros k d ?. exists d. split; [done|by left].
  - intros; congruence.
  - intros; congruence.
Qed.

Lemma filter_snoc_length_pos {A : Type} (P : A -> Prop) `{!∀ x, Decision (P x)}
    (l : list A) (x : A) :
  P x -> length (filter P (l ++ [x])%list) ≠ 0%nat.
Proof.
  intros HP. rewrite filter_app, length_app, filter_cons, decide_True by done.
  cbn. lia.
Qed.

Ltac andb_facts :=
  repeat match goal with
    | H : _ && _ = true |- _ => apply andb_true_iff in H as [? ?]
    | H : bool_decide _ = true |- _ => apply bool_decide_eq_true_1 in H
    | H : length (filter _ (_ ++ [_])%list) = 0%nat |- _ =>
        exfalso; revert H; by apply filter_snoc_length_pos
    end.

Ltac try_disj :=
  first [ done | (left; try_disj) | (right; try_disj) | (split; [done|try_disj]) ].

Ltac known_states :=
  repeat match goal with
    | H : b_state ?b = _ |- context [b_state ?b] => rewrite H
    | H : d_state ?d = _ |- context [d_state ?d] => rewrite H
    end.

Ltac step_rows :=
  first
    [ congruence
    | (eexists; split; [eassumption|]; try_disj)
    | (eexists; split; [reflexivity|]; cbn; known_states; try_disj) ].

Ltac solve_steps :=
  intros;
  first
    [ apply request_steps_refl
    | (unfold request_steps; guard_facts; db_simpl; cbn [b_id d_id] in *; split_and!;
       [ intros k0 x0 Hx0; case_key; step_rows
       | intros k0 x0 Hx0; case_key; step_rows
       | intros k0 x0 Hn0 Hx0;
         repeat (apply lookup_insert_Some in Hx0 as [[<- <-]|[? Hx0]]);
         first [congruence|done]
       | intros k0 x0 Hn0 Hx0;
         repeat (apply lookup_insert_Some in Hx0 as [[<- <-]|[? Hx0]]);
         first [congruence|done] ]) ].

Lemma serve_steps (af : bool) (db : Db) (r : Request) :
  keys_ok db -> request_steps af r db (serve af db r).
Proof.
  intros Hk. unfold serve.
  destruct r; wp_start; cbn [handle is_admin_request].
  all: destruct af; wp_handler; resolve_first_where Hk.
  all: try solve_steps.
  all: andb_facts; solve_steps.
Qed.

(** * The history of a bank, request by request *)

Lemma not_admin_origin r : is_admin_request r = false -> origin_of r = Engine.
Proof. by destruct r. Qed.

Ltac admin_rows :=
  first
    [ (eexists; split; [eassumption|]; unfold admin_bank_step; try_disj)
    | (eexists; split; [reflexivity|]; unfold admin_bank_step; cbn; known_states;
       try_disj) ].

(** The admin portal writes no history row and touches no donor. *)
Lemma admin_request_run af db r :
  keys_ok db -> is_admin_request r = true ->
  donors (serve af db r) = donors db ∧
  donor_state_history (serve af db r) = donor_state_history db ∧
  bank_state_history (serve af db r) = bank_state_history db ∧
  (∀ k b, banks db !! k = Some b ->
     ∃ b', banks (serve af db r) !! k = Some b'
           ∧ admin_bank_step (origin_of r) (b_state b) (b_state b')) ∧
  (∀ k, banks db !! k = None -> banks (serve af db r) !! k = None).
Proof.
  intros Hk Hr. unfold serve.
  destruct r; try discriminate; wp_start; cbn [handle].
  all: destruct af; wp_handler; resolve_first_where Hk.
  all: intros; guard_facts; db_simpl; cbn [b_id] in *.
  all: split_and!; try done.
  all: try (intros k0 Hx0; case_key; congruence).
  all: intros k0 x0 Hx0; case_key; cbn in *; split_hyps; admin_rows.
Qed.

Lemma update_bank_rows_start o l l' :
  update o l l' -> lc_keys_ok l -> bank_rows_start l -> bank_rows_start l'.
Proof.
  intros Hu [_ Hk] [Href Hnew].
  destruct Hu; split; cbn [lc_banks lc_donors lc_donor_history lc_bank_history] in *;
    try done.
  - intros h Hh. apply lookup_insert_is_Some'. right. by apply Href.
  - intros id b0 [[<- <-]|[? ?]]%lookup_insert_Some Hs; [|by eapply Hnew].
    by rewrite (bank_rows_fresh _ _ bs).
  - intros h Hh. apply lookup_insert_is_Some'. right. by apply Href.
  - intros id0 b0 [[<- <-]|[? ?]]%lookup_insert_Some Hs; [|by eapply Hnew].
    eapply Hnew; [done|]. congruence.
  - intros h [Hh| ->%list_elem_of_singleton]%elem_of_app;
      apply lookup_insert_is_Some'; [right; by apply Href|].
    left. cbn. symmetry. by eapply Hk.
  - intros id0 b0 Hl Hs. rewrite bank_rows_snoc. cbn [bh_bank_id].
    apply lookup_insert_Some in Hl as [[<- <-]|[? Hl]].
    + cbn in Hs. subst new_state.
      match goal with H : _ ∈ BANK_STATE_TRANSITIONS _ |- _ =>
        destruct (b_state b); cbn in H; decompose_list_elem_of; discriminate end.
    + rewrite decide_False, app_nil_r; [by eapply Hnew|].
      erewrite Hk by done. done.
  - intros h Hh. apply lookup_insert_is_Some'. right. by apply Href.
  - intros id0 b0 [[<- <-]|[? ?]]%lookup_insert_Some Hs; [done|by eapply Hnew].
  - intros h Hh. apply lookup_insert_is_Some'. right. by apply Href.
  - intros id0 b0 [[<- <-]|[? ?]]%lookup_insert_Some Hs; [done|by eapply Hnew].
Qed.

Lemma updates_bank_rows_start o l l' :
  updates o l l' -> lc_keys_ok l -> bank_rows_start l -> bank_rows_start l'.
Proof.
  induction 1; [done|]. intros ? ?.
  eauto using update_keys_ok, update_bank_rows_start.
Qed.

Lemma serve_bank_rows_start af db r :
  keys_ok db -> bank_rows_start (lifecycle db) ->
  bank_rows_start (lifecycle (serve af db r)).
Proof.
  intros Hk. apply (updates_bank_rows_start (origin_of r)); [by apply serve_updates|done].
Qed.

(** ** Chains of bank rows *)

Lemma bank_chain_length a rows b :
  bank_chain a rows b -> BankState.rank b = (BankState.rank a + length rows)%nat.
Proof.
  unfold bank_chain. revert a. induction rows as [|h rows IH]; intros a; cbn.
  - intros ->. lia.
  - intros (_ & He & Hc). apply IH in Hc. apply bank_edge_rank in He. lia.
Qed.

Lemma bank_chain_cons a h rows b :
  bank_chain a (h :: rows) b ->
  bh_from_state h = Some a ∧ bh_to_state h ∈ BANK_STATE_TRANSITIONS a
  ∧ bank_chain (bh_to_state h) rows b.
Proof. done. Qed.

Lemma bank_chain_stay a rows : bank_chain a rows a -> rows = [].
Proof.
  intros Hc. apply bank_chain_length in Hc. destruct rows; [done|]. cbn in Hc. lia.
Qed.

Lemma bank_chain_upload rows :
  bank_chain BankState.ACCOUNT_CREATED rows BankState.VERIFICATION_PENDING ->
  bank_moves rows = [(Some BankState.ACCOUNT_CREATED, BankState.VERIFICATION_PENDING)].
Proof.
  intros Hc. pose proof (bank_chain_length _ _ _ Hc) as Hl.
  destruct rows as [|h1 [|h2 rows]]; cbn in Hl; try lia.
  apply bank_chain_cons in Hc as (Hf1 & He1 & _).
  cbn in He1. apply list_elem_of_singleton in He1.
  unfold bank_moves. cbn. by rewrite Hf1, He1.
Qed.

Lemma bank_chain_subscription rows :
  bank_chain BankState.VERIFIED rows BankState.OPERATIONAL ->
  bank_moves rows =
    [(Some BankState.VERIFIED, BankState.SUBSCRIPTION_PENDING);
     (Some BankState.SUBSCRIPTION_PENDING, BankState.SUBSCRIBED_ONBOARDED);
     (Some BankState.SUBSCRIBED_ONBOARDED, BankState.OPERATIONAL)].
Proof.
  intros Hc. pose proof (bank_chain_length _ _ _ Hc) as Hl.
  destruct rows as [|h1 [|h2 [|h3 [|h4 rows]]]]; cbn in Hl; try lia.
  apply bank_chain_cons in Hc as (Hf1 & He1 & Hc).
  cbn in He1. apply list_elem_of_singleton in He1. rewrite He1 in Hc.
  apply bank_chain_cons in Hc as (Hf2 & He2 & Hc).
  cbn in He2. apply list_elem_of_singleton in He2. rewrite He2 in Hc.
  apply bank_chain_cons in Hc as (Hf3 & He3 & _).
  cbn in He3. apply list_elem_of_singleton in He3.
  unfold bank_moves. cbn. by rewrite Hf1, He1, Hf2, He2, Hf3, He3.
Qed.

Lemma bank_moves_app rows1 rows2 :
  bank_moves (rows1 ++ rows2) = (bank_moves rows1 ++ bank_moves rows2)%list.
Proof. apply fmap_app. Qed.

(** ** The history of a bank, request by request *)

Lemma shape_admin_step o rows a c :
  bank_history_shape rows a -> admin_bank_step o a c -> bank_history_shape rows c.
Proof.
  unfold bank_history_shape, admin_bank_step.
  intros [[Hm ->]|[[Hm [-> | [-> | ->]]]|[Hm ->]]]
         [<- | [(_ & ? & ->)|[(_ & ? & ->)|(_ & ? & ->)]]];
    try discriminate; eauto 10.
Qed.

Lemma shape_recorded_step rows delta a c :
  bank_history_shape rows a -> bank_chain a delta c ->
  a = c ∨ (a = BankState.ACCOUNT_CREATED ∧ c = BankState.VERIFICATION_PENDING)
  ∨ (a = BankState.VERIFIED ∧ c = BankState.OPERATIONAL) ->
  bank_history_shape (rows ++ delta) c.
Proof.
  intros Hshape Hc [<- | [[-> ->]|[-> ->]]].
  - apply bank_chain_stay in Hc. subst delta. by rewrite app_nil_r.
  - apply bank_chain_upload in Hc. unfold bank_history_shape in *.
    rewrite bank_moves_app, Hc.
    destruct Hshape as [[Hm _]|[[_ [Hs|[Hs|Hs]]]|[_ Hs]]]; try discriminate.
    rewrite Hm. right. left. cbn. eauto.
  - apply bank_chain_subscription in Hc. unfold bank_history_shape in *.
    rewrite bank_moves_app, Hc.
    destruct Hshape as [[_ Hs]|[[Hm _]|[_ Hs]]]; try discriminate.
    rewrite Hm. right. right. cbn. eauto.
Qed.

Lemma serve_bank_shapes af db r :
  keys_ok db -> bank_rows_start (lifecycle db) -> bank_shapes db ->
  bank_shapes (serve af db r).
Proof.
  intros Hk Hstart Hshape id b' Hb'.
  destruct (banks db !! id) as [b|] eqn:Hb.
  - specialize (Hshape _ _ Hb).
    destruct (is_admin_request r) eqn:Hr.
    + destruct (admin_request_run af db r Hk Hr) as (_ & _ & Hh & Hst & _).
      destruct (Hst _ _ Hb) as (b'' & ? & Hstep). simplify_eq. rewrite Hh.
      by eapply shape_admin_step.
    + pose proof (serve_updates af db r Hk) as Hu.
      rewrite (not_admin_origin r Hr) in Hu.
      destruct (updates_bank_recorded_progress _ _ Hu Hk _ _ Hb)
        as (b'' & delta & Hb'' & Hrows & Hc).
      cbn [lifecycle lc_banks lc_bank_history] in *. simplify_eq.
      destruct (serve_steps af db r Hk) as (Hst & _).
      destruct (Hst _ _ Hb) as (b'' & ? & Hstep). simplify_eq.
      rewrite Hrows. eapply shape_recorded_step; [done|done|].
      destruct Hstep as [He|[[Ha He]|[(? & _)|[(? & _)|(_ & Ha & He)]]]];
        try congruence; eauto.
  - destruct (serve_steps af db r Hk) as (_ & _ & Hnew & _).
    pose proof (Hnew _ _ Hb Hb') as Hs.
    destruct (serve_bank_rows_start af db r Hk Hstart) as [_ Hrows].
    cbn [lifecycle lc_banks lc_bank_history] in Hrows.
    rewrite (Hrows _ _ Hb' Hs). left. by rewrite Hs.
Qed.

Lemma serve_all_bank_shapes af db rs :
  keys_ok db -> bank_rows_start (lifecycle db) -> bank_shapes db ->
  bank_shapes (serve_all af db rs).
Proof.
  revert db. induction rs as [|r rs IH]; intros db Hk Hstart Hshape; [done|].
  apply (IH (serve af db r));
    [by apply serve_keys_ok|by apply serve_bank_rows_start|by apply serve_bank_shapes].
Qed.

Lemma initial_bank_shapes af admins0 rs :
  bank_shapes (serve_all af (initial_db admins0) rs).
Proof.
  apply serve_all_bank_shapes; [apply initial_keys_ok| |].
  - split; cbn; [by intros h ?%elem_of_nil|]. intros id b. by rewrite lookup_empty.
  - intros id b. cbn. by rewrite lookup_empty.
Qed.

(** What the three shapes say row by row. *)
Lemma bank_history_shape_rows rows state :
  bank_history_shape rows state ->
  (∀ h, head rows = Some h -> bh_from_state h = Some BankState.ACCOUNT_CREATED) ∧
  (∀ i h h', rows !! i = Some h -> rows !! S i = Some h' ->
     bh_from_state h' = Some (bh_to_state h)
     ∨ (i = 0%nat ∧ bh_to_state h = BankState.VERIFICATION_PENDING
        ∧ bh_from_state h' = Some BankState.VERIFIED)) ∧
  (∀ h, h ∈ rows ->
     ∃ a, bh_from_state h = Some a ∧ bh_to_state h ∈ BANK_STATE_TRANSITIONS a) ∧
  NoDup (bh_to_state <$> rows) ∧
  (state ≠ BankState.VERIFIED -> state ≠ BankState.SUBSCRIBED_ONBOARDED ->
   match last rows with
   | Some h => bh_to_state h = state
   | None => state = BankState.ACCOUNT_CREATED
   end).
Proof.
  unfold bank_history_shape, bank_moves.
  intros [[Hm ->]|[[Hm Hs]|[Hm ->]]].
  - destruct rows; [|done]. split_and!; try done.
    + by intros h ?%elem_of_nil.
    + constructor.
  - destruct rows as [|h1 [|h2 rows]]; simplify_eq/=. split_and!.
    + intros h ?. by simplify_eq.
    + intros [|i] h h' ? ?; simplify_eq/=.
    + intros h ->%list_elem_of_singleton. eexists. split; [done|].
      match goal with H : bh_to_state _ = _ |- _ => rewrite H end.
      apply list_elem_of_here.
    + apply NoDup_singleton.
    + intros ? ?. by destruct Hs as [-> | [-> | ->]].
  - destruct rows as [|h1 [|h2 [|h3 [|h4 [|h5 rows]]]]]; simplify_eq/=. split_and!.
    + intros h ?. by simplify_eq.
    + intros [|[|[|[|i]]]] h h' ? ?; simplify_eq/=;
        first [left; congruence|right; by eauto].
    + intros h Hh. decompose_list_elem_of; subst h.
      all: eexists; (split; [eassumption|]).
      all: match goal with |- bh_to_state ?x ∈ _ =>
             match goal with H : bh_to_state x = _ |- _ => rewrite H end end.
      all: apply list_elem_of_here.
    + repeat match goal with H : bh_to_state _ = _ |- _ => rewrite H; clear H end.
      apply (bool_decide_unpack _). vm_compute. exact I.
    + done.
Qed.

(** ** Chains of donor rows *)

Lemma donor_chain_no_repeat a rows b :
  donor_chain a rows b ->
  Forall (fun h => (DonorState.rank a < DonorState.rank (dh_to_state h))%nat) rows ∧
  NoDup (dh_to_state <$> rows).
Proof.
  unfold donor_chain. revert a. induction rows as [|h rows IH]; intros a; cbn.
  - intros _. split; constructor.
  - intros (_ & He & Hc). apply donor_edge_rank in He.
    destruct (IH _ Hc) as [Hf Hn]. split.
    + constructor; [lia|]. eapply Forall_impl; [exact Hf|]. cbn. intros; lia.
    + apply NoDup_cons. split; [|done].
      intros (h' & Heq & Hin)%list_elem_of_fmap.
      rewrite Forall_forall in Hf. specialize (Hf _ Hin). rewrite <- Heq in Hf. lia.
Qed.

(** * C3: the history of an entity *)

(** C3 (as the code has it).  In every database reached from the initial one,
    the history rows of a donor form a chain: every row starts where the one
    before ended, the first starts at [BANK_SELECTED], the state [create_lead]
    creates donors in, and the last ends at the donor's current state.  The
    rows of a bank are one of the three lists of [bank_history_shape]: the
    first row starts at [ACCOUNT_CREATED]; every row starts where the one
    before ended, except the second, which starts at [VERIFIED] after a first
    row that ended at [VERIFICATION_PENDING]; and the last row ends at the
    bank's current state unless that state is [VERIFIED] or
    [SUBSCRIBED_ONBOARDED].  Every request appends to a donor's history
    exactly a chain of rows from the donor's old state to its new one; every
    request that goes through [transition_bank_state] does the same for a
    bank; and a request of the admin portal appends no row at all, whatever it
    does to the state of a bank. *)
Theorem history_chains (af : bool) (admins0 : gmap string Admin) (rs : list Request) :
  let db := serve_all af (initial_db admins0) rs in
  (∀ id d, donors db !! id = Some d ->
     history_is_chain dh_from_state dh_to_state DonorState.BANK_SELECTED
       (donor_rows id (donor_state_history db)) (d_state d)) ∧
  (∀ id b, banks db !! id = Some b ->
     let rows := bank_rows id (bank_state_history db) in
     bank_history_shape rows (b_state b) ∧
     (∀ h, head rows = Some h -> bh_from_state h = Some BankState.ACCOUNT_CREATED) ∧
     (∀ i h h', rows !! i = Some h -> rows !! S i = Some h' ->
        bh_from_state h' = Some (bh_to_state h)
        ∨ (i = 0%nat ∧ bh_to_state h = BankState.VERIFICATION_PENDING
           ∧ bh_from_state h' = Some BankState.VERIFIED)) ∧
     (b_state b ≠ BankState.VERIFIED -> b_state b ≠ BankState.SUBSCRIBED_ONBOARDED ->
      match last rows with
      | Some h => bh_to_state h = b_state b
      | None => b_state b = BankState.ACCOUNT_CREATED
      end)) ∧
  (∀ r, donor_progress (lifecycle db) (lifecycle (serve af db r))) ∧
  (∀ r, origin_of r = Engine ->
     bank_recorded_progress (lifecycle db) (lifecycle (serve af db r))) ∧
  (∀ r, is_admin_request r = true ->
     donor_state_history (serve af db r) = donor_state_history db ∧
     bank_state_history (serve af db r) = bank_state_history db).
Proof.
  intros db.
  assert (Hk : keys_ok db) by apply serve_all_keys_ok, initial_keys_ok.
  split_and!.
  - intros id d Hd.
    destruct (serve_all_donor_inv af (initial_db admins0) rs) as [_ Hc];
      [apply initial_keys_ok|apply initial_donor_inv|].
    eapply chain_history_is_chain, (Hc id d Hd).
  - intros id b Hb rows.
    pose proof (initial_bank_shapes af admins0 rs id b Hb) as Hs.
    destruct (bank_history_shape_rows _ _ Hs) as (? & ? & _ & _ & ?).
    by split_and!.
  - intros r. eapply updates_donor_progress; [by apply serve_updates|done].
  - intros r Hr. eapply updates_bank_recorded_progress; [|done].
    rewrite <- Hr. by apply serve_updates.
  - intros r Hr. destruct (admin_request_run af db r Hk Hr) as (_ & ? & ? & _). done.
Qed.

(** * C4: states only move forward *)

(** C4 (as the code has it).  One request is a sequence of elementary writes
    ([update]), each of which leaves all states alone, or moves one entity
    along one edge of its table and records the move, or is one of the two
    assignments of the admin portal.  So every request appends to a donor's
    history a chain of rows, one for each edge the donor's state went along;
    a request of the main API does the same for a bank; and a request of the
    admin portal records nothing and leaves the state of a bank alone, or
    takes it along the edge [VERIFICATION_PENDING -> VERIFIED]
    ([verify_bank]) or to [SUBSCRIBED_ONBOARDED] ([update_bank_subscription]),
    from [SUBSCRIPTION_PENDING] along an edge, from [VERIFIED] skipping
    [SUBSCRIPTION_PENDING].  No request lowers the rank of a state.  In every
    database reached from the initial one every row on record is an edge of
    its table, and no entity has two rows that enter the same state. *)
Theorem states_move_forward (af : bool) :
  (∀ db r, keys_ok db ->
     let db' := serve af db r in
     updates (origin_of r) (lifecycle db) (lifecycle db') ∧
     donor_progress (lifecycle db) (lifecycle db') ∧
     (is_admin_request r = false ->
      bank_recorded_progress (lifecycle db) (lifecycle db')) ∧
     (is_admin_request r = true ->
      bank_state_history db' = bank_state_history db ∧
      ∀ id b, banks db !! id = Some b ->
        ∃ b', banks db' !! id = Some b'
              ∧ admin_bank_step (origin_of r) (b_state b) (b_state b')) ∧
     (∀ id d, donors db !! id = Some d ->
        ∃ d', donors db' !! id = Some d'
              ∧ (DonorState.rank (d_state d) ≤ DonorState.rank (d_state d'))%nat) ∧
     (∀ id b, banks db !! id = Some b ->
        ∃ b', banks db' !! id = Some b'
              ∧ (BankState.rank (b_state b) ≤ BankState.rank (b_state b'))%nat)) ∧
  (∀ admins0 rs,
     let db := serve_all af (initial_db admins0) rs in
     (∀ id d, donors db !! id = Some d ->
        let rows := donor_rows id (donor_state_history db) in
        donor_chain DonorState.BANK_SELECTED rows (d_state d)
        ∧ NoDup (dh_to_state <$> rows)) ∧
     (∀ id b, banks db !! id = Some b ->
        let rows := bank_rows id (bank_state_history db) in
        (∀ h, h ∈ rows ->
           ∃ a, bh_from_state h = Some a
                ∧ bh_to_state h ∈ BANK_STATE_TRANSITIONS a)
        ∧ NoDup (bh_to_state <$> rows))).
Proof.
  split.
  - intros db r Hk db'. subst db'.
    pose proof (serve_updates af db r Hk) as Hu.
    pose proof (updates_donor_progress _ _ _ Hu Hk) as Hd.
    split_and!; try done.
    + intros Hr. eapply updates_bank_recorded_progress; [|done].
      by rewrite <- (not_admin_origin r Hr).
    + intros Hr. destruct (admin_request_run af db r Hk Hr) as (_ & _ & ? & ? & _).
      done.
    + intros id d Hl. destruct (Hd id d Hl) as (d' & delta & Hd' & _ & Hc).
      exists d'. split; [done|]. by apply donor_path_rank, (donor_chain_path _ delta).
    + intros id b Hb.
      destruct (updates_bank_progress _ _ _ Hu id b Hb) as (b' & Hb' & Hp).
      exists b'. split; [done|]. by eapply bank_path_rank.
  - intros admins0 rs db. split.
    + intros id d Hd rows.
      destruct (serve_all_donor_inv af (initial_db admins0) rs) as [_ Hc];
        [apply initial_keys_ok|apply initial_donor_inv|].
      specialize (Hc id d Hd). split; [done|].
      by destruct (donor_chain_no_repeat _ _ _ Hc).
    + intros id b Hb rows.
      pose proof (initial_bank_shapes af admins0 rs id b Hb) as Hs.
      by destruct (bank_history_shape_rows _ _ Hs) as (_ & _ & ? & ? & _).
Qed.

(** * Runs for C3 and C4 *)

(** The bank of the run [onboarding]: four rows, the second of which starts
    at [VERIFIED] after a first that ended at [VERIFICATION_PENDING]. *)
Lemma history_chains_witness :
  let db := serve_all false db0 onboarding in
  ∃ b, banks db !! "b1" = Some b ∧
       b_state b = BankState.OPERATIONAL ∧
       bank_history_shape (bank_rows "b1" (bank_state_history db)) (b_state b) ∧
       length (bank_rows "b1" (bank_state_history db)) = 4%nat.
Proof.
  intros db.
  assert (Hb : ∃ b, banks db !! "b1" = Some b ∧ b_state b = BankState.OPERATIONAL)
    by (eexists; split; vm_compute; reflexivity).
  destruct Hb as (b & Hb & Hs). exists b. split; [exact Hb|]. split; [exact Hs|].
  split; [|vm_compute; reflexivity].
  exact (proj1 (proj1 (proj2 (history_chains false {[ "a1" := root_admin ]} onboarding))
                  "b1" b Hb)).
Defined.

(** The verified bank subscribes: three edges, three rows. *)
Lemma states_move_forward_witness :
  let db := verified_bank_db in
  let db' := serve false db (POST_bank_subscription (token "b1" "bank") "gold" 6) in
  ∃ b' delta,
    banks db' !! "b1" = Some b' ∧
    bank_rows "b1" (bank_state_history db') =
      (bank_rows "b1" (bank_state_history db) ++ delta)%list ∧
    bank_chain BankState.VERIFIED delta (b_state b').
Proof.
  intros db db'.
  assert (Hk : keys_ok db) by apply serve_all_keys_ok, initial_keys_ok.
  destruct (proj1 (states_move_forward false) db
              (POST_bank_subscription (token "b1" "bank") "gold" 6) Hk)
    as (_ & _ & Hrec & _).
  apply (Hrec eq_refl "b1"
           (mkBank "b1" "bank@example.com" "hash" "Bank One" BankState.VERIFIED
              (Some ["cert.pdf"]) true (Some 5) (Some "admin-1") false None None
              None None)).
  vm_compute. reflexivity.
Defined.

(** * Invariants of every reachable database *)

Lemma writes_frame_admin r db db' :
  writes r db db' -> is_admin_request r = false ->
  activity_logs db' = activity_logs db ∧ admins db' = admins db.
Proof.
  intros Hw Hr. induction Hw as [db|db1 db2 db3 Hw _ [IH1 IH2]]; [done|].
  rewrite IH1, IH2. destruct Hw; cbn in *; try done; congruence.
Qed.

Lemma serve_all_admins af db rs k a :
  keys_ok db -> admins db !! k = Some a -> admins (serve_all af db rs) !! k = Some a.
Proof.
  revert db. induction rs as [|r rs IH]; intros db Hk Ha; [done|].
  apply (IH (serve af db r)); [by apply serve_keys_ok|].
  assert (Hw : writes r db (serve af db r)) by by apply serve_writes.
  clear IH. induction Hw as [db|db1 db2 db3 Hw _ IH']; [done|].
  apply IH'; [by eapply write_keys_ok|]. by eapply write_admins.
Qed.

(** X1.  A request of the model ([Request]: the 17 writing endpoints it has
    constructors for) in which a dependency or the handler raises commits
    nothing: the database after it is the database before it, whatever the
    handler had already written to the session when it raised.  What the
    framework does after the handler has returned is not part of [response]. *)
Theorem failed_request_changes_nothing (af : bool) (db : Db) (r : Request) (e : Exn) :
  keys_ok db -> response af db r = inl e -> serve af db r = db.
Proof. intros Hk. by apply serve_writes. Qed.

(** X2.  In every database reachable from the initial one, no two banks share
    an email and no two donors share an email. *)
Theorem emails_stay_unique (af : bool) (admins0 : gmap string Admin) (rs : list Request) :
  let db := serve_all af (initial_db admins0) rs in
  (∀ k1 k2 b1 b2, banks db !! k1 = Some b1 -> banks db !! k2 = Some b2 ->
     b_email b1 = b_email b2 -> k1 = k2) ∧
  (∀ k1 k2 d1 d2, donors db !! k1 = Some d1 -> donors db !! k2 = Some d2 ->
     d_email d1 = d_email d2 -> k1 = k2).
Proof.
  cbn zeta. change (emails_unique (serve_all af (initial_db admins0) rs)).
  apply serve_all_invariant.
  - apply write_emails_unique.
  - apply initial_keys_ok.
  - split; intros k1 k2 x1 x2; cbn; by rewrite lookup_empty.
Qed.

(** X3.  In every reachable database a bank row is stored under its own id, a
    subscribed bank is verified, a bank in [VERIFIED] or later is verified, a
    bank in [SUBSCRIPTION_PENDING] or later is subscribed, a bank in
    [VERIFICATION_PENDING] or later has at least one certification document,
    and no bank is [UNREGISTERED]. *)
Theorem bank_rows_are_sound (af : bool) (admins0 : gmap string Admin) (rs : list Request) :
  ∀ k b, banks (serve_all af (initial_db admins0) rs) !! k = Some b ->
    b_id b = k ∧
    (b_is_subscribed b = true -> b_is_verified b = true) ∧
    (BankState.rank BankState.VERIFIED ≤ BankState.rank (b_state b) ->
     b_is_verified b = true)%nat ∧
    (BankState.rank BankState.SUBSCRIPTION_PENDING ≤ BankState.rank (b_state b) ->
     b_is_subscribed b = true)%nat ∧
    (BankState.rank BankState.VERIFICATION_PENDING ≤ BankState.rank (b_state b) ->
     ∃ l url, b_certification_documents b = Some (l ++ [url])%list)%nat ∧
    b_state b ≠ BankState.UNREGISTERED.
Proof.
  intros k b Hb. split.
  - by eapply (serve_all_keys_ok af (initial_db admins0) rs (initial_keys_ok _)).
  - assert (Hs : banks_sound (serve_all af (initial_db admins0) rs)).
    { apply serve_all_invariant.
      + apply write_banks_sound.
      + apply initial_keys_ok.
      + intros k0 b0; cbn; by rewrite lookup_empty. }
    destruct (Hs _ _ Hb) as (?&?&?&?&?&_). by split_and!.
Qed.

(** X4.  In every reachable database a donor row is stored under its own id,
    belongs to an existing bank that is verified and subscribed, has a
    password once it is in [ACCOUNT_CREATED] or later, is [APPROVED] when it is
    [DONOR_ONBOARDED], and has an eligibility decision only in [TESTS_PENDING]
    or later. *)
Theorem donor_rows_are_sound (af : bool) (admins0 : gmap string Admin) (rs : list Request) :
  let db := serve_all af (initial_db admins0) rs in
  ∀ k d, donors db !! k = Some d ->
    d_id d = k ∧
    (∃ bank, d_bank_id d = Some (b_id bank) ∧ banks db !! b_id bank = Some bank ∧
             b_is_verified bank = true ∧ b_is_subscribed bank = true) ∧
    (DonorState.rank DonorState.BANK_SELECTED ≤ DonorState.rank (d_state d))%nat ∧
    (DonorState.rank DonorState.ACCOUNT_CREATED ≤ DonorState.rank (d_state d) ->
     is_Some (d_hashed_password d))%nat ∧
    (d_state d = DonorState.DONOR_ONBOARDED ->
     d_eligibility_status d = EligibilityStatus.APPROVED) ∧
    (d_eligibility_status d ≠ EligibilityStatus.PENDING ->
     DonorState.rank DonorState.TESTS_PENDING ≤ DonorState.rank (d_state d))%nat.
Proof.
  intros db k d Hd.
  assert (Hs : donors_sound db).
  { apply serve_all_invariant.
    - apply write_donors_sound.
    - apply initial_keys_ok.
    - intros k0 d0; cbn; by rewrite lookup_empty. }
  destruct (Hs _ _ Hd) as ((?&?&?&?) & ?).
  split_and!; try done.
  by eapply (serve_all_keys_ok af (initial_db admins0) rs (initial_keys_ok _)).
Qed.

(** X6.  Requests of the main API never change [is_verified], [verified_at] or
    [verified_by] of a bank, and the banks they create are unverified; hence,
    starting from the initial database, no donor exists as long as the admin
    portal has not been used. *)
Theorem only_the_admin_portal_verifies (af : bool) (rs : list Request) :
  existsb is_admin_request rs = false ->
  (∀ db, keys_ok db ->
     (∀ k b, banks db !! k = Some b ->
        ∃ b', banks (serve_all af db rs) !! k = Some b' ∧
              b_is_verified b' = b_is_verified b ∧
              b_verified_at b' = b_verified_at b ∧
              b_verified_by b' = b_verified_by b) ∧
     (∀ k b', banks db !! k = None -> banks (serve_all af db rs) !! k = Some b' ->
        b_is_verified b' = false)) ∧
  (∀ admins0, donors (serve_all af (initial_db admins0) rs) = ∅).
Proof.
  intros Hrs. split.
  - intros db Hk. split.
    + intros k b Hb. destruct (serve_all_rows af db rs Hk) as [Hrows _].
      destruct (Hrows _ _ Hb) as (b' & Hb' & S). exists b'. split; [done|].
      destruct S as (_&_&_&_&_&_&Ha&_). rewrite Hrs in Ha. by apply Ha.
    + by apply serve_all_new_banks_unverified.
  - intros admins0. apply map_empty. intros k.
    destruct (donors (serve_all af (initial_db admins0) rs) !! k) as [d|] eqn:Hd; [|done].
    exfalso.
    assert (Hs : donors_sound (serve_all af (initial_db admins0) rs)).
    { apply serve_all_invariant.
      - apply write_donors_sound.
      - apply initial_keys_ok.
      - intros k0 d0; cbn; by rewrite lookup_empty. }
    destruct (Hs _ _ Hd) as (_ & bank & _ & Hb & Hv & _).
    assert (b_is_verified bank = false); [|congruence].
    eapply (serve_all_new_banks_unverified af (initial_db admins0) rs);
      [apply initial_keys_ok|done| |exact Hb].
    cbn. by rewrite lookup_empty.
Qed.

(** X7.  A bank that is in [VERIFICATION_PENDING] with [is_verified] already set
    (the admin verified it before it uploaded a certificate) stays in
    [VERIFICATION_PENDING] whatever requests follow. *)
Theorem verified_bank_pending_forever (af : bool) (db : Db) (rs : list Request)
    (k : string) (b : Bank) :
  keys_ok db -> banks db !! k = Some b ->
  b_state b = BankState.VERIFICATION_PENDING -> b_is_verified b = true ->
  ∃ b', banks (serve_all af db rs) !! k = Some b' ∧
        b_state b' = BankState.VERIFICATION_PENDING ∧ b_is_verified b' = true.
Proof.
  intros Hk Hb Hs Hv. destruct (serve_all_rows af db rs Hk) as [Hrows _].
  destruct (Hrows _ _ Hb) as (b' & Hb' & S). exists b'. split; [done|].
  destruct S as (_&_&_&_&Hv'&_&_&Hp&_). split; [by apply Hp|by apply Hv'].
Qed.

(** X5.  No sequence of requests deletes a bank or a donor or changes its id,
    email or (for a bank) password, or (for a donor) its bank.  A
    verification and a subscription are never revoked, the stored list of
    certification documents only grows, a donor's password and legal documents are frozen once
    the account is created, and an eligibility decision is never changed. *)
Theorem stored_rows_keep_their_identity (af : bool) (db : Db) (rs : list Request) :
  keys_ok db ->
  let db' := serve_all af db rs in
  (∀ k b, banks db !! k = Some b ->
     ∃ b', banks db' !! k = Some b' ∧
       b_id b' = b_id b ∧ b_email b' = b_email b ∧
       b_hashed_password b' = b_hashed_password b ∧
       (b_is_verified b = true ->
        b_is_verified b' = true ∧ b_verified_at b' = b_verified_at b
        ∧ b_verified_by b' = b_verified_by b) ∧
       (b_is_subscribed b = true -> b_is_subscribed b' = true) ∧
       (∃ more, default [] (b_certification_documents b')
                = default [] (b_certification_documents b) ++ more)%list) ∧
  (∀ k d, donors db !! k = Some d ->
     ∃ d', donors db' !! k = Some d' ∧
       d_id d' = d_id d ∧ d_email d' = d_email d ∧ d_bank_id d' = d_bank_id d ∧
       d_selected_at d' = d_selected_at d ∧
       (DonorState.rank DonorState.ACCOUNT_CREATED ≤ DonorState.rank (d_state d) ->
        d_hashed_password d' = d_hashed_password d
        ∧ d_legal_documents d' = d_legal_documents d)%nat ∧
       (DonorState.rank DonorState.ELIGIBILITY_DECISION ≤ DonorState.rank (d_state d) ->
        d_eligibility_status d' = d_eligibility_status d
        ∧ d_eligibility_notes d' = d_eligibility_notes d
        ∧ d_eligibility_decided_at d' = d_eligibility_decided_at d)%nat).
Proof.
  intros Hk db'. destruct (serve_all_rows af db rs Hk) as [Hb Hd]. split.
  - intros k b Hl. destruct (Hb _ _ Hl) as (b' & ? & S). exists b'.
    destruct S as (?&?&?&?&?&?&?&?&?). by split_and!.
  - intros k d Hl. destruct (Hd _ _ Hl) as (d' & ? & S). exists d'.
    destruct S as (?&?&?&?&?&?&?). by split_and!.
Qed.

(** X10.  In every reachable database counseling sessions have distinct ids,
    each belongs to an existing donor and to that donor's bank, and a donor has
    exactly one session if it is in [COUNSELING_REQUESTED] or later and none
    before. *)
Theorem one_counseling_session_per_donor
    (af : bool) (admins0 : gmap string Admin) (rs : list Request) :
  let db := serve_all af (initial_db admins0) rs in
  NoDup (s_id <$> counseling_sessions db) ∧
  (∀ x, x ∈ counseling_sessions db ->
     ∃ d, donors db !! s_donor_id x = Some d ∧ d_bank_id d = Some (s_bank_id x)) ∧
  (∀ k d, donors db !! k = Some d ->
     length (filter (fun x => s_donor_id x = k) (counseling_sessions db))
     = if bool_decide (DonorState.rank DonorState.COUNSELING_REQUESTED
                       ≤ DonorState.rank (d_state d))%nat
       then 1%nat else 0%nat).
Proof.
  cbn zeta. change (sessions_sound (serve_all af (initial_db admins0) rs)).
  apply serve_all_invariant.
  - apply write_sessions_sound.
  - apply initial_keys_ok.
  - split_and!; cbn.
    + apply NoDup_nil_2.
    + by intros x ?%elem_of_nil.
    + intros k d. by rewrite lookup_empty.
Qed.

(** X11.  In every reachable database donor consents have distinct ids, each
    refers to an existing donor and to a template of that donor's bank, a
    donor has at most one consent per template, a consent that is no longer
    [SIGNED] records who verified it, and the verifier is the donor's bank. *)
Theorem consents_are_sound
    (af : bool) (admins0 : gmap string Admin) (rs : list Request) :
  let db := serve_all af (initial_db admins0) rs in
  NoDup (c_id <$> donor_consents db) ∧
  (∀ c, c ∈ donor_consents db ->
     ∃ d t, donors db !! c_donor_id c = Some d ∧
            t ∈ consent_templates db ∧ t_id t = c_template_id c ∧
            Some (t_bank_id t) = d_bank_id d ∧
            (∀ bank, c_verified_by c = Some bank -> d_bank_id d = Some bank) ∧
            (c_status c ≠ ConsentStatus.SIGNED -> is_Some (c_verified_by c))) ∧
  (∀ i j c1 c2, donor_consents db !! i = Some c1 -> donor_consents db !! j = Some c2 ->
     c_donor_id c1 = c_donor_id c2 -> c_template_id c1 = c_template_id c2 -> i = j).
Proof.
  cbn zeta. change (consents_sound (serve_all af (initial_db admins0) rs)).
  apply serve_all_invariant.
  - apply write_consents_sound.
  - apply initial_keys_ok.
  - split_and!; cbn.
    + apply NoDup_nil_2.
    + by intros x ?%elem_of_nil.
    + intros i j c1 c2. by rewrite lookup_nil.
Qed.

(** X12.  In every reachable database consent templates have distinct ids, an
    order between 1 and 4, and an existing bank. *)
Theorem templates_are_sound
    (af : bool) (admins0 : gmap string Admin) (rs : list Request) :
  let db := serve_all af (initial_db admins0) rs in
  NoDup (t_id <$> consent_templates db) ∧
  ∀ t, t ∈ consent_templates db ->
    (1 ≤ t_order t ≤ 4)%Z ∧ is_Some (banks db !! t_bank_id t).
Proof.
  cbn zeta. change (templates_sound (serve_all af (initial_db admins0) rs)).
  apply serve_all_invariant.
  - apply write_templates_sound.
  - apply initial_keys_ok.
  - split; cbn; [apply NoDup_nil_2|by intros x ?%elem_of_nil].
Qed.

(** X13.  In every reachable database test reports have distinct ids and each
    belongs to an existing donor of the uploading bank that is in
    [CONSENT_VERIFIED] or later. *)
Theorem test_reports_are_sound
    (af : bool) (admins0 : gmap string Admin) (rs : list Request) :
  let db := serve_all af (initial_db admins0) rs in
  NoDup (r_id <$> test_reports db) ∧
  ∀ x, x ∈ test_reports db ->
    ∃ d, donors db !! r_donor_id x = Some d ∧ d_bank_id d = Some (r_bank_id x) ∧
         (DonorState.rank DonorState.CONSENT_VERIFIED ≤ DonorState.rank (d_state d))%nat.
Proof.
  cbn zeta. change (reports_sound (serve_all af (initial_db admins0) rs)).
  apply serve_all_invariant.
  - apply write_reports_sound.
  - apply initial_keys_ok.
  - split; cbn; [apply NoDup_nil_2|by intros x ?%elem_of_nil].
Qed.

(** X14.  In every reachable database each donor history row belongs to an
    existing donor and names its actor: moves up to [CONSENT_PENDING] are made
    by the donor itself with role donor, later moves by the donor's bank with
    role bank.  Each bank history row is made by the bank itself, belongs to an
    existing bank, and none records a move to [VERIFIED]. *)
Theorem history_rows_name_their_actor
    (af : bool) (admins0 : gmap string Admin) (rs : list Request) :
  let db := serve_all af (initial_db admins0) rs in
  (∀ h, h ∈ donor_state_history db ->
     ∃ d, donors db !! dh_donor_id h = Some d ∧
          dh_changed_by_role h = transition_role (dh_to_state h) ∧
          (dh_changed_by_role h = "donor" -> dh_changed_by h = dh_donor_id h) ∧
          (dh_changed_by_role h = "bank" -> d_bank_id d = Some (dh_changed_by h))) ∧
  (∀ h, h ∈ bank_state_history db ->
     bh_changed_by h = bh_bank_id h ∧ bh_to_state h ≠ BankState.VERIFIED ∧
     is_Some (banks db !! bh_bank_id h)).
Proof.
  cbn zeta. split.
  - change (donor_history_sound (serve_all af (initial_db admins0) rs)).
    apply serve_all_invariant.
    + apply write_donor_history_sound.
    + apply initial_keys_ok.
    + by intros x ?%elem_of_nil.
  - change (bank_history_sound (serve_all af (initial_db admins0) rs)).
    apply serve_all_invariant.
    + apply write_bank_history_sound.
    + apply initial_keys_ok.
    + by intros x ?%elem_of_nil.
Qed.

(** X15.  No request changes or removes an admin of the initial database; each
    row of the activity log names an active admin; and a request of the main
    API changes neither the log nor the admins. *)
Theorem activity_log_is_sound
    (af : bool) (admins0 : gmap string Admin) (rs : list Request) :
  let db := serve_all af (initial_db admins0) rs in
  (∀ k a, admins0 !! k = Some a -> admins db !! k = Some a) ∧
  (∀ row, row ∈ activity_logs db ->
     ∃ k a, admins db !! k = Some a ∧ l_admin_id row = a_id a ∧ a_is_active a = true) ∧
  (∀ r, is_admin_request r = false ->
     activity_logs (serve af db r) = activity_logs db ∧
     admins (serve af db r) = admins db).
Proof.
  cbn zeta. split_and!.
  - intros k a Ha. apply serve_all_admins; [apply initial_keys_ok|done].
  - change (logs_sound (serve_all af (initial_db admins0) rs)).
    apply serve_all_invariant.
    + apply write_logs_sound.
    + apply initial_keys_ok.
    + by intros x ?%elem_of_nil.
  - intros r Hr. apply (writes_frame_admin r); [|done].
    apply serve_writes. apply serve_all_keys_ok, initial_keys_ok.
Qed.

Lemma serve_bank_states af db r (P : BankState.t -> Prop) :
  keys_ok db ->
  (∀ r a b, P a -> bank_request_step r a b -> P b) ->
  P BankState.ACCOUNT_CREATED ->
  (∀ k b, banks db !! k = Some b -> P (b_state b)) ->
  ∀ k b, banks (serve af db r) !! k = Some b -> P (b_state b).
Proof.
  intros Hk Hstep Hnew HP k b' Hb'.
  destruct (serve_steps af db r Hk) as (Hb & _ & Hnb & _).
  destruct (banks db !! k) as [b|] eqn:Hl.
  - destruct (Hb _ _ Hl) as (b'' & ? & ?). simplify_eq. eapply Hstep; [|done]. by eapply HP.
  - by rewrite (Hnb _ _ Hl Hb').
Qed.

Lemma serve_all_bank_states af db rs (P : BankState.t -> Prop) :
  keys_ok db ->
  (∀ r a b, P a -> bank_request_step r a b -> P b) ->
  P BankState.ACCOUNT_CREATED ->
  (∀ k b, banks db !! k = Some b -> P (b_state b)) ->
  ∀ k b, banks (serve_all af db rs) !! k = Some b -> P (b_state b).
Proof.
  intros Hk Hstep Hnew. revert db Hk.
  induction rs as [|r rs IH]; intros db Hk HP; [done|].
  apply (IH (serve af db r)); [by apply serve_keys_ok|].
  by apply serve_bank_states.
Qed.

Lemma serve_all_donor_states af db rs (P : DonorState.t -> Prop) :
  keys_ok db ->
  (∀ a b, P a -> donor_request_step af a b -> P b) ->
  P DonorState.LEAD_CREATED ->
  (∀ k d, donors db !! k = Some d -> P (d_state d)) ->
  ∀ k d, donors (serve_all af db rs) !! k = Some d -> P (d_state d).
Proof.
  intros Hk Hstep Hnew. revert db Hk.
  induction rs as [|r rs IH]; intros db Hk HP; [done|].
  apply (IH (serve af db r)); [by apply serve_keys_ok|].
  intros k d' Hd'.
  destruct (serve_steps af db r Hk) as (_ & Hd & _ & Hnd).
  destruct (donors db !! k) as [d|] eqn:Hl.
  - destruct (Hd _ _ Hl) as (d'' & ? & ?). simplify_eq. eapply Hstep; [|done]. by eapply HP.
  - by rewrite (Hnd _ _ Hl Hd').
Qed.

Lemma serve_all_bank_final af db rs k b :
  keys_ok db -> banks db !! k = Some b ->
  (∀ r s, bank_request_step r (b_state b) s -> s = b_state b) ->
  ∃ b', banks (serve_all af db rs) !! k = Some b' ∧ b_state b' = b_state b.
Proof.
  revert db b. induction rs as [|r rs IH]; intros db b Hk Hb Hfin; [by exists b|].
  destruct (serve_steps af db r Hk) as (Hstep & _).
  destruct (Hstep _ _ Hb) as (b1 & Hb1 & Hs1).
  apply Hfin in Hs1.
  destruct (IH (serve af db r) b1) as (b' & ? & ?);
    [by apply serve_keys_ok|done|by rewrite Hs1|].
  exists b'. split; [done|congruence].
Qed.

(** X8.  From the database before a request to the database after it, a bank's
    state changes in one of four ways only: [ACCOUNT_CREATED] to
    [VERIFICATION_PENDING], [VERIFICATION_PENDING] to [VERIFIED] (admin
    portal), [VERIFIED] to [SUBSCRIBED_ONBOARDED] (admin portal) or [VERIFIED]
    to [OPERATIONAL] (main API).  So no database that a sequence of completed
    requests leaves behind holds a bank in [SUBSCRIPTION_PENDING], and a bank
    in [SUBSCRIBED_ONBOARDED] or [OPERATIONAL] never changes state again.
    (Inside [create_subscription] the bank does pass through
    [SUBSCRIPTION_PENDING] and [SUBSCRIBED_ONBOARDED], and each step is
    committed; the statement is about the databases between requests.) *)
Theorem bank_moves_by_request (af : bool) (admins0 : gmap string Admin)
    (rs : list Request) :
  let db := serve_all af (initial_db admins0) rs in
  (∀ r k b, banks db !! k = Some b ->
     ∃ b', banks (serve af db r) !! k = Some b' ∧
           (b_state b' = b_state b
            ∨ (b_state b = BankState.ACCOUNT_CREATED
               ∧ b_state b' = BankState.VERIFICATION_PENDING)
            ∨ (is_admin_request r = true ∧ b_state b = BankState.VERIFICATION_PENDING
               ∧ b_state b' = BankState.VERIFIED)
            ∨ (is_admin_request r = true ∧ b_state b = BankState.VERIFIED
               ∧ b_state b' = BankState.SUBSCRIBED_ONBOARDED)
            ∨ (is_admin_request r = false ∧ b_state b = BankState.VERIFIED
               ∧ b_state b' = BankState.OPERATIONAL))) ∧
  (∀ k b, banks db !! k = Some b -> b_state b ≠ BankState.SUBSCRIPTION_PENDING) ∧
  (∀ rs' k b, banks db !! k = Some b ->
     b_state b = BankState.SUBSCRIBED_ONBOARDED ∨ b_state b = BankState.OPERATIONAL ->
     ∃ b', banks (serve_all af db rs') !! k = Some b' ∧ b_state b' = b_state b).
Proof.
  intros db.
  assert (Hk : keys_ok db) by apply serve_all_keys_ok, initial_keys_ok.
  assert (Hsp : ∀ k b, banks db !! k = Some b ->
                       b_state b ≠ BankState.SUBSCRIPTION_PENDING).
  { apply (serve_all_bank_states af (initial_db admins0) rs
             (fun s => s ≠ BankState.SUBSCRIPTION_PENDING)).
    - apply initial_keys_ok.
    - intros r a b Ha Hs. unfold bank_request_step in Hs.
      destruct Hs as [<-|[[_ ->]|[(_&_&->)|[(_&_&->)|(_&_&->)]]]]; done.
    - done.
    - intros k b. cbn. by rewrite lookup_empty. }
  split_and!.
  - intros r k b Hb. destruct (serve_steps af db r Hk) as (Hstep & _).
    destruct (Hstep _ _ Hb) as (b' & Hb' & Hs). exists b'. split; [done|].
    pose proof (Hsp _ _ Hb).
    destruct Hs as [Hs|[Hs|[Hs|[(?&[?|?]&?)|Hs]]]]; try done; auto 10.
  - done.
  - intros rs' k b Hb Hs. apply serve_all_bank_final; [done..|].
    intros r s Hstep. unfold bank_request_step in Hstep.
    destruct Hs as [Hs|Hs]; rewrite Hs in *.
    all: destruct Hstep as [<-|[[? _]|[(_&?&_)|[(_&[?|?]&_)|(_&?&_)]]]]; done.
Qed.

(** X9.  No database that a sequence of completed requests leaves behind holds
    a donor in [VISITOR] or [BANK_SELECTED].  ([create_lead] commits the new
    donor in [BANK_SELECTED] and then the transition to [LEAD_CREATED]; the
    statement is about the databases between requests.)  In a session that
    autoflushes, [sign_consent] counts the consent it has just added and never
    moves the donor to [CONSENT_PENDING]: every donor of every such database
    is in [LEAD_CREATED], [ACCOUNT_CREATED] or [COUNSELING_REQUESTED]. *)
Theorem autoflush_stops_donors_at_counseling
    (admins0 : gmap string Admin) (rs : list Request) :
  (∀ af k d, donors (serve_all af (initial_db admins0) rs) !! k = Some d ->
     d_state d ≠ DonorState.VISITOR ∧ d_state d ≠ DonorState.BANK_SELECTED) ∧
  (∀ k d, donors (serve_all true (initial_db admins0) rs) !! k = Some d ->
     d_state d ∈ [DonorState.LEAD_CREATED; DonorState.ACCOUNT_CREATED;
                  DonorState.COUNSELING_REQUESTED]).
Proof.
  split.
  - intros af.
    apply (serve_all_donor_states af (initial_db admins0) rs
             (fun s => s ≠ DonorState.VISITOR ∧ s ≠ DonorState.BANK_SELECTED)).
    + apply initial_keys_ok.
    + intros a b [? ?] Hs. unfold donor_request_step in Hs.
      destruct Hs as [<-|[[_ ->]|[[_ ->]|[(_&_&->)|[[_ ->]|[[_ ->]|[_ [->| ->]]]]]]]]; done.
    + done.
    + intros k d. cbn. by rewrite lookup_empty.
  - apply (serve_all_donor_states true (initial_db admins0) rs
             (fun s => s ∈ [DonorState.LEAD_CREATED; DonorState.ACCOUNT_CREATED;
                            DonorState.COUNSELING_REQUESTED])).
    + apply initial_keys_ok.
    + intros a b Ha Hs. unfold donor_request_step in Hs.
      destruct Hs as [<-|[[_ ->]|[[_ ->]|[(?&_&_)|[[-> _]|[[-> _]|[-> _]]]]]]];
        try done.
      all: rewrite !elem_of_cons, elem_of_nil in *.
      all: first [ by auto | by destruct Ha as [?|[?|[?|[]]]] ].
    + apply list_elem_of_here.
    + intros k d. cbn. by rewrite lookup_empty.
Qed.

(** * Guards, logins and single handlers *)

Ltac wp_deps :=
  unfold get_subscribed_bank, get_verified_bank, get_current_bank, get_current_donor,
    get_current_user, require_role, get_current_admin; wp_run.

Ltac tidy_token :=
  repeat match goal with
    | p : Payload |- _ => destruct p
    | H : negb _ = true |- _ => apply negb_true_iff in H
    | H : negb _ = false |- _ => apply negb_false_iff in H
    end;
  cbn [p_sub p_type] in *; simplify_eq.

(** X16.  [get_current_donor] accepts exactly the tokens of type donor whose
    subject is a stored donor, [get_current_bank] exactly the tokens of type
    bank whose subject is a stored bank; a token accepted by one is refused by
    the other with status 403; every refusal is 401 or 403; neither changes the
    database. *)
Theorem token_types_are_separated (af : bool) (db : Db) (tok : option Payload) :
  let donor := run_request af (get_current_donor tok) db in
  let bank := run_request af (get_current_bank tok) db in
  donor.2 = db ∧ bank.2 = db ∧
  (∀ id, donor.1 = inr id <->
     tok = Some (mkPayload (Some id) (Some "donor")) ∧ is_Some (donors db !! id)) ∧
  (∀ id, bank.1 = inr id <->
     tok = Some (mkPayload (Some id) (Some "bank")) ∧ is_Some (banks db !! id)) ∧
  (∀ id, donor.1 = inr id -> ∃ detail, bank.1 = inl (HTTPException 403 detail)) ∧
  (∀ id, bank.1 = inr id -> ∃ detail, donor.1 = inl (HTTPException 403 detail)) ∧
  (∀ e, donor.1 = inl e ∨ bank.1 = inl e ->
     ∃ detail, e = HTTPException 401 detail ∨ e = HTTPException 403 detail).
Proof.
  cbn zeta.
  assert (Hd : ∀ P : (Exn + string) * Db -> Prop,
    (∀ id d, tok = Some (mkPayload (Some id) (Some "donor")) -> donors db !! id = Some d ->
       P (inr id, db)) ->
    (∀ id b, tok = Some (mkPayload (Some id) (Some "bank")) -> banks db !! id = Some b ->
       P (inl (HTTPException 403 "Donor access required"), db)) ->
    (∀ detail, (∀ id, tok = Some (mkPayload (Some id) (Some "donor")) ->
                      donors db !! id = None) ->
               (∀ id, tok = Some (mkPayload (Some id) (Some "bank")) ->
                      banks db !! id = None) ->
       P (inl (HTTPException 401 detail), db)) ->
    P (run_request af (get_current_donor tok) db)).
  { intros P H1 H2 H3. apply wp_run_request. destruct af; wp_deps; tidy_token.
    all: first [ by eapply H1 | by eapply H2
               | apply H3; intros; simplify_eq; done ]. }
  assert (Hb : ∀ P : (Exn + string) * Db -> Prop,
    (∀ id b, tok = Some (mkPayload (Some id) (Some "bank")) -> banks db !! id = Some b ->
       P (inr id, db)) ->
    (∀ id d, tok = Some (mkPayload (Some id) (Some "donor")) -> donors db !! id = Some d ->
       P (inl (HTTPException 403 "Bank access required"), db)) ->
    (∀ detail, (∀ id, tok = Some (mkPayload (Some id) (Some "donor")) ->
                      donors db !! id = None) ->
               (∀ id, tok = Some (mkPayload (Some id) (Some "bank")) ->
                      banks db !! id = None) ->
       P (inl (HTTPException 401 detail), db)) ->
    P (run_request af (get_current_bank tok) db)).
  { intros P H1 H2 H3. apply wp_run_request. destruct af; wp_deps; tidy_token.
    all: first [ by eapply H1 | by eapply H2
               | apply H3; intros; simplify_eq; done ]. }
  apply Hd; [intros id d -> Hl|intros id b -> Hl|intros detail Hnd Hnb].
  all: apply Hb; [intros id' b' Ht Hl'|intros id' d' Ht Hl'|intros detail' Hnd' Hnb'];
    simplify_eq; cbn [fst snd].
  all: try (specialize (Hnd _ eq_refl)); try (specialize (Hnb _ eq_refl));
    try (specialize (Hnd' _ eq_refl)); try (specialize (Hnb' _ eq_refl)); simplify_eq.
  all: split_and!; try done.
  all: try (intros id0; split; [intros ?; by simplify_eq|intros [? [? ?]]; by simplify_eq]).
  all: try (intros ? ?; simplify_eq; by eauto).
  all: try (intros ? [?|?]; simplify_eq; by eauto).
  all: intros id0; split; [done|intros [Ht [x Hx]]].
  all: first [rewrite (Hnd _ Ht) in Hx|rewrite (Hnb _ Ht) in Hx]; done.
Qed.

(** X17.  [get_subscribed_bank] accepts exactly the bank tokens of a stored bank
    for which [BankService.can_manage_donors] holds; it refuses with 401 or 403
    and changes nothing. *)
Theorem subscribed_bank_guard (af : bool) (db : Db) (tok : option Payload) :
  let out := run_request af (get_subscribed_bank tok) db in
  out.2 = db ∧
  (∀ id, out.1 = inr id <->
     tok = Some (mkPayload (Some id) (Some "bank")) ∧
     ∃ b, banks db !! id = Some b ∧ BankService.can_manage_donors b = true) ∧
  (∀ e, out.1 = inl e ->
     ∃ detail, e = HTTPException 401 detail ∨ e = HTTPException 403 detail).
Proof.
  cbn zeta. wp_start. destruct af; wp_deps.
  all: tidy_token.
  all: (split; [reflexivity|]).
  all: split; [|intros e' ?; simplify_eq; eauto].
  all: intros id; unfold BankService.can_manage_donors.
  all: split; [intros ?; simplify_eq|intros [? (b' & ? & [? ?]%andb_true_iff)]; simplify_eq].
  all: try (split; [done|]; eexists; split; [done|]; by apply andb_true_iff).
  all: try done.
  all: try congruence.
Qed.

Lemma filter_length_le_sub {A} (P Q : A -> Prop) `{!∀ x, Decision (P x)} `{!∀ x, Decision (Q x)} (l : list A) :
  (∀ x, P x -> Q x) -> (length (filter P l) ≤ length (filter Q l))%nat.
Proof.
  intros HPQ. induction l as [|x l IH]; [done|].
  rewrite !filter_cons. destruct (decide (P x)) as [HP|HP].
  - rewrite decide_True by auto. cbn. lia.
  - destruct (decide (Q x)); cbn; lia.
Qed.

(** X24.  [DonorService.get_all_consents_count] returns the counts of all, of
    signed-or-verified and of verified consents of a donor; they are nested,
    verified <= signed <= total, and [ConsentService.all_consents_verified]
    holds exactly when the two counts [verify_consent] compares are both at
    least 4. *)
Theorem consent_counts_are_nested (af : bool) (db : Db) (donor_id : string) :
  ∃ total signed verified,
    run_request af (DonorService.get_all_consents_count donor_id) db
      = (inr (total, signed, verified), db) ∧
    total = total_consents db donor_id ∧
    verified = verified_consents db donor_id ∧
    (verified ≤ signed)%nat ∧ (signed ≤ total)%nat ∧
    run_request af (ConsentService.all_consents_verified donor_id) db
      = (inr (bool_decide ((4 ≤ total)%nat ∧ (4 ≤ verified)%nat)), db).
Proof.
  eexists _, _, _. split; [|split; [|split; [|split; [|split]]]].
  - unfold run_request, DonorService.get_all_consents_count, bind, query, ret, open_session.
    destruct af; cbn; reflexivity.
  - reflexivity.
  - reflexivity.
  - apply filter_length_le_sub. intros c [? ->]. split; [done|].
    apply elem_of_cons. right. apply list_elem_of_here.
  - apply filter_length_le_sub. by intros c [? ?].
  - unfold run_request, ConsentService.all_consents_verified, bind, query, ret, open_session.
    assert (Hle : (length (filter (fun c => c_donor_id c = donor_id ∧ c_status c = ConsentStatus.VERIFIED) (donor_consents db))
            ≤ length (filter (fun c => c_donor_id c = donor_id) (donor_consents db)))%nat).
    { apply filter_length_le_sub. by intros c [? ?]. }
    destruct af; cbn; do 2 f_equal; apply bool_decide_ext; lia.
Qed.

#[global] Instance order_le_total : Total ConsentService.order_le.
Proof. intros a b. unfold ConsentService.order_le. lia. Qed.

#[global] Instance order_le_trans : Transitive ConsentService.order_le.
Proof. intros a b c. unfold ConsentService.order_le. lia. Qed.

(** X25.  [ConsentService.get_required_consents_for_donor] raises 400 unless the
    bank has exactly 4 active templates, that is, unless
    [validate_consent_template_count] holds; otherwise it returns exactly the
    bank's active templates, four of them, sorted by [order]. *)
Theorem required_consents_are_four_sorted (af : bool) (db : Db) (bank_id : string) :
  let active := filter (fun t => t_bank_id t = bank_id ∧ t_is_active t = true)
                  (consent_templates db) in
  let out := run_request af (ConsentService.get_required_consents_for_donor bank_id) db in
  out.2 = db ∧
  run_request af (ConsentService.validate_consent_template_count bank_id) db
    = (inr (bool_decide (length active = 4)), db) ∧
  (length active ≠ 4 ->
   out.1 = inl (HTTPException 400 "Bank must have exactly 4 active consent templates")) ∧
  (length active = 4 ->
   ∃ templates,
     out.1 = inr templates ∧
     templates ≡ₚ active ∧
     length templates = 4 ∧
     StronglySorted (fun a b => (t_order a ≤ t_order b)%Z) templates ∧
     ∀ t, t ∈ templates -> t ∈ consent_templates db ∧ t_bank_id t = bank_id ∧ t_is_active t = true).
Proof.
  cbn zeta.
  set (active := filter _ (consent_templates db)).
  assert (Hp : ConsentService.order_by_order active ≡ₚ active)
    by apply merge_sort_Permutation.
  assert (Hrun : run_request af (ConsentService.get_required_consents_for_donor bank_id) db
          = (if decide (length (ConsentService.order_by_order active) ≠ 4)
             then inl (HTTPException 400 "Bank must have exactly 4 active consent templates")
             else inr (ConsentService.order_by_order active), db)).
  { unfold run_request, ConsentService.get_required_consents_for_donor, bind, query,
      open_session. fold active.
    destruct af; cbn; fold active; destruct (decide _); reflexivity. }
  rewrite Hrun. rewrite (Permutation_length Hp).
  split; [done|]. split; [|split].
  - unfold run_request, ConsentService.validate_consent_template_count, bind, query,
      open_session, ret. destruct af; reflexivity.
  - intros Hn. by rewrite decide_True.
  - intros Hl. rewrite decide_False by (intros ?; done).
    exists (ConsentService.order_by_order active). split; [done|]. split; [done|].
    split; [by rewrite (Permutation_length Hp)|]. split.
    + apply (StronglySorted_merge_sort ConsentService.order_le).
    + intros t Ht. rewrite Hp in Ht. apply list_elem_of_filter in Ht as [[? ?] ?]. done.
Qed.

(** X19.  [login_donor] changes nothing; every failure is 401 with the same
    message; a success names a stored donor with that email whose stored hash
    verifies the password, and the token it returns is accepted by
    [get_current_donor] as that donor. *)
Theorem login_donor_outcome (verify_password : string -> string -> bool)
    (af : bool) (db : Db) (email password : string) :
  keys_ok db ->
  let out := run_request af (login_donor verify_password email password) db in
  out.2 = db ∧
  (∀ e, out.1 = inl e -> e = HTTPException 401 "Invalid email or password") ∧
  (∀ r, out.1 = inr r ->
     ∃ d h,
       donors db !! user_id r = Some d ∧ d_email d = email ∧
       d_hashed_password d = Some h ∧ verify_password password h = true ∧
       user_type r = "donor" ∧
       run_request af (get_current_donor (Some (access_token r))) db
         = (inr (user_id r), db)).
Proof.
  intros Hk. cbn zeta. wp_start. unfold login_donor.
  destruct af; wp_run; resolve_first_where Hk.
  all: split; [reflexivity|]; split; [intros ? ?; by simplify_eq|intros r' ?; simplify_eq].
  all: match goal with H : negb _ = false |- _ => apply negb_false_iff in H end.
  all: eexists _, _; cbn [user_id user_type access_token].
  all: (split; [eassumption|]; split; [done|]; split; [eassumption|]; split; [done|]; split; [done|]).
  all: wp_start; wp_deps; cbn [p_sub p_type] in *; by simplify_eq.
Qed.

Lemma guarded_change {A : Type} af db (m : M A) (k : A -> M unit) :
  (run_request af (bind m k) db).2 ≠ db ->
  (run_request af m db).2 = db ->
  ∃ a, (run_request af m db).1 = inr a.
Proof.
  unfold run_request, bind.
  destruct (m (open_session af db)) as [[e|a] s']; cbn; [done|by eauto].
Qed.

(** X18.  [require_role] returns an admin exactly for a token of type admin whose
    subject is a stored, active admin with one of the required roles, and
    refuses with 401 or 403 otherwise.  A request to create an admin changes
    the database only with the token of an active super admin; a request to
    verify or subscribe a bank only with the token of an active super admin or
    support admin. *)
Theorem admin_portal_requires_role (af : bool) (db : Db) (tok : option Payload) :
  let admin_with (roles : list string) (a : Admin) :=
    ∃ id, tok = Some (mkPayload (Some id) (Some "admin")) ∧ id ≠ "" ∧
          admins db !! id = Some a ∧ a_is_active a = true ∧ a_role a ∈ roles in
  (∀ roles,
     let out := run_request af (require_role roles tok) db in
     out.2 = db ∧
     (∀ a, out.1 = inr a <-> admin_with roles a) ∧
     (∀ e, out.1 = inl e ->
        ∃ detail, e = HTTPException 401 detail ∨ e = HTTPException 403 detail)) ∧
  (∀ email role new_id,
     serve af db (POST_admin_register tok email role new_id) ≠ db ->
     ∃ a, admin_with ["super_admin"] a) ∧
  (∀ bank_id verified_by now,
     serve af db (PUT_admin_banks_verify tok bank_id verified_by now) ≠ db ->
     ∃ a, admin_with ["super_admin"; "support"] a) ∧
  (∀ bank_id tier started expires,
     serve af db (PUT_admin_banks_subscription tok bank_id tier started expires) ≠ db ->
     ∃ a, admin_with ["super_admin"; "support"] a).
Proof.
  cbn zeta.
  assert (Hrole : ∀ roles (P : (Exn + Admin) * Db -> Prop),
    (∀ id a, tok = Some (mkPayload (Some id) (Some "admin")) -> id ≠ "" ->
       admins db !! id = Some a -> a_is_active a = true -> a_role a ∈ roles ->
       P (inr a, db)) ->
    (∀ detail,
       (∀ id a, tok = Some (mkPayload (Some id) (Some "admin")) -> id ≠ "" ->
          admins db !! id = Some a -> a_is_active a = true -> a_role a ∉ roles) ->
       P (inl (HTTPException 403 detail), db)) ->
    (∀ detail,
       (∀ id a, tok = Some (mkPayload (Some id) (Some "admin")) -> id ≠ "" ->
          admins db !! id = Some a -> a_is_active a = true -> False) ->
       P (inl (HTTPException 401 detail), db)) ->
    P (run_request af (require_role roles tok) db)).
  { intros roles P H1 H2 H3. apply wp_run_request. destruct af; wp_deps; tidy_token.
    all: repeat match goal with
           | H : decide _ = _ |- _ => clear H
           | H : ¬ (_ ∉ _) |- _ => apply dec_stable in H
           end.
    all: first [ by eapply H1
               | apply H2; intros; simplify_eq; done
               | apply H3; intros; simplify_eq; congruence ]. }
  assert (Hguard : ∀ roles,
     (run_request af (require_role roles tok) db).2 = db ∧
     (∀ a, (run_request af (require_role roles tok) db).1 = inr a <->
        ∃ id, tok = Some (mkPayload (Some id) (Some "admin")) ∧ id ≠ "" ∧
              admins db !! id = Some a ∧ a_is_active a = true ∧ a_role a ∈ roles) ∧
     (∀ e, (run_request af (require_role roles tok) db).1 = inl e ->
        ∃ detail, e = HTTPException 401 detail ∨ e = HTTPException 403 detail)).
  { intros roles. apply Hrole; cbn [fst snd].
    - intros id a -> ? ? ? ?. split_and!; [done| |intros; simplify_eq].
      intros a'. split; [intros ?; simplify_eq; by eexists|].
      intros (id' & ? & ? & ? & ?); by simplify_eq.
    - intros detail Hn. split_and!; [done| |intros; simplify_eq; by eauto].
      intros a'. split; [done|]. intros (id' & ? & ? & ? & ? & ?).
      exfalso. by eapply Hn.
    - intros detail Hn. split_and!; [done| |intros; simplify_eq; by eauto].
      intros a'. split; [done|]. intros (id' & ? & ? & ? & ? & ?).
      exfalso. by eapply Hn. }
  split_and!; [done|..]; intros; unfold serve in *; cbn [handle] in *.
  all: match goal with
       | H : (run_request _ (bind (require_role ?roles _) _) _).2 ≠ _ |- _ =>
           destruct (Hguard roles) as (Hsame & Hiff & _);
           apply guarded_change in H as [a Ha]; [|done];
           exists a; by apply Hiff
       end.
Qed.

Lemma first_where_unique db email k d :
  keys_ok db -> emails_unique db ->
  donors db !! k = Some d -> d_email d = email ->
  first_where (fun x => d_email x = email) (donors db) = Some d.
Proof.
  intros Hk [_ Hu] Hd He.
  destruct (first_where _ (donors db)) as [x|] eqn:Hf.
  - apply first_where_lookup in Hf as [Hx Hxe]; [|done].
    assert (d_id x = k) by (eapply Hu; [done..|congruence]).
    congruence.
  - by destruct (first_where_None _ _ _ _ Hf Hd).
Qed.

Lemma create_account_success af db email h docs :
  keys_ok db ->
  response af db (POST_donor_account email h docs) = inr tt ->
  ∃ d d', donors db !! d_id d = Some d ∧ d_email d = email ∧
          d_state d = DonorState.LEAD_CREATED ∧
          donors (serve af db (POST_donor_account email h docs)) !! d_id d = Some d' ∧
          d_id d' = d_id d ∧ d_email d' = email ∧
          d_state d' = DonorState.ACCOUNT_CREATED ∧ d_hashed_password d' = Some h.
Proof.
  intros Hk. unfold response, serve. wp_start. cbn [handle].
  destruct af; wp_handler; resolve_first_where Hk; intros; simplify_eq.
  all: repeat match goal with
         | H : decide _ = _ |- _ => clear H
         | H : ¬ (_ ≠ _) |- _ => apply dec_stable in H
         end.
  all: eexists _, _; split_and!; [eassumption|done|done|apply lookup_insert_eq|done..].
Qed.

Lemma create_account_rejected af db email h docs k d :
  keys_ok db -> emails_unique db ->
  donors db !! k = Some d -> d_email d = email ->
  d_state d ≠ DonorState.LEAD_CREATED ->
  response af db (POST_donor_account email h docs)
  = inl (HTTPException 400 "Account already created or invalid state").
Proof.
  intros Hk Hu Hd He Hs.
  pose proof (first_where_unique _ _ _ _ Hk Hu Hd He) as Hf.
  unfold response. wp_start. cbn [handle].
  destruct af; wp_handler; simplify_eq; done.
Qed.

Lemma login_donor_run verify_password af db email password k d :
  keys_ok db -> emails_unique db ->
  donors db !! k = Some d -> d_email d = email ->
  run_request af (login_donor verify_password email password) db
  = (match d_hashed_password d with
     | Some hashed =>
         if bool_decide (hashed ≠ "") && verify_password password hashed
         then inr (mkTokenResponse (mkPayload (Some (d_id d)) (Some "donor"))
                     "bearer" "donor" (d_id d))
         else inl (HTTPException 401 "Invalid email or password")
     | None => inl (HTTPException 401 "Invalid email or password")
     end, db).
Proof.
  intros Hk Hu Hd He.
  pose proof (first_where_unique _ _ _ _ Hk Hu Hd He) as Hf.
  wp_start. unfold login_donor.
  destruct af; wp_run; simplify_eq; try done.
  all: try match goal with H : d_hashed_password _ = _ |- _ => rewrite H end.
  all: cbn; try done.
  all: match goal with
       | H : negb _ = true |- _ => apply negb_true_iff in H; rewrite H
       | H : negb _ = false |- _ => apply negb_false_iff in H; rewrite H
       end.
  all: rewrite ?andb_false_r; try done.
  all: by rewrite bool_decide_eq_true_2.
Qed.

(** X20.  In a reachable database, a [create_account] that succeeds found a lead
    in [LEAD_CREATED] with that email and leaves it in [ACCOUNT_CREATED] with
    the given password hash; from then on [login_donor] succeeds exactly with a
    password the hash verifies, provided the hash is not empty, and every
    later [create_account] for that email is refused with 400, whatever
    requests come in between. *)
Theorem account_is_created_once
    (verify_password : string -> string -> bool) (af : bool)
    (admins0 : gmap string Admin) (rs : list Request)
    (email hashed_password : string) (legal_documents : option (list string)) :
  let db := serve_all af (initial_db admins0) rs in
  let r := POST_donor_account email hashed_password legal_documents in
  response af db r = inr tt ->
  ∃ d d',
    donors db !! d_id d = Some d ∧ d_email d = email ∧
    d_state d = DonorState.LEAD_CREATED ∧
    donors (serve af db r) !! d_id d = Some d' ∧
    d_state d' = DonorState.ACCOUNT_CREATED ∧
    d_hashed_password d' = Some hashed_password ∧
    (∀ password,
       (run_request af (login_donor verify_password email password) (serve af db r)).1
       = if bool_decide (hashed_password ≠ "") && verify_password password hashed_password
         then inr (mkTokenResponse (mkPayload (Some (d_id d)) (Some "donor"))
                     "bearer" "donor" (d_id d))
         else inl (HTTPException 401 "Invalid email or password")) ∧
    (∀ rs' hashed_password' legal_documents',
       let db' := serve_all af (serve af db r) rs' in
       response af db' (POST_donor_account email hashed_password' legal_documents')
       = inl (HTTPException 400 "Account already created or invalid state")).
Proof.
  intros db r Hok.
  assert (Hk : keys_ok db) by apply serve_all_keys_ok, initial_keys_ok.
  assert (Hk' : keys_ok (serve af db r)) by by apply serve_keys_ok.
  assert (Hu' : emails_unique (serve af db r)).
  { change (emails_unique (serve_all af (serve_all af (initial_db admins0) rs) [r])).
    unfold serve_all. rewrite <-foldl_app.
    apply (serve_all_invariant emails_unique write_emails_unique);
      [apply initial_keys_ok|].
    split; intros k1 k2 x1 x2; cbn; by rewrite lookup_empty. }
  destruct (create_account_success _ _ _ _ _ Hk Hok)
    as (d & d' & Hd & He & Hs & Hd' & Hid & He' & Hs' & Hp').
  exists d, d'. split_and!; try done.
  - intros password.
    rewrite (login_donor_run verify_password af _ email password _ d' Hk' Hu' Hd' He').
    cbn [fst]. by rewrite Hp', Hid.
  - intros rs' h' docs' db'.
    assert (Hk'' : keys_ok db') by by apply serve_all_keys_ok.
    assert (Hu'' : emails_unique db').
    { unfold db'. change (serve af db r) with (serve_all af db [r]).
      unfold db, serve_all. rewrite <-!foldl_app.
      apply (serve_all_invariant emails_unique write_emails_unique);
        [apply initial_keys_ok|].
      split; intros k1 k2 x1 x2; cbn; by rewrite lookup_empty. }
    destruct (serve_all_rows af (serve af db r) rs' Hk') as [_ Hrows].
    destruct (Hrows _ _ Hd') as (d'' & Hd'' & Hstep).
    destruct Hstep as (? & ? & ? & ? & Hrank & _).
    eapply (create_account_rejected af db' email h' docs' _ d''); try done.
    + congruence.
    + intros Hx. rewrite Hx, Hs' in Hrank. cbn in Hrank. lia.
Qed.

Lemma get_bank_details_run af db bank_id :
  keys_ok db ->
  run_request af (Public.get_bank_details bank_id) db
  = (match banks db !! bank_id with
     | Some bank =>
         if b_is_verified bank && b_is_subscribed bank then inr bank
         else inl (HTTPException 404 "Bank not found")
     | None => inl (HTTPException 404 "Bank not found")
     end, db).
Proof.
  intros [_ Hk].
  assert (Hf : first_where (fun b => b_id b = bank_id ∧ b_is_verified b = true
                                     ∧ b_is_subscribed b = true) (banks db)
               = match banks db !! bank_id with
                 | Some bank =>
                     if b_is_verified bank && b_is_subscribed bank then Some bank else None
                 | None => None
                 end).
  { destruct (first_where _ (banks db)) as [x|] eqn:Hf.
    - apply first_where_Some in Hf as [(Hid & Hv & Hs) [k Hx]].
      pose proof (Hk _ _ Hx). simplify_eq. by rewrite Hx, Hv, Hs.
    - destruct (banks db !! bank_id) as [bank|] eqn:Hb; [|done].
      pose proof (first_where_None _ _ _ _ Hf Hb) as Hn. cbn beta in Hn.
      destruct (b_is_verified bank) eqn:?, (b_is_subscribed bank) eqn:?; try done.
      destruct Hn. split_and!; try done. by eapply Hk. }
  wp_start. unfold Public.get_bank_details.
  destruct af; wp_run; db_simpl; rewrite Hf in *.
  all: destruct (banks db !! bank_id) as [bank|]; try done.
  all: destruct (b_is_verified bank && b_is_subscribed bank); by simplify_eq.
Qed.

Lemma validate_lead_creation_run af db email bank_id :
  run_request af (DonorService.validate_lead_creation email bank_id) db
  = (match first_where (fun d => d_email d = email) (donors db) with
     | Some _ => inl (HTTPException 400 "Donor with this email already exists")
     | None =>
         match banks db !! bank_id with
         | None => inl (HTTPException 404 "Bank not found")
         | Some bank =>
             if negb (b_is_verified bank) then
               inl (HTTPException 400 "Bank is not verified")
             else if negb (b_is_subscribed bank) then
               inl (HTTPException 400 "Bank does not have an active subscription")
             else inr bank
         end
     end, db).
Proof.
  wp_start. unfold DonorService.validate_lead_creation.
  destruct af; wp_run; done.
Qed.

Lemma create_lead_run af db bank_id email new_id now :
  donors db !! new_id = None ->
  run_request af (create_lead bank_id email new_id now) db
  = match banks db !! bank_id with
    | None => (inl (HTTPException 400 "Invalid or inactive bank"), db)
    | Some bank =>
        if negb (b_is_verified bank) || negb (b_is_subscribed bank) then
          (inl (HTTPException 400 "Invalid or inactive bank"), db)
        else
          match first_where (fun d => d_email d = email) (donors db) with
          | Some _ => (inl (HTTPException 400 "Email already registered"), db)
          | None =>
              (inr new_id,
               with_donor_state_history
                 (donor_state_history db ++
                    [mkDonorStateHistory new_id (Some DonorState.BANK_SELECTED)
                       DonorState.LEAD_CREATED new_id "donor"
                       (Some "Lead created with bank selection")])
                 (with_donors
                    (<[new_id := mkDonor new_id email None DonorState.LEAD_CREATED
                                   (Some (b_id bank)) (Some now) None true true true
                                   EligibilityStatus.PENDING None None]> (donors db)) db))
          end
    end.
Proof.
  intros Hnew. wp_start. unfold create_lead.
  destruct af; wp_run; db_simpl; simplify_eq; try done.
  all: cbn [d_id] in *; try congruence.
  all: unfold apply_donor_transition, with_d_state; cbn.
  all: by rewrite insert_insert_eq.
Qed.

(** X21.  For a fresh donor id, [create_lead] succeeds exactly when
    [DonorService.validate_lead_creation] does: the bank is one that
    [get_bank_details] of the public API shows (stored, verified, subscribed)
    and no donor has the email.  Then it stores the donor in [LEAD_CREATED]
    with one history row; otherwise it answers 400 and changes nothing. *)
Theorem create_lead_outcome (af : bool) (db : Db) (bank_id email new_id : string)
    (now : nat) :
  keys_ok db -> donors db !! new_id = None ->
  let out := run_request af (create_lead bank_id email new_id now) db in
  let listed := (run_request af (Public.get_bank_details bank_id) db).1 in
  let valid :=
    (run_request af (DonorService.validate_lead_creation email bank_id) db).1 in
  (∀ bank, listed = inr bank <->
     banks db !! bank_id = Some bank ∧ b_is_verified bank = true
     ∧ b_is_subscribed bank = true) ∧
  (∀ bank, valid = inr bank <->
     listed = inr bank ∧ ∀ k d, donors db !! k = Some d -> d_email d ≠ email) ∧
  (∀ bank, valid = inr bank ->
     out.1 = inr new_id ∧
     banks out.2 = banks db ∧
     donors out.2
     = <[new_id := mkDonor new_id email None DonorState.LEAD_CREATED (Some bank_id)
                     (Some now) None true true true EligibilityStatus.PENDING None None]>
         (donors db) ∧
     donor_state_history out.2
     = (donor_state_history db ++
          [mkDonorStateHistory new_id (Some DonorState.BANK_SELECTED)
             DonorState.LEAD_CREATED new_id "donor"
             (Some "Lead created with bank selection")])%list) ∧
  ((∀ bank, valid ≠ inr bank) ->
   out.2 = db ∧ ∃ detail, out.1 = inl (HTTPException 400 detail)).
Proof.
  intros Hk Hnew. cbn zeta.
  rewrite get_bank_details_run, validate_lead_creation_run, create_lead_run by done.
  cbn [fst snd].
  assert (He : ∀ x, first_where (fun d => d_email d = email) (donors db) = Some x ->
                    ¬ ∀ k d, donors db !! k = Some d -> d_email d ≠ email).
  { intros x [? [k ?]]%first_where_Some Hn. by eapply Hn. }
  assert (Hn : first_where (fun d => d_email d = email) (donors db) = None ->
               ∀ k d, donors db !! k = Some d -> d_email d ≠ email).
  { intros Hf k d Hd. exact (first_where_None _ _ _ _ Hf Hd). }
  destruct (banks db !! bank_id) as [bank|] eqn:Hb.
  2: { split_and!.
       - intros bank. split; [done|]. by intros [? _].
       - intros bank. destruct (first_where _ _); split; try done; by intros [? _].
       - intros bank. by destruct (first_where _ _).
       - intros _. split; [done|]. by eexists. }
  assert (b_id bank = bank_id) by by eapply Hk.
  destruct (b_is_verified bank) eqn:Hv, (b_is_subscribed bank) eqn:Hs; cbn.
  all: destruct (first_where _ (donors db)) as [x|] eqn:Hf; cbn.
  all: try specialize (He _ eq_refl); try specialize (Hn eq_refl).
  all: split_and!.
  all: try (intros b'; split; [intros ?; by simplify_eq|]).
  all: try (intros (? & ? & ?); by simplify_eq).
  all: try (intros [? ?]; by simplify_eq).
  all: try (intros b' ?; by simplify_eq).
  all: try (intros _; split; [done|by eexists]).
  all: try (intros Hx; by destruct (Hx bank)).
  all: intros (? & ? & ?); simplify_eq; congruence.
Qed.

Lemma validate_counseling_method_spec bank method :
  CounselingService.validate_counseling_method bank method = inr true <->
  ∀ methods, b_counseling_config bank = Some methods -> methods ≠ [] -> method ∈ methods.
Proof.
  unfold CounselingService.validate_counseling_method.
  destruct (b_counseling_config bank) as [[|m l]|]; [split; [intros; by simplify_eq|done]| |done].
  destruct (decide (method ∉ m :: l)) as [Hn|Hn]; split; try done.
  - intros Hx. destruct Hn. by apply Hx.
  - intros _ methods ? _. simplify_eq. by apply dec_stable.
Qed.

(** X22.  For a stored donor and a fresh session id, [request_counseling]
    succeeds exactly when [can_request_counseling] holds, the donor's bank
    exists, its list of methods is not empty and
    [CounselingService.validate_counseling_method] accepts the method.  Then
    it appends the session, moves the donor to [COUNSELING_REQUESTED] and
    records the move; a failure changes nothing and, when the donor's bank
    exists, is a 400. *)
Theorem request_counseling_outcome (af : bool) (db : Db) (donor_id : string) (d : Donor)
    (method : CounselingMethod.t) (notes : option string) (new_id : string) :
  donors db !! donor_id = Some d ->
  new_id ∉ s_id <$> counseling_sessions db ->
  let out := run_request af (request_counseling donor_id method notes new_id) db in
  (out.1 = inr new_id <->
     can_request_counseling d = true ∧
     ∃ bank_id bank,
       d_bank_id d = Some bank_id ∧ bank_id ≠ "" ∧ banks db !! bank_id = Some bank ∧
       b_counseling_config bank ≠ Some [] ∧
       CounselingService.validate_counseling_method bank method = inr true) ∧
  (out.1 = inr new_id ->
     ∃ bank_id, d_bank_id d = Some bank_id ∧
     out.2 = with_donor_state_history
               (donor_state_history db ++
                  [mkDonorStateHistory (d_id d) (Some DonorState.ACCOUNT_CREATED)
                     DonorState.COUNSELING_REQUESTED (d_id d) "donor"
                     (Some "Counseling requested")])
               (with_donors
                  (<[donor_id := with_d_state DonorState.COUNSELING_REQUESTED d]> (donors db))
                  (with_counseling_sessions
                     (counseling_sessions db ++
                        [mkCounselingSession new_id (d_id d) bank_id
                           CounselingStatus.REQUESTED method notes]) db))) ∧
  (∀ e, out.1 = inl e ->
     out.2 = db ∧
     ((∀ bank_id, d_bank_id d = Some bank_id -> bank_id ≠ "" ->
         is_Some (banks db !! bank_id)) ->
      ∃ detail, e = HTTPException 400 detail)).
Proof.
  intros Hd Hnew. cbn zeta. unfold can_request_counseling.
  wp_start. unfold request_counseling.
  destruct af; wp_run; db_simpl; simplify_eq.
  all: repeat match goal with
         | H : decide _ = _ |- _ => clear H
         | H : ¬ (_ ≠ _) |- _ => apply dec_stable in H
         | H : ¬ (_ ∉ _) |- _ => apply dec_stable in H
         | H : bool_decide _ = true |- _ => apply bool_decide_eq_true_1 in H
         | H : bool_decide _ = false |- _ => apply bool_decide_eq_false_1 in H
         end.
  all: try (match goal with H : ¬ (_ ∉ _) |- _ => apply dec_stable in H end).
  all: try (exfalso; match goal with H : _ ∈ s_id <$> _ |- _ => by apply Hnew end).
  all: try (match goal with
            | H : can_transition_donor_state (d_state ?x) _ = false, H' : d_state ?x = _ |- _ =>
                by rewrite H' in H
            end).
  all: split_and!.
  all: try (intros ? ?; simplify_eq; split; [done|by eauto]).
  all: try (intros ?; by simplify_eq).
  all: try (intros e' ?; simplify_eq; split; [done|]; intros Hfk;
            match goal with
            | H : d_bank_id _ = Some ?b, H' : banks _ !! ?b = None |- _ =>
                destruct (Hfk _ H) as [? ?]; [done|congruence]
            end).
  all: try (intros _; eexists; split; [done|];
            unfold apply_donor_transition; cbn;
            match goal with H : d_state _ = _ |- _ => by rewrite H end).
  all: try (split; [done|];
            intros [Hs (bid & bank & Hb & Hne & Hbank & Hcfg & Hv)]; simplify_eq;
            apply bool_decide_eq_true_1 in Hs;
            rewrite validate_counseling_method_spec in Hv;
            first [ done | congruence
                  | match goal with
                    | H : b_counseling_config _ = Some ?l, H' : _ ∉ ?l |- _ =>
                        destruct H'; apply (Hv _ H); congruence
                    end ]).
  all: try (intros e' ?; simplify_eq; split; [done|]; intros Hfk;
            destruct (Hfk _ eq_refl) as [? ?]; [done|congruence]).
  all: split; [intros _|done].
  all: (split; [by apply bool_decide_eq_true_2|]).
  all: eexists _, _; split_and!; [done|done|eassumption|..].
  all: try congruence.
  all: try (apply validate_counseling_method_spec; intros; by simplify_eq).
  all: intros ?; simplify_eq.
  all: match goal with H : _ ∈ [] |- _ => by apply elem_of_nil in H end.
Qed.

(** X23.  In a reachable database [update_consent_template] keeps the number,
    the ids and the banks of all templates and changes banks, donors and
    consents not at all; a template it changes has the requested id, belongs
    to the bank of the token, and has an order between 1 and 4 afterwards. *)
Theorem templates_of_other_banks_untouched
    (af : bool) (admins0 : gmap string Admin) (rs : list Request)
    (tok : option Payload) (template_id : string) (file : option (Exn + string))
    (title : option string) (order : option Z) (is_active : option bool) :
  let db := serve_all af (initial_db admins0) rs in
  let db' := serve af db
               (PUT_bank_consents_templates tok template_id file title order is_active) in
  banks db' = banks db ∧ donors db' = donors db ∧
  donor_consents db' = donor_consents db ∧
  length (consent_templates db') = length (consent_templates db) ∧
  ∀ i t, consent_templates db !! i = Some t ->
    ∃ t', consent_templates db' !! i = Some t' ∧
          t_id t' = t_id t ∧ t_bank_id t' = t_bank_id t ∧
          (t' ≠ t ->
           t_id t = template_id ∧
           tok = Some (mkPayload (Some (t_bank_id t)) (Some "bank")) ∧
           (1 ≤ t_order t' ≤ 4)%Z).
Proof.
  intros db.
  assert (Hs : templates_sound db).
  { apply serve_all_invariant.
    - apply write_templates_sound.
    - apply initial_keys_ok.
    - split; cbn; [apply NoDup_nil_2|by intros x ?%elem_of_nil]. }
  destruct Hs as [Hnd Hrange]. generalize dependent db. intros db Hnd Hrange. cbn zeta.
  unfold serve. wp_start. cbn [handle].
  destruct af; wp_handler; tidy_token.
  all: repeat match goal with
         | H : decide _ = _ |- _ => clear H
         | H : head (filter _ _) = Some _ |- _ =>
             apply head_filter_Some in H as [[? ?] ?]; cbn beta in *
         end.
  all: split_and!; try done; rewrite ?length_fmap; try done.
  all: try (intros i t Hi; exists t; split_and!; done).
  all: intros i t Hi; rewrite ?list_lookup_fmap, Hi; cbn.
  all: eexists; split; [reflexivity|].
  all: repeat (case_decide; cbn in * ); try congruence.
  all: try (split_and!; [done|done|]; intros Hx; by destruct Hx).
  all: assert (t = c) as ->
         by (eapply (NoDup_fmap_inj_on t_id); [exact Hnd| |done|done];
             by eapply list_elem_of_lookup_2).
  all: split_and!; try done.
  all: intros _; split_and!; try done; try congruence; try lia.
  all: try (destruct (Hrange c) as [Hr _]; [done|]; unfold order_in_range in Hr; lia).
Qed.

(** * The activity log *)









(** * Runs *)

Lemma failed_request_changes_nothing_witness :
  response false db_account_created rename_with_bad_order
  = inl (HTTPException 400 "Consent order must be between 1 and 4") ∧
  serve false db_account_created rename_with_bad_order = db_account_created.
Proof.
  split; [vm_compute; reflexivity|].
  apply (failed_request_changes_nothing false db_account_created rename_with_bad_order
           (HTTPException 400 "Consent order must be between 1 and 4")).
  - apply one_donor_db_keys_ok. reflexivity.
  - vm_compute. reflexivity.
Defined.

Lemma only_the_admin_portal_verifies_witness :
  (∃ b', banks (serve_all false db0 self_service) !! "b1" = Some b' ∧
         b_is_verified b' = false) ∧
  donors (serve_all false db0 self_service) = ∅.
Proof.
  pose proof (only_the_admin_portal_verifies false self_service
                ltac:(vm_compute; reflexivity)) as [Hb Hd].
  split; [|apply Hd].
  destruct (Hb db0 (initial_keys_ok _)) as [_ Hnew].
  eexists. split; [vm_compute; reflexivity|].
  eapply (Hnew "b1"); vm_compute; reflexivity.
Defined.

Lemma verified_bank_pending_forever_witness :
  ∃ b', banks (serve_all false verified_early_db
                 [POST_bank_subscription (token "b1" "bank") "gold" 6; admin_subscribes])
          !! "b1" = Some b' ∧
        b_state b' = BankState.VERIFICATION_PENDING ∧ b_is_verified b' = true.
Proof.
  apply (verified_bank_pending_forever false verified_early_db _ "b1"
           (mkBank "b1" "bank@example.com" "hash" "Bank One"
              BankState.VERIFICATION_PENDING (Some ["cert.pdf"]) true (Some 5)
              (Some "admin-1") false None None None None)).
  - apply serve_all_keys_ok, initial_keys_ok.
  - vm_compute. reflexivity.
  - reflexivity.
  - reflexivity.
Defined.

Lemma stored_rows_keep_their_identity_witness :
  ∃ d', donors (serve_all false db_account_created
                  [POST_donor_counseling_request (token "d1" "donor")
                     CounselingMethod.VIDEO None "s1";
                   POST_donor_account "donor@example.com" "other" None])
          !! "d1" = Some d' ∧
        d_email d' = "donor@example.com" ∧ d_bank_id d' = Some "b1" ∧
        d_hashed_password d' = Some "hash".
Proof.
  destruct (stored_rows_keep_their_identity false db_account_created
              [POST_donor_counseling_request (token "d1" "donor")
                 CounselingMethod.VIDEO None "s1";
               POST_donor_account "donor@example.com" "other" None]
              ltac:(apply one_donor_db_keys_ok; reflexivity)) as [_ Hd].
  destruct (Hd "d1" (donor1 DonorState.ACCOUNT_CREATED "b1") ltac:(vm_compute; reflexivity))
    as (d' & Hl & _ & He & Hb & _ & Hp & _).
  exists d'. split_and!; [exact Hl|exact He|exact Hb|].
  apply Hp. vm_compute. lia.
Defined.

Lemma login_donor_outcome_witness :
  let out := run_request false
               (login_donor plain_password "donor@example.com" "hash")
               db_account_created in
  out.2 = db_account_created ∧
  (∀ e, out.1 = inl e -> e = HTTPException 401 "Invalid email or password") ∧
  (∀ r, out.1 = inr r ->
     ∃ d h,
       donors db_account_created !! user_id r = Some d ∧
       d_email d = "donor@example.com" ∧
       d_hashed_password d = Some h ∧ plain_password "hash" h = true ∧
       user_type r = "donor" ∧
       run_request false (get_current_donor (Some (access_token r))) db_account_created
         = (inr (user_id r), db_account_created)).
Proof.
  apply (login_donor_outcome plain_password false db_account_created
           "donor@example.com" "hash").
  apply one_donor_db_keys_ok. reflexivity.
Defined.

Lemma account_is_created_once_witness :
  let db := serve_all false (initial_db {[ "a1" := root_admin ]}) onboarding in
  let r := POST_donor_account "donor@example.com" "hash" None in
  ∃ d d',
    donors db !! d_id d = Some d ∧ d_email d = "donor@example.com" ∧
    d_state d = DonorState.LEAD_CREATED ∧
    donors (serve false db r) !! d_id d = Some d' ∧
    d_state d' = DonorState.ACCOUNT_CREATED ∧
    d_hashed_password d' = Some "hash" ∧
    (∀ password,
       (run_request false (login_donor plain_password "donor@example.com" password)
          (serve false db r)).1
       = if bool_decide ("hash" ≠ "") && plain_password password "hash"
         then inr (mkTokenResponse (mkPayload (Some (d_id d)) (Some "donor"))
                     "bearer" "donor" (d_id d))
         else inl (HTTPException 401 "Invalid email or password")) ∧
    (∀ rs' hashed_password' legal_documents',
       let db' := serve_all false (serve false db r) rs' in
       response false db' (POST_donor_account "donor@example.com" hashed_password'
                             legal_documents')
       = inl (HTTPException 400 "Account already created or invalid state")).
Proof.
  apply (account_is_created_once plain_password false {[ "a1" := root_admin ]}
           onboarding "donor@example.com" "hash" None).
  vm_compute. reflexivity.
Defined.

Lemma create_lead_outcome_witness :
  let out := run_request false (create_lead "b1" "second@example.com" "d2" 8)
               db_account_created in
  out.1 = inr "d2" ∧
  banks out.2 = banks db_account_created ∧
  donors out.2
  = <["d2" := mkDonor "d2" "second@example.com" None DonorState.LEAD_CREATED (Some "b1")
                (Some 8) None true true true EligibilityStatus.PENDING None None]>
      (donors db_account_created) ∧
  donor_state_history out.2
  = (donor_state_history db_account_created ++
       [mkDonorStateHistory "d2" (Some DonorState.BANK_SELECTED)
          DonorState.LEAD_CREATED "d2" "donor"
          (Some "Lead created with bank selection")])%list.
Proof.
  apply (proj1 (proj2 (proj2
           (create_lead_outcome false db_account_created "b1" "second@example.com" "d2" 8
              ltac:(apply one_donor_db_keys_ok; reflexivity)
              ltac:(vm_compute; reflexivity)))) bank1).
  vm_compute. reflexivity.
Defined.

Lemma request_counseling_outcome_witness :
  let out := run_request false
               (request_counseling "d1" CounselingMethod.VIDEO None "s1")
               db_account_created in
  out.1 = inr "s1" ∧
  ∃ bank_id, d_bank_id (donor1 DonorState.ACCOUNT_CREATED "b1") = Some bank_id ∧
    counseling_sessions out.2
    = [mkCounselingSession "s1" "d1" bank_id CounselingStatus.REQUESTED
         CounselingMethod.VIDEO None].
Proof.
  pose proof (request_counseling_outcome false db_account_created "d1"
                (donor1 DonorState.ACCOUNT_CREATED "b1") CounselingMethod.VIDEO None "s1"
                ltac:(vm_compute; reflexivity)
                ltac:(vm_compute; intros H; inversion H)) as (Hiff & Hok & _).
  cbn zeta in *.
  assert (Hr : (run_request false
                  (request_counseling "d1" CounselingMethod.VIDEO None "s1")
                  db_account_created).1 = inr "s1") by (vm_compute; reflexivity).
  split; [exact Hr|].
  destruct (Hok Hr) as (bank_id & Hb & Hout). exists bank_id. split; [exact Hb|].
  rewrite Hout. reflexivity.
Defined.


Lemma bank_rows_are_sound_witness :
  ∃ b, banks (serve_all false db0 onboarding) !! "b1" = Some b ∧
       b_state b = BankState.OPERATIONAL ∧
       b_is_verified b = true ∧ b_is_subscribed b = true ∧
       ∃ l url, b_certification_documents b = Some (l ++ [url])%list.
Proof.
  assert (Hb : banks (serve_all false db0 onboarding) !! "b1" = Some bank1)
    by (vm_compute; reflexivity).
  exists bank1. split; [exact Hb|].
  split; [reflexivity|].
  destruct (bank_rows_are_sound false _ onboarding "b1" bank1 Hb)
    as (_ & _ & Hv & Hs & Hc & _).
  split_and!.
  - apply Hv. vm_compute. lia.
  - apply Hs. vm_compute. lia.
  - apply Hc. vm_compute. lia.
Defined.

Lemma donor_rows_are_sound_witness :
  ∃ d, donors (serve_all false db0 onboarding) !! "d1" = Some d ∧
       d_state d = DonorState.LEAD_CREATED ∧
       ∃ bank, d_bank_id d = Some (b_id bank) ∧
               banks (serve_all false db0 onboarding) !! b_id bank = Some bank ∧
               b_is_verified bank = true ∧ b_is_subscribed bank = true.
Proof.
  assert (Hd : donors (serve_all false db0 onboarding) !! "d1"
               = Some (mkDonor "d1" "donor@example.com" None DonorState.LEAD_CREATED
                         (Some "b1") (Some 7) None true true true
                         EligibilityStatus.PENDING None None))
    by (vm_compute; reflexivity).
  eexists. split; [exact Hd|].
  split; [reflexivity|].
  apply (donor_rows_are_sound false _ onboarding "d1" _ Hd).
Defined.
